(** * Teaching-analytics: the prompt analyzer and the custom query builder

    A shallow embedding of [src/src/prompt_analyzer.py] (class
    [PromptAnalyzer]) and of [create_custom_visualization] in
    [src/deployment/visualization_generator.py], followed by the
    properties established about them.

    Conventions of the embedding.
    - A Python [str] is a [string]; one character is one code point below
      256.  [lower_char], [isspace] and [isdigit] follow [str.lower],
      [str.isspace] and the regular-expression classes on that range.
    - A Python [int] is a [Z].
    - A Python [dict] whose iteration order is never observed is a
      [gmap string _]; the [filters] dictionary, which the query builder
      walks with [items()], is an association list in insertion order.
    - A raising statement is a [Raise] in the [result] monad; the
      dictionaries reachable from [self.templates] live in a store of
      objects addressed by locations, so that aliasing is visible.
    - The database and the plotting library are parameters of the section
      that embeds the code calling them. *)

From Stdlib Require Import ZArith QArith Ascii String List Bool Lia DecimalString.
From stdpp Require Import base option strings gmap.

Close Scope Q_scope.
Local Open Scope Z_scope.

(* ===================================================================== *)
(** ** Characters and strings, as Python's [str] methods use them        *)
(* ===================================================================== *)

Module Text.

Definition code (c : ascii) : N := N_of_ascii c.

Definition in_range (lo hi : N) (c : ascii) : bool :=
  ((lo <=? code c) && (code c <=? hi))%N.

(** The class [[a-zA-Z]]. *)
Definition isalpha_ascii (c : ascii) : bool :=
  in_range 97 122 c || in_range 65 90 c.

(** The class [\d]. *)
Definition isdigit (c : ascii) : bool := in_range 48 57 c.

(** [str.isspace] and the class [\s]: TAB..CR, FS..US, space, NEL, NBSP. *)
Definition isspace (c : ascii) : bool :=
  in_range 9 13 c || in_range 28 32 c || (code c =? 133)%N || (code c =? 160)%N.

(** [str.lower] on one character: A..Z and the Latin-1 capitals. *)
Definition lower_char (c : ascii) : ascii :=
  if in_range 65 90 c || in_range 192 214 c || in_range 216 222 c
  then ascii_of_N (code c + 32)
  else c.

Fixpoint lower (s : string) : string :=
  match s with
  | EmptyString => EmptyString
  | String c s' => String (lower_char c) (lower s')
  end.

(** [s.startswith(k)]. *)
Fixpoint startswith (k s : string) : bool :=
  match k, s with
  | EmptyString, _ => true
  | String a k', String b s' => if Ascii.eqb a b then startswith k' s' else false
  | String _ _, EmptyString => false
  end.

(** [k in s] for two strings. *)
Fixpoint contains (k s : string) : bool :=
  startswith k s ||
  match s with
  | EmptyString => false
  | String _ s' => contains k s'
  end.

Fixpoint all_chars (p : ascii -> bool) (s : string) : bool :=
  match s with
  | EmptyString => true
  | String c s' => p c && all_chars p s'
  end.

Fixpoint lstrip (s : string) : string :=
  match s with
  | EmptyString => EmptyString
  | String c s' => if isspace c then lstrip s' else s
  end.

Fixpoint rstrip (s : string) : string :=
  match s with
  | EmptyString => EmptyString
  | String c s' =>
      match rstrip s' with
      | EmptyString => if isspace c then EmptyString else String c EmptyString
      | t => String c t
      end
  end.

(** [s.strip()]. *)
Definition strip (s : string) : string := rstrip (lstrip s).

Definition head (s : string) : option ascii :=
  match s with EmptyString => None | String c _ => Some c end.

Fixpoint last (s : string) : option ascii :=
  match s with
  | EmptyString => None
  | String c EmptyString => Some c
  | String _ s' => last s'
  end.

(** [", ".join(l)] and friends. *)
Fixpoint join (sep : string) (l : list string) : string :=
  match l with
  | [] => EmptyString
  | [x] => x
  | x :: rest => x +:+ sep +:+ join sep rest
  end.

(** [c * n] for a one-character string [c]. *)
Fixpoint repeat_char (c : ascii) (n : nat) : string :=
  match n with
  | O => EmptyString
  | S n' => String c (repeat_char c n')
  end.

(** The value of a string of decimal digits. *)
Definition digit_value (c : ascii) : Z := Z.of_N (code c) - 48.

Fixpoint int_of_digits_from (acc : Z) (s : string) : Z :=
  match s with
  | EmptyString => acc
  | String c s' => int_of_digits_from (10 * acc + digit_value c) s'
  end.

Definition int_of_digits (s : string) : Z := int_of_digits_from 0 s.

(** [str(n)] for an integer. *)
Definition str_of_int (n : Z) : string := NilEmpty.string_of_int (Z.to_int n).

(** [s.capitalize()]: the first character in its capital form, the rest
    lower-cased.  The capital of a..z and of the Latin-1 letters U+00E0 to
    U+00FE (the sign U+00F7 apart) is 32 below; the capital form of U+00DF
    is the two letters [Ss].  The capitals of U+00B5 and U+00FF lie beyond
    Latin-1: these two are left as they are. *)
Definition upper_char (c : ascii) : ascii :=
  if in_range 97 122 c || in_range 224 246 c || in_range 248 254 c
  then ascii_of_N (code c - 32) else c.

Definition capitalize (s : string) : string :=
  match s with
  | EmptyString => EmptyString
  | String c s' =>
      if (code c =? 223)%N then String "S" (String "s" (lower s'))
      else String (upper_char c) (lower s')
  end.

End Text.

(* ===================================================================== *)
(** ** The fragment of Python's [re] that the analyzer uses              *)
(* ===================================================================== *)

Module Re.
Import Text.

(** Patterns: literal text, one-character classes under [+] and [*]
    (greedy), alternation, concatenation and one capturing group. *)
Inductive regex : Type :=
| Lit (l : string)
| Plus (p : ascii -> bool)
| Star (p : ascii -> bool)
| Alt (r1 r2 : regex)
| Cat (r1 r2 : regex)
| Group (r : regex).

(** Comparison of a pattern character with a text character; [ic] is the
    flag [re.IGNORECASE]. *)
Definition char_match (ic : bool) (a b : ascii) : bool :=
  if ic then Ascii.eqb (lower_char a) (lower_char b) else Ascii.eqb a b.

(** Matching a literal at the head of the text: the text consumed and
    the text left. *)
Fixpoint lit (ic : bool) (l s : string) : option (string * string) :=
  match l, s with
  | EmptyString, _ => Some (EmptyString, s)
  | String a l', String b s' =>
      if char_match ic a b then
        match lit ic l' s' with
        | Some (w, rest) => Some (String b w, rest)
        | None => None
        end
      else None
  | String _ _, EmptyString => None
  end.

Section Backtracking.
Context {A : Type}.

(** Greedy repetition of a class: the longest run is tried first and
    given back one character at a time while the continuation fails. *)
Fixpoint star (p : ascii -> bool) (s : string)
    (k : string -> string -> option A) : option A :=
  match s with
  | String c s' =>
      if p c then
        match star p s' (fun w rest => k (String c w) rest) with
        | Some a => Some a
        | None => k EmptyString s
        end
      else k EmptyString s
  | EmptyString => k EmptyString s
  end.

(** The matcher, in continuation-passing style.  The continuation gets
    the text consumed, the text left and the content of group 1. *)
Fixpoint run (ic : bool) (r : regex) (s : string) (cap : string)
    (k : string -> string -> string -> option A) : option A :=
  match r with
  | Lit l =>
      match lit ic l s with
      | Some (w, rest) => k w rest cap
      | None => None
      end
  | Plus p =>
      match s with
      | String c s' =>
          if p c then star p s' (fun w rest => k (String c w) rest cap)
          else None
      | EmptyString => None
      end
  | Star p => star p s (fun w rest => k w rest cap)
  | Alt r1 r2 =>
      match run ic r1 s cap k with
      | Some a => Some a
      | None => run ic r2 s cap k
      end
  | Cat r1 r2 =>
      run ic r1 s cap (fun w1 s1 cap1 =>
        run ic r2 s1 cap1 (fun w2 s2 cap2 => k (w1 +:+ w2) s2 cap2))
  | Group r' => run ic r' s cap (fun w rest _ => k w rest w)
  end.
End Backtracking.

(** [re.match]: the content of group 1 of a match at the head of [s]. *)
Definition match_here (ic : bool) (r : regex) (s : string) : option string :=
  run ic r s EmptyString (fun _ _ cap => Some cap).

(** [re.search(r, s).group(1)]: the leftmost position with a match. *)
Fixpoint search (ic : bool) (r : regex) (s : string) : option string :=
  match match_here ic r s with
  | Some cap => Some cap
  | None =>
      match s with
      | EmptyString => None
      | String _ s' => search ic r s'
      end
  end.

(** The text [w] is the literal [l], up to case when [ic] is set. *)
Fixpoint lit_matches (ic : bool) (l w : string) : bool :=
  match l, w with
  | EmptyString, EmptyString => true
  | String a l', String b w' => char_match ic a b && lit_matches ic l' w'
  | _, _ => false
  end.

(** What it means for a pattern to match a word: [matches ic r w cap cap']
    holds when [r] matches exactly the text [w] and leaves [cap'] in
    group 1, [cap] being the content of the group before. *)
Inductive matches (ic : bool) : regex -> string -> string -> string -> Prop :=
| M_Lit l w cap :
    lit_matches ic l w = true -> matches ic (Lit l) w cap cap
| M_Plus p w cap :
    w <> EmptyString -> all_chars p w = true -> matches ic (Plus p) w cap cap
| M_Star p w cap :
    all_chars p w = true -> matches ic (Star p) w cap cap
| M_Alt_l r1 r2 w cap cap' :
    matches ic r1 w cap cap' -> matches ic (Alt r1 r2) w cap cap'
| M_Alt_r r1 r2 w cap cap' :
    matches ic r2 w cap cap' -> matches ic (Alt r1 r2) w cap cap'
| M_Cat r1 r2 w1 w2 cap cap1 cap2 :
    matches ic r1 w1 cap cap1 -> matches ic r2 w2 cap1 cap2 ->
    matches ic (Cat r1 r2) (w1 +:+ w2) cap cap2
| M_Group r w cap cap' :
    matches ic r w cap cap' -> matches ic (Group r) w cap w.

(** [r] matches somewhere in [s], with [g] in group 1. *)
Definition occurs (ic : bool) (r : regex) (s g : string) : Prop :=
  exists pre w post, s = pre +:+ w +:+ post /\ matches ic r w EmptyString g.

(** The class [[a-zA-Z\s]]. *)
Definition letter_or_space (c : ascii) : bool := isalpha_ascii c || isspace c.

(** [(?:is|=|:)] *)
Definition is_eq_colon : regex := Alt (Lit "is") (Alt (Lit "=") (Lit ":")).

(** [r'<name>\s+(?:is|=|:)\s+([a-zA-Z\s]+)'], the pattern of the
    industry, region, size, category and stage filters. *)
Definition filter_pattern (name : string) : regex :=
  Cat (Lit name) (Cat (Plus isspace) (Cat is_eq_colon
    (Cat (Plus isspace) (Group (Plus letter_or_space))))).

(** [r'delivery\s+(?:mode|is|=|:)\s+([a-zA-Z\s]+)'] *)
Definition delivery_pattern : regex :=
  Cat (Lit "delivery") (Cat (Plus isspace) (Cat (Alt (Lit "mode") is_eq_colon)
    (Cat (Plus isspace) (Group (Plus letter_or_space))))).

(** [r'top\s+(\d+)'] *)
Definition top_n_pattern : regex :=
  Cat (Lit "top") (Cat (Plus isspace) (Group (Plus isdigit))).

(** [r'\d+'], with the whole match as the group: the first element of
    [re.findall(r'\d+', text)] is the leftmost match. *)
Definition digits_pattern : regex := Group (Plus isdigit).

End Re.

(* ===================================================================== *)
(** ** Python values, exceptions and dictionaries                        *)
(* ===================================================================== *)

Module Py.

Inductive exn : Type :=
| KeyError (key : string)
| TypeError (msg : string)
| Exception (name msg : string).

(** [str(e)] *)
Definition str_of_exn (e : exn) : string :=
  match e with
  | KeyError k => "'" +:+ k +:+ "'"
  | TypeError m => m
  | Exception _ m => m
  end.

Inductive result (A : Type) : Type :=
| Ok (a : A)
| Raise (e : exn).
Arguments Ok {A} a.
Arguments Raise {A} e.

#[global] Instance result_ret : MRet result := fun A a => Ok a.
#[global] Instance result_bind : MBind result := fun A B f m =>
  match m with
  | Ok a => f a
  | Raise e => Raise e
  end.

(** The longest digit string that [int] converts: the default of
    [sys.int_max_str_digits] in CPython. *)
Definition int_max_str_digits : Z := 4300.

(** [int(s)] for a string of decimal digits, leading zeros counted:
    beyond the limit it raises ValueError. *)
Definition int (s : string) : result Z :=
  if Z.of_nat (String.length s) <=? int_max_str_digits then Ok (Text.int_of_digits s)
  else Raise (Exception "ValueError"
                ("Exceeds the limit (4300 digits) for integer string conversion: value has "
                 +:+ Text.str_of_int (Z.of_nat (String.length s))
                 +:+ " digits; use sys.set_int_max_str_digits() to increase the limit")).

(** The [filters] dictionary: keys in insertion order. *)
Definition odict : Type := list (string * string).

Fixpoint odict_set (k v : string) (d : odict) : odict :=
  match d with
  | [] => [(k, v)]
  | (k', v') :: rest =>
      if String.eqb k' k then (k, v) :: rest else (k', v') :: odict_set k v rest
  end.

Fixpoint odict_get (k : string) (d : odict) : option string :=
  match d with
  | [] => None
  | (k', v') :: rest => if String.eqb k' k then Some v' else odict_get k rest
  end.

(** What the analyzer stores in a parameter dictionary. *)
Inductive value : Type :=
| VStr (s : string)
| VInt (n : Z)
| VDict (d : odict).

(** [v == 'text'] *)
Definition eq_str (v : value) (s : string) : bool :=
  match v with
  | VStr t => String.eqb t s
  | _ => false
  end.

(** [d[k]] *)
Definition getitem (d : gmap string value) (k : string) : result value :=
  match d !! k with
  | Some v => Ok v
  | None => Raise (KeyError k)
  end.

(** [d[k1][k2] = v], where [d[k1]] is the filters dictionary. *)
Definition setitem2 (d : gmap string value) (k1 k2 v : string)
    : result (gmap string value) :=
  inner ← getitem d k1;
  match inner with
  | VDict f => Ok (<[k1 := VDict (odict_set k2 v f)]> d)
  | _ => Raise (TypeError "object does not support item assignment")
  end.

End Py.

(* ===================================================================== *)
(** ** [VisualizationGenerator.create_custom_visualization]              *)
(* ===================================================================== *)

Module VisualizationGenerator.
Import Text Py.

(** The five clause lists that the function fills before it joins them. *)
Record clauses : Type := {
  select_clause : list string;
  from_clause : list string;
  where_clause : list string;
  group_by_clause : list string;
  order_by_clause : list string
}.

Definition no_clauses : clauses := Build_clauses [] [] [] [] [].

Definition add_select (x : string) (q : clauses) : clauses :=
  Build_clauses (select_clause q ++ [x]) (from_clause q) (where_clause q)
                (group_by_clause q) (order_by_clause q).
Definition add_from (x : string) (q : clauses) : clauses :=
  Build_clauses (select_clause q) (from_clause q ++ [x]) (where_clause q)
                (group_by_clause q) (order_by_clause q).
Definition add_where (x : string) (q : clauses) : clauses :=
  Build_clauses (select_clause q) (from_clause q) (where_clause q ++ [x])
                (group_by_clause q) (order_by_clause q).
Definition add_group_by (x : string) (q : clauses) : clauses :=
  Build_clauses (select_clause q) (from_clause q) (where_clause q)
                (group_by_clause q ++ [x]) (order_by_clause q).
Definition add_order_by (x : string) (q : clauses) : clauses :=
  Build_clauses (select_clause q) (from_clause q) (where_clause q)
                (group_by_clause q) (order_by_clause q ++ [x]).

(** [x in [a, b, ...]] *)
Definition member (x : string) (l : list string) : bool := existsb (String.eqb x) l.

(** [# Handle entity type] *)
Definition handle_entity (entity_type metric dimension : string) (q : clauses) : clauses :=
  if String.eqb entity_type "clients" then
    let q := add_from "clients c" q in
    let q := if member metric ["revenue"; "profit"; "enrollment_count"]
             then add_from "JOIN enrollments e ON c.client_id = e.client_id" q else q in
    if member dimension ["industry"; "size"; "region"] then
      add_where ("c." +:+ dimension +:+ " IS NOT NULL")
        (add_group_by ("c." +:+ dimension) (add_select ("c." +:+ dimension) q))
    else q
  else if String.eqb entity_type "programs" then
    let q := add_from "programs p" q in
    let q := if member metric ["revenue"; "profit"; "enrollment_count"]
             then add_from "JOIN enrollments e ON p.program_id = e.program_id" q else q in
    if member dimension ["category"; "delivery_mode"] then
      add_where ("p." +:+ dimension +:+ " IS NOT NULL")
        (add_group_by ("p." +:+ dimension) (add_select ("p." +:+ dimension) q))
    else if String.eqb dimension "name" then
      add_group_by "p.program_id" (add_select "p.name" q)
    else q
  else if String.eqb entity_type "enrollments" then
    let q := add_from "enrollments e" q in
    if member dimension ["client"; "client_name"] then
      add_group_by "e.client_id" (add_select "c.name as client_name"
        (add_from "JOIN clients c ON e.client_id = c.client_id" q))
    else if member dimension ["program"; "program_name"] then
      add_group_by "e.program_id" (add_select "p.name as program_name"
        (add_from "JOIN programs p ON e.program_id = p.program_id" q))
    else if String.eqb dimension "delivery_mode" then
      add_where "e.delivery_mode IS NOT NULL"
        (add_group_by "e.delivery_mode" (add_select "e.delivery_mode" q))
    else if String.eqb dimension "month" then
      add_where "e.start_date IS NOT NULL"
        (add_group_by "month" (add_select "strftime('%Y-%m', e.start_date) as month" q))
    else q
  else if String.eqb entity_type "opportunities" then
    let q := add_from "opportunities o" q in
    if member dimension ["client"; "client_name"] then
      add_group_by "o.client_id" (add_select "c.name as client_name"
        (add_from "JOIN clients c ON o.client_id = c.client_id" q))
    else if member dimension ["program"; "program_name"] then
      add_group_by "o.program_id" (add_select "p.name as program_name"
        (add_from "JOIN programs p ON o.program_id = p.program_id" q))
    else if String.eqb dimension "stage" then
      add_group_by "o.stage" (add_select "o.stage" q)
    else if String.eqb dimension "month" then
      add_where "o.created_date IS NOT NULL"
        (add_group_by "month" (add_select "strftime('%Y-%m', o.created_date) as month" q))
    else q
  else q.

(** [# Handle metric] *)
Definition handle_metric (metric : string) (q : clauses) : clauses :=
  if String.eqb metric "revenue" then
    add_order_by "total_revenue DESC" (add_select "SUM(e.revenue) as total_revenue" q)
  else if String.eqb metric "profit" then
    add_order_by "total_profit DESC"
      (add_select "SUM(e.revenue - (e.trainer_cost + e.logistics_cost + e.venue_cost + e.utilities_cost + e.materials_cost)) as total_profit" q)
  else if String.eqb metric "profit_margin" then
    add_order_by "profit_margin DESC"
      (add_select "CASE WHEN SUM(e.revenue) > 0 THEN (SUM(e.revenue - (e.trainer_cost + e.logistics_cost + e.venue_cost + e.utilities_cost + e.materials_cost)) / SUM(e.revenue)) * 100 ELSE 0 END as profit_margin"
      (add_select "SUM(e.revenue - (e.trainer_cost + e.logistics_cost + e.venue_cost + e.utilities_cost + e.materials_cost)) as total_profit"
      (add_select "SUM(e.revenue) as total_revenue" q)))
  else if String.eqb metric "enrollment_count" then
    add_order_by "enrollment_count DESC"
      (add_select "COUNT(e.enrollment_id) as enrollment_count" q)
  else if String.eqb metric "client_count" then
    add_order_by "client_count DESC"
      (add_select "COUNT(DISTINCT c.client_id) as client_count" q)
  else if String.eqb metric "program_count" then
    add_order_by "program_count DESC"
      (add_select "COUNT(DISTINCT p.program_id) as program_count" q)
  else if String.eqb metric "opportunity_count" then
    add_order_by "opportunity_count DESC"
      (add_select "COUNT(o.opportunity_id) as opportunity_count" q)
  else if String.eqb metric "win_rate" then
    add_order_by "win_rate DESC"
      (add_select "CASE WHEN COUNT(*) > 0 THEN (COUNT(CASE WHEN o.stage = 'Closed Won' THEN 1 END) * 100.0 / COUNT(*)) ELSE 0 END as win_rate"
      (add_select "COUNT(*) as total_count"
      (add_select "COUNT(CASE WHEN o.stage = 'Closed Lost' THEN 1 END) as lost_count"
      (add_select "COUNT(CASE WHEN o.stage = 'Closed Won' THEN 1 END) as won_count" q))))
  else if String.eqb metric "pipeline_value" then
    add_order_by "weighted_value DESC"
      (add_select "SUM(o.potential_revenue * (o.probability / 100)) as weighted_value"
      (add_select "SUM(o.potential_revenue) as total_value" q))
  else q.

(** A string is true in a condition when it is not empty. *)
Definition truthy (v : string) : bool := negb (String.eqb v EmptyString).

(** One iteration of [for key, value in filters.items()]. *)
Definition handle_filter (entity_type : string) (q : clauses) (item : string * string)
    : clauses :=
  let '(key, value) := item in
  if String.eqb key "industry" && truthy value then
    add_where ("c.industry = '" +:+ value +:+ "'") q
  else if String.eqb key "size" && truthy value then
    add_where ("c.size = '" +:+ value +:+ "'") q
  else if String.eqb key "region" && truthy value then
    add_where ("c.region = '" +:+ value +:+ "'") q
  else if String.eqb key "category" && truthy value then
    add_where ("p.category = '" +:+ value +:+ "'") q
  else if String.eqb key "delivery_mode" && truthy value then
    if String.eqb entity_type "programs"
    then add_where ("p.delivery_mode = '" +:+ value +:+ "'") q
    else add_where ("e.delivery_mode = '" +:+ value +:+ "'") q
  else if String.eqb key "stage" && truthy value then
    add_where ("o.stage = '" +:+ value +:+ "'") q
  else if String.eqb key "date_from" && truthy value then
    if String.eqb entity_type "enrollments"
    then add_where ("e.start_date >= '" +:+ value +:+ "'") q
    else if String.eqb entity_type "opportunities"
    then add_where ("o.created_date >= '" +:+ value +:+ "'") q
    else q
  else if String.eqb key "date_to" && truthy value then
    if String.eqb entity_type "enrollments"
    then add_where ("e.start_date <= '" +:+ value +:+ "'") q
    else if String.eqb entity_type "opportunities"
    then add_where ("o.created_date <= '" +:+ value +:+ "'") q
    else q
  else q.

(** [# Handle filters] *)
Definition handle_filters (entity_type : string) (filters : odict) (q : clauses)
    : clauses :=
  fold_left (handle_filter entity_type) filters q.

(** The clause lists at [# Build the complete query]. *)
Definition build_clauses (entity_type metric dimension : string) (filters : odict)
    : clauses :=
  handle_filters entity_type filters
    (handle_metric metric (handle_entity entity_type metric dimension no_clauses)).

Definition nonempty {X : Type} (l : list X) : bool :=
  match l with [] => false | _ => true end.

(** [# Build the complete query] *)
Definition assemble (q : clauses) (limit : Z) : string :=
  let query := "SELECT " +:+ join ", " (select_clause q) in
  let query := query +:+ " FROM " +:+ join " " (from_clause q) in
  let query := if nonempty (where_clause q)
               then query +:+ " WHERE " +:+ join " AND " (where_clause q) else query in
  let query := if nonempty (group_by_clause q)
               then query +:+ " GROUP BY " +:+ join ", " (group_by_clause q) else query in
  let query := if nonempty (order_by_clause q)
               then query +:+ " ORDER BY " +:+ join ", " (order_by_clause q) else query in
  query +:+ " LIMIT " +:+ str_of_int limit.

Definition build_query (entity_type metric dimension : string) (filters : odict)
    (limit : Z) : string :=
  assemble (build_clauses entity_type metric dimension filters) limit.

(** The statements of the [try] block up to the query text, as a
    computation that may raise: none of them does. *)
Definition compile (query_type entity_type metric dimension : string)
    (filters : odict) (limit : Z) : result string :=
  Ok (build_query entity_type metric dimension filters limit).

(** Which chart the function asks the plotting library for, once the
    data is there; the drawing itself is outside this development. *)
Definition chart_kind (query_type dimension : string) : option string :=
  if String.eqb query_type "top" &&
     member dimension ["industry"; "category"; "size"; "region"; "delivery_mode";
                       "client_name"; "program_name"; "stage"]
  then Some "bar"
  else if String.eqb query_type "trend" && String.eqb dimension "month"
  then Some "line"
  else if String.eqb query_type "distribution" &&
          member dimension ["industry"; "category"; "size"; "region";
                            "delivery_mode"; "stage"]
  then Some "pie"
  else if String.eqb query_type "comparison" &&
          member dimension ["industry"; "category"; "size"; "region"; "delivery_mode"]
  then Some "grouped bar"
  else None.

Section External.
(** The result of a query and a drawn chart. *)
Context {table chart : Type}.
(** [pd.read_sql(query, self.conn)] *)
Variable read_sql : string -> result table.
(** [data.empty] *)
Variable empty : table -> bool.
(** The plotting calls of one chart branch, for a metric and a dimension. *)
Variable draw : string -> string -> string -> table -> result chart.

(** The dictionary that the function returns: either the three keys
    [data], [chart] and [query], or the key [error]. *)
Inductive visualization : Type :=
| Visualization (data : table) (chart_ : option chart) (query : string)
| Failure (error : string).

Definition visualization_body (query_type entity_type metric dimension : string)
    (filters : odict) (limit : Z) : result visualization :=
  query ← compile query_type entity_type metric dimension filters limit;
  data ← read_sql query;
  chart_ ← (if negb (empty data) then
              match chart_kind query_type dimension with
              | Some kind => c ← draw kind metric dimension data; Ok (Some c)
              | None => Ok None
              end
            else Ok None);
  Ok (Visualization data chart_ query).

(** [try: ... except Exception as e: return {'error': str(e)}] *)
Definition create_custom_visualization (query_type entity_type metric dimension : string)
    (filters : odict) (limit : Z) : visualization :=
  match visualization_body query_type entity_type metric dimension filters limit with
  | Ok v => v
  | Raise e => Failure (str_of_exn e)
  end.
End External.

(** *** The aggregate expressions of the metric branch, evaluated on
    the rows of one group.  A column value is [None] when it is NULL, and
    otherwise a number of one of SQLite's two numeric storage classes:
    which one a column holds depends on the schema and on the data, which
    are not part of this file.  The reals are exact here: the rounding of
    floating-point arithmetic and the overflow of 64-bit integers are left
    out. *)

Inductive num : Type :=
| Int (z : Z)
| Real (q : Q).

Definition to_real (a : num) : Q :=
  match a with
  | Int z => inject_Z z
  | Real q => q
  end.

(** [+], [-] and [*]: on integers when both operands are integers, on
    reals otherwise. *)
Definition arith (fz : Z -> Z -> Z) (fq : Q -> Q -> Q) (a b : num) : num :=
  match a, b with
  | Int x, Int y => Int (fz x y)
  | _, _ => Real (fq (to_real a) (to_real b))
  end.

Definition add : num -> num -> num := arith Z.add Qplus.
Definition sub : num -> num -> num := arith Z.sub Qminus.
Definition mul : num -> num -> num := arith Z.mul Qmult.

(** Binary arithmetic: NULL when an operand is NULL. *)
Definition lift2 (f : num -> num -> num) (a b : option num) : option num :=
  match a, b with
  | Some x, Some y => Some (f x y)
  | _, _ => None
  end.

(** [a / b]: NULL when an operand is NULL or the divisor is zero; the
    quotient of two integers is an integer, truncated towards zero. *)
Definition sql_div (a b : option num) : option num :=
  match a, b with
  | Some (Int x), Some (Int y) => if y =? 0 then None else Some (Int (Z.quot x y))
  | Some x, Some y =>
      if Qeq_bool (to_real y) 0 then None else Some (Real (to_real x / to_real y))
  | _, _ => None
  end.

(** [SUM(x)]: the sum of the values that are not NULL, NULL if there is
    none; an integer when all of them are integers. *)
Fixpoint sql_sum (l : list (option num)) : option num :=
  match l with
  | [] => None
  | x :: rest =>
      match x, sql_sum rest with
      | Some a, Some b => Some (add a b)
      | Some a, None => Some a
      | None, r => r
      end
  end.

(** [a > 0] as the condition of a CASE: NULL counts as false. *)
Definition is_positive (a : option num) : bool :=
  match a with
  | Some (Int z) => 0 <? z
  | Some (Real q) => negb (Qle_bool q 0)
  | None => false
  end.

Record enrollment : Type := {
  revenue : option num;
  trainer_cost : option num;
  logistics_cost : option num;
  venue_cost : option num;
  utilities_cost : option num;
  materials_cost : option num
}.

Record opportunity : Type := {
  stage : option string
}.

(** [e.revenue - (e.trainer_cost + ... + e.materials_cost)] *)
Definition row_profit (e : enrollment) : option num :=
  lift2 sub (revenue e)
    (lift2 add (lift2 add (lift2 add (lift2 add
       (trainer_cost e) (logistics_cost e)) (venue_cost e)) (utilities_cost e))
       (materials_cost e)).

Definition total_revenue (g : list enrollment) : option num := sql_sum (map revenue g).
Definition total_profit (g : list enrollment) : option num := sql_sum (map row_profit g).

(** [CASE WHEN SUM(e.revenue) > 0 THEN (SUM(profit) / SUM(e.revenue)) * 100
     ELSE 0 END] *)
Definition profit_margin (g : list enrollment) : option num :=
  if is_positive (total_revenue g)
  then lift2 mul (sql_div (total_profit g) (total_revenue g)) (Some (Int 100))
  else Some (Int 0).

(** [COUNT(CASE WHEN o.stage = <name> THEN 1 END)] *)
Definition count_stage (name : string) (g : list opportunity) : Z :=
  Z.of_nat (length (List.filter (fun o => match stage o with
                                     | Some s => String.eqb s name
                                     | None => false
                                     end) g)).

Definition won_count (g : list opportunity) : Z := count_stage "Closed Won" g.
Definition lost_count (g : list opportunity) : Z := count_stage "Closed Lost" g.
(** [COUNT( * )] *)
Definition total_count (g : list opportunity) : Z := Z.of_nat (length g).

(** [CASE WHEN COUNT( * ) > 0 THEN (won_count * 100.0 / COUNT( * )) ELSE 0 END]:
    the literal [100.0] makes the product, and with it the quotient, a real. *)
Definition win_rate (g : list opportunity) : option num :=
  if 0 <? total_count g
  then sql_div (lift2 mul (Some (Int (won_count g))) (Some (Real 100)))
               (Some (Int (total_count g)))
  else Some (Int 0).

End VisualizationGenerator.

(* ===================================================================== *)
(** ** [PromptAnalyzer]                                                  *)
(* ===================================================================== *)

Module PromptAnalyzer.
Import Text Re Py.

(** The double quote, for the date expressions below. *)
Definition dq : string := String (ascii_of_nat 34) EmptyString.

(** *** [self.keywords], each table in the order of its dict literal *)

Definition lexicon : Type := list (string * list string).

Definition entity_types : lexicon :=
  [ ("client", ["client"; "clients"; "customer"; "customers"; "organization"; "organizations"]);
    ("program", ["program"; "programs"; "course"; "courses"; "training"; "trainings"]);
    ("enrollment", ["enrollment"; "enrollments"; "registration"; "registrations"]);
    ("opportunity", ["opportunity"; "opportunities"; "pipeline"; "deal"; "deals"; "lead"; "leads"]) ].

Definition metrics : lexicon :=
  [ ("revenue", ["revenue"; "sales"; "income"; "earnings"; "money"; "payment"; "payments"]);
    ("profit", ["profit"; "profits"; "margin"; "margins"; "profitability"; "earnings"]);
    ("cost", ["cost"; "costs"; "expense"; "expenses"; "spending"; "expenditure"]);
    ("count", ["count"; "number"; "quantity"; "total"; "amount"]);
    ("trend", ["trend"; "trends"; "over time"; "history"; "historical"; "pattern"; "patterns"]) ].

Definition dimensions : lexicon :=
  [ ("industry", ["industry"; "industries"; "sector"; "sectors"]);
    ("region", ["region"; "regions"; "location"; "locations"; "area"; "areas"; "geography"]);
    ("size", ["size"; "sizes"; "company size"; "organization size"]);
    ("category", ["category"; "categories"; "type"; "types"]);
    ("delivery_mode", ["delivery mode"; "delivery"; "mode"; "online"; "in-person"; "virtual"; "classroom"]);
    ("time", ["time"; "month"; "months"; "year"; "years"; "quarter"; "quarters"; "date"; "dates"; "period"]) ].

Definition query_types : lexicon :=
  [ ("top", ["top"; "best"; "highest"; "most"; "largest"; "biggest"; "greatest"]);
    ("bottom", ["bottom"; "worst"; "lowest"; "least"; "smallest"]);
    ("average", ["average"; "avg"; "mean"; "median"; "typical"]);
    ("comparison", ["compare"; "comparison"; "versus"; "vs"; "against"; "difference"; "differences"]);
    ("distribution", ["distribution"; "breakdown"; "composition"; "makeup"; "split"; "segmentation"]) ].

Definition time_periods : lexicon :=
  [ ("this_month", ["this month"; "current month"]);
    ("last_month", ["last month"; "previous month"]);
    ("this_quarter", ["this quarter"; "current quarter"]);
    ("last_quarter", ["last quarter"; "previous quarter"]);
    ("this_year", ["this year"; "current year"]);
    ("last_year", ["last year"; "previous year"]) ].

(** *** [simple_tokenize] *)

(** [string.punctuation] *)
Definition ispunct (c : ascii) : bool :=
  in_range 33 47 c || in_range 58 64 c || in_range 91 96 c || in_range 123 126 c.

Fixpoint replace_punct (s : string) : string :=
  match s with
  | EmptyString => EmptyString
  | String c s' => String (if ispunct c then " "%char else c) (replace_punct s')
  end.

(** [text.split()]: [cur] is the word being read, reversed. *)
Fixpoint split_go (cur : string) (s : string) : list string :=
  match s with
  | EmptyString =>
      match cur with EmptyString => [] | _ => [String.rev cur] end
  | String c s' =>
      if isspace c then
        match cur with
        | EmptyString => split_go EmptyString s'
        | _ => String.rev cur :: split_go EmptyString s'
        end
      else split_go (String c cur) s'
  end.

Definition simple_tokenize (text : string) : list string :=
  split_go EmptyString (replace_punct (lower text)).

(** *** [extract_number] *)

Definition extract_number (text : string) : result (option Z) :=
  match search false top_n_pattern (lower text) with
  | Some g => n ← int g; Ok (Some n)
  | None =>
      match search false digits_pattern text with
      | Some g => n ← int g; Ok (Some n)
      | None => Ok None
      end
  end.

(** *** [analyze_prompt] *)

Definition default_params : gmap string value :=
  <["filters" := VDict []]>
  (<["limit" := VInt 5]>
  (<["dimension" := VStr "program_name"]>
  (<["metric" := VStr "revenue"]>
  (<["entity_type" := VStr "programs"]>
  (<["query_type" := VStr "top"]> ∅))))).

(** [for keyword in keywords: if keyword in text: body; break] *)
Fixpoint for_keywords {S : Type} (keywords : list string) (text : string)
    (body : S -> result S) (s : S) : result S :=
  match keywords with
  | [] => Ok s
  | keyword :: rest =>
      if contains keyword text then body s
      else for_keywords rest text body s
  end.

(** [for category, keywords in table.items(): ...]: the [break] above
    leaves the keyword loop only, so every category is visited. *)
Fixpoint for_categories {S : Type} (table : lexicon) (text : string)
    (body : string -> S -> result S) (s : S) : result S :=
  match table with
  | [] => Ok s
  | (category, keywords) :: rest =>
      s' ← for_keywords keywords text (body category) s;
      for_categories rest text body s'
  end.

Definition entity_body (entity_type : string) (params : gmap string value)
    : result (gmap string value) :=
  if String.eqb entity_type "client" then
    Ok (<["dimension" := VStr "client_name"]> (<["entity_type" := VStr "clients"]> params))
  else if String.eqb entity_type "program" then
    Ok (<["dimension" := VStr "program_name"]> (<["entity_type" := VStr "programs"]> params))
  else if String.eqb entity_type "enrollment" then
    Ok (<["entity_type" := VStr "enrollments"]> params)
  else if String.eqb entity_type "opportunity" then
    Ok (<["entity_type" := VStr "opportunities"]> params)
  else Ok params.

Definition metric_body (text : string) (metric : string) (params : gmap string value)
    : result (gmap string value) :=
  if String.eqb metric "revenue" then
    Ok (<["metric" := VStr "revenue"]> params)
  else if String.eqb metric "profit" then
    if contains "margin" text
    then Ok (<["metric" := VStr "profit_margin"]> params)
    else Ok (<["metric" := VStr "profit"]> params)
  else if String.eqb metric "cost" then
    Ok (<["metric" := VStr "cost"]> params)
  else if String.eqb metric "count" then
    et ← getitem params "entity_type";
    if eq_str et "clients" then Ok (<["metric" := VStr "client_count"]> params)
    else if eq_str et "programs" then Ok (<["metric" := VStr "program_count"]> params)
    else if eq_str et "enrollments" then Ok (<["metric" := VStr "enrollment_count"]> params)
    else if eq_str et "opportunities" then Ok (<["metric" := VStr "opportunity_count"]> params)
    else Ok params
  else if String.eqb metric "trend" then
    Ok (<["dimension" := VStr "month"]> (<["query_type" := VStr "trend"]> params))
  else Ok params.

Definition dimension_body (dimension : string) (params : gmap string value)
    : result (gmap string value) :=
  if String.eqb dimension "industry" then Ok (<["dimension" := VStr "industry"]> params)
  else if String.eqb dimension "region" then Ok (<["dimension" := VStr "region"]> params)
  else if String.eqb dimension "size" then Ok (<["dimension" := VStr "size"]> params)
  else if String.eqb dimension "category" then Ok (<["dimension" := VStr "category"]> params)
  else if String.eqb dimension "delivery_mode" then
    Ok (<["dimension" := VStr "delivery_mode"]> params)
  else if String.eqb dimension "time" then
    Ok (<["query_type" := VStr "trend"]> (<["dimension" := VStr "month"]> params))
  else Ok params.

Definition query_type_body (query_type : string) (params : gmap string value)
    : result (gmap string value) :=
  if String.eqb query_type "top" then Ok (<["query_type" := VStr "top"]> params)
  else if String.eqb query_type "bottom" then Ok (<["query_type" := VStr "bottom"]> params)
  else if String.eqb query_type "average" then Ok (<["query_type" := VStr "average"]> params)
  else if String.eqb query_type "comparison" then
    Ok (<["query_type" := VStr "comparison"]> params)
  else if String.eqb query_type "distribution" then
    Ok (<["query_type" := VStr "distribution"]> params)
  else Ok params.

(** The SQLite date expressions of the time-period branch. *)
Definition date_now : string := "date(" +:+ dq +:+ "now" +:+ dq +:+ ")".

Definition date_now_with (modifiers : list string) : string :=
  "date(" +:+ dq +:+ "now" +:+ dq +:+
  String.concat EmptyString (map (fun m => ", " +:+ m) modifiers) +:+ ")".

Definition quoted (s : string) : string := dq +:+ s +:+ dq.

(** ["-" || (strftime("%m", "now") - 1) % 3 || " months"] and its
    variant with [+ 3]. *)
Definition months_back (plus3 : bool) : string :=
  quoted "-" +:+ " || (strftime(" +:+ quoted "%m" +:+ ", " +:+ quoted "now" +:+
  ") - 1) % 3 " +:+ (if plus3 then "+ 3 " else EmptyString) +:+ "|| " +:+ quoted " months".

Definition set_dates (date_from date_to : string) (params : gmap string value)
    : result (gmap string value) :=
  params ← setitem2 params "filters" "date_from" date_from;
  setitem2 params "filters" "date_to" date_to.

Definition time_period_body (period : string) (params : gmap string value)
    : result (gmap string value) :=
  if String.eqb period "this_month" then
    set_dates (date_now_with [quoted "start of month"]) date_now params
  else if String.eqb period "last_month" then
    set_dates (date_now_with [quoted "start of month"; quoted "-1 month"])
              (date_now_with [quoted "start of month"; quoted "-1 day"]) params
  else if String.eqb period "this_quarter" then
    set_dates (date_now_with [quoted "start of month"; months_back false]) date_now params
  else if String.eqb period "last_quarter" then
    set_dates (date_now_with [quoted "start of month"; months_back true])
              (date_now_with [quoted "start of month"; months_back false; quoted "-1 day"])
              params
  else if String.eqb period "this_year" then
    set_dates (date_now_with [quoted "start of year"]) date_now params
  else if String.eqb period "last_year" then
    set_dates (date_now_with [quoted "start of year"; quoted "-1 year"])
              (date_now_with [quoted "start of year"; quoted "-1 day"]) params
  else Ok params.

(** [m = re.search(pattern, prompt, re.IGNORECASE)] followed by
    [if m: params['filters'][key] = m.group(1).strip()]. *)
Definition filter_step (pattern : regex) (key : string) (prompt : string)
    (params : gmap string value) : result (gmap string value) :=
  match search true pattern prompt with
  | Some g => setitem2 params "filters" key (strip g)
  | None => Ok params
  end.

(** The [limit] statement: [if limit: params['limit'] = limit]. *)
Definition set_limit (limit : option Z) (params : gmap string value)
    : gmap string value :=
  match limit with
  | Some limit => if limit =? 0 then params else <["limit" := VInt limit]> params
  | None => params
  end.

Definition entity_pass (prompt : string) :=
  for_categories entity_types (lower prompt) entity_body.
Definition metric_pass (prompt : string) :=
  for_categories metrics (lower prompt) (metric_body (lower prompt)).
Definition dimension_pass (prompt : string) :=
  for_categories dimensions (lower prompt) dimension_body.
Definition query_type_pass (prompt : string) :=
  for_categories query_types (lower prompt) query_type_body.
Definition time_period_pass (prompt : string) :=
  for_categories time_periods (lower prompt) time_period_body.

Definition filter_pass (prompt : string) (params : gmap string value)
    : result (gmap string value) :=
  params ← filter_step (filter_pattern "industry") "industry" prompt params;
  params ← filter_step (filter_pattern "region") "region" prompt params;
  params ← filter_step (filter_pattern "size") "size" prompt params;
  params ← filter_step (filter_pattern "category") "category" prompt params;
  params ← filter_step delivery_pattern "delivery_mode" prompt params;
  filter_step (filter_pattern "stage") "stage" prompt params.

(** [tokens = self.simple_tokenize(prompt)] is computed and never read. *)
Definition analyze_prompt (prompt : string) : result (gmap string value) :=
  let params := default_params in
  let tokens := simple_tokenize prompt in
  limit ← extract_number prompt;
  let params := set_limit limit params in
  params ← entity_pass prompt params;
  params ← metric_pass prompt params;
  params ← dimension_pass prompt params;
  params ← query_type_pass prompt params;
  params ← time_period_pass prompt params;
  filter_pass prompt params.

(** *** The analyzer object: [self.templates] and the dictionaries it
    refers to *)

Definition loc : Type := nat.

Record analyzer : Type := {
  templates : gmap string loc;
  heap : gmap loc (gmap string value)
}.

Definition template_dict (query_type entity_type metric dimension title description : string)
    : gmap string value :=
  <["description" := VStr description]>
  (<["title" := VStr title]>
  (<["dimension" := VStr dimension]>
  (<["metric" := VStr metric]>
  (<["entity_type" := VStr entity_type]>
  (<["query_type" := VStr query_type]> ∅))))).

Definition template_table : list (string * gmap string value) :=
  [ ("top_clients_by_revenue",
     template_dict "top" "clients" "revenue" "client_name" "Top Clients by Revenue"
       "Shows the clients that have generated the most revenue");
    ("top_programs_by_revenue",
     template_dict "top" "programs" "revenue" "program_name" "Top Programs by Revenue"
       "Shows the programs that have generated the most revenue");
    ("top_programs_by_profit_margin",
     template_dict "top" "programs" "profit_margin" "program_name"
       "Top Programs by Profit Margin"
       "Shows the programs with the highest profit margins");
    ("revenue_by_industry",
     template_dict "distribution" "clients" "revenue" "industry"
       "Revenue Distribution by Industry"
       "Shows how revenue is distributed across different client industries");
    ("revenue_trend_over_time",
     template_dict "trend" "enrollments" "revenue" "month" "Revenue Trend Over Time"
       "Shows how revenue has changed over time");
    ("pipeline_by_stage",
     template_dict "distribution" "opportunities" "pipeline_value" "stage"
       "Pipeline Value by Stage"
       "Shows the distribution of pipeline value across different stages");
    ("cost_breakdown",
     template_dict "distribution" "enrollments" "cost" "cost_type" "Cost Breakdown"
       "Shows the breakdown of costs by category") ].

(** [__init__]: the seven template dictionaries are built, one object
    each, and [self.templates] refers to them by name. *)
Definition init : analyzer :=
  {| templates := list_to_map (imap (fun i t => (fst t, i)) template_table);
     heap := list_to_map (imap (fun i t => (i, snd t)) template_table) |}.

(** Code that reads and writes the store and may raise. *)
Definition St (A : Type) : Type := analyzer -> result A * analyzer.

#[global] Instance St_ret : MRet St := fun A a σ => (Ok a, σ).
#[global] Instance St_bind : MBind St := fun A B f m σ =>
  match m σ with
  | (Ok a, σ') => f a σ'
  | (Raise e, σ') => (Raise e, σ')
  end.

Definition lift {A : Type} (r : result A) : St A := fun σ => (r, σ).

Definition try_except {A : Type} (m : St A) (handler : exn -> St A) : St A :=
  fun σ =>
    match m σ with
    | (Ok a, σ') => (Ok a, σ')
    | (Raise e, σ') => handler e σ'
    end.

(** The dictionary behind a reference. *)
Definition deref (l : loc) : St (gmap string value) := fun σ =>
  match heap σ !! l with
  | Some d => (Ok d, σ)
  | None => (Raise (Exception "ReferenceError" "dangling reference"), σ)
  end.

(** A new dictionary object. *)
Definition alloc (d : gmap string value) : St loc := fun σ =>
  let l := fresh (dom (heap σ)) in
  (Ok l, {| templates := templates σ; heap := <[l := d]> (heap σ) |}).

(** [obj[k] = v] on the dictionary behind [l]. *)
Definition store (l : loc) (k : string) (v : value) : St unit := fun σ =>
  match heap σ !! l with
  | Some d => (Ok tt, {| templates := templates σ; heap := <[l := <[k := v]> d]> (heap σ) |})
  | None => (Raise (Exception "ReferenceError" "dangling reference"), σ)
  end.

(** [self.templates[name]] *)
Definition template (name : string) : St loc := fun σ =>
  match templates σ !! name with
  | Some l => (Ok l, σ)
  | None => (Raise (KeyError name), σ)
  end.

(** *** [match_template] *)

Definition match_template (prompt : string) : St (option loc) :=
  let prompt_lower := lower prompt in
  if contains "top client" prompt_lower && contains "revenue" prompt_lower then
    t ← template "top_clients_by_revenue"; mret (Some t)
  else if contains "top program" prompt_lower && contains "revenue" prompt_lower then
    t ← template "top_programs_by_revenue"; mret (Some t)
  else if (contains "top program" prompt_lower || contains "best program" prompt_lower)
          && (contains "profit margin" prompt_lower || contains "profitability" prompt_lower) then
    t ← template "top_programs_by_profit_margin"; mret (Some t)
  else if contains "revenue" prompt_lower && contains "industry" prompt_lower then
    t ← template "revenue_by_industry"; mret (Some t)
  else if (contains "revenue" prompt_lower || contains "sales" prompt_lower)
          && (contains "trend" prompt_lower || contains "over time" prompt_lower) then
    t ← template "revenue_trend_over_time"; mret (Some t)
  else if (contains "pipeline" prompt_lower || contains "opportunity" prompt_lower)
          && contains "stage" prompt_lower then
    t ← template "pipeline_by_stage"; mret (Some t)
  else if contains "cost" prompt_lower
          && (contains "breakdown" prompt_lower || contains "distribution" prompt_lower) then
    t ← template "cost_breakdown"; mret (Some t)
  else mret None.

(** *** [generate_title] *)

Definition entity_type_map : odict :=
  [("clients", "Clients"); ("programs", "Programs"); ("enrollments", "Enrollments");
   ("opportunities", "Opportunities")].

Definition metric_map : odict :=
  [("revenue", "Revenue"); ("profit", "Profit"); ("profit_margin", "Profit Margin");
   ("cost", "Cost"); ("client_count", "Client Count"); ("program_count", "Program Count");
   ("enrollment_count", "Enrollment Count"); ("opportunity_count", "Opportunity Count");
   ("pipeline_value", "Pipeline Value"); ("win_rate", "Win Rate")].

Definition dimension_map : odict :=
  [("client_name", EmptyString); ("program_name", EmptyString);
   ("industry", "by Industry"); ("region", "by Region"); ("size", "by Size");
   ("category", "by Category"); ("delivery_mode", "by Delivery Mode");
   ("month", "Over Time"); ("stage", "by Stage"); ("cost_type", "Breakdown")].

Definition query_type_map : odict :=
  [("top", "Top"); ("bottom", "Bottom"); ("average", "Average");
   ("comparison", "Comparison of"); ("distribution", "Distribution of");
   ("trend", "Trend of")].

(** [table.get(v)] for a value used as a key: only a string can be one
    of the keys. *)
Definition lookup_value (v : value) (table : odict) : option string :=
  match v with
  | VStr s => odict_get s table
  | _ => None
  end.

(** [str(v)]; a dictionary is printed without the escapes of [repr]. *)
Definition str_of_value (v : value) : string :=
  match v with
  | VStr s => s
  | VInt n => str_of_int n
  | VDict d =>
      "{" +:+ join ", " (map (fun kv => "'" +:+ fst kv +:+ "': '" +:+ snd kv +:+ "'") d) +:+ "}"
  end.

(** [v.capitalize()] *)
Definition capitalize_value (v : value) : result string :=
  match v with
  | VStr s => Ok (capitalize s)
  | _ => Raise (Exception "AttributeError" "object has no attribute 'capitalize'")
  end.

Definition generate_title (params : gmap string value) : result string :=
  let title_parts : list string := [] in
  query_type ← getitem params "query_type";
  let title_parts :=
    match lookup_value query_type query_type_map with
    | Some label => title_parts ++ [label]
    | None => title_parts
    end in
  title_parts ←
    (if eq_str query_type "top" || eq_str query_type "bottom" then
       match params !! "limit" with
       | Some limit => Ok (title_parts ++ [str_of_value limit])
       | None => Ok title_parts
       end
     else Ok title_parts);
  dimension ← getitem params "dimension";
  title_parts ←
    (if eq_str dimension "client_name" || eq_str dimension "program_name" then
       entity_type ← getitem params "entity_type";
       fallback ← capitalize_value entity_type;
       Ok (title_parts ++ [default fallback (lookup_value entity_type entity_type_map)])
     else Ok title_parts);
  metric ← getitem params "metric";
  let title_parts :=
    match lookup_value metric metric_map with
    | Some label => title_parts ++ [label]
    | None => title_parts
    end in
  let title_parts :=
    match lookup_value dimension dimension_map with
    | Some label => if String.eqb label EmptyString then title_parts
                    else title_parts ++ [label]
    | None => title_parts
    end in
  Ok (join " " title_parts).

(** *** [execute_analysis] and [process_prompt] *)

(** An argument that the generator expects to be a string, the filters
    dictionary and the limit.  The dictionaries built by this class
    hold values of these kinds under these keys. *)
Definition arg_str (v : value) : result string :=
  match v with
  | VStr s => Ok s
  | _ => Raise (TypeError "expected a string")
  end.

Definition arg_filters (v : option value) : result odict :=
  match v with
  | None => Ok []
  | Some (VDict d) => Ok d
  | Some _ => Raise (TypeError "expected a dictionary")
  end.

Definition arg_limit (v : option value) : result Z :=
  match v with
  | None => Ok 10
  | Some (VInt n) => Ok n
  | Some _ => Raise (TypeError "expected an integer")
  end.

Section External.
Context {table chart : Type}.
Variable read_sql : string -> result table.
Variable empty : table -> bool.
Variable draw : string -> string -> string -> table -> result chart.
(** [from visualization_generator import VisualizationGenerator] and
    [VisualizationGenerator(self.db_path)]. *)
Variable new_generator : result unit.

(** What [process_prompt] returns: the generator's dictionary with
    the key [params] added, or [{'error': str(e)}]. *)
Inductive response : Type :=
| Analysis (result_ : VisualizationGenerator.visualization (table := table) (chart := chart))
           (params : loc)
| Error (error : string).

Definition execute_analysis (params : loc) : St response :=
  try_except
    (_ ← lift new_generator;
     d ← deref params;
     query_type ← lift (getitem d "query_type" ≫= arg_str);
     entity_type ← lift (getitem d "entity_type" ≫= arg_str);
     metric ← lift (getitem d "metric" ≫= arg_str);
     dimension ← lift (getitem d "dimension" ≫= arg_str);
     filters ← lift (arg_filters (d !! "filters"));
     limit ← lift (arg_limit (d !! "limit"));
     let result_ :=
       VisualizationGenerator.create_custom_visualization read_sql empty draw
         query_type entity_type metric dimension filters limit in
     _ ← (match d !! "title" with
          | None => title ← lift (generate_title d); store params "title" (VStr title)
          | Some _ => mret tt
          end);
     mret (Analysis result_ params))
    (fun e => mret (Error (str_of_exn e))).

(** [if template:] holds for a dictionary that is not empty. *)
Definition dict_truthy (d : gmap string value) : bool := negb (bool_decide (d = ∅)).

Definition process_prompt (prompt : string) : St response :=
  try_except
    (template ← match_template prompt;
     use_template ←
       (match template with
        | Some t => d ← deref t; mret (dict_truthy d)
        | None => mret false
        end);
     params ←
       (match template, use_template with
        | Some t, true =>
            d ← deref t;
            params ← alloc d;
            limit ← lift (extract_number prompt);
            _ ← (match limit with
                 | Some limit =>
                     if limit =? 0 then mret tt else store params "limit" (VInt limit)
                 | None => mret tt
                 end);
            mret params
        | _, _ =>
            d ← lift (analyze_prompt prompt);
            alloc d
        end);
     execute_analysis params)
    (fun e => mret (Error (str_of_exn e))).
(** The store after a sequence of calls of [process_prompt]. *)
Definition process_all (prompts : list string) (σ : analyzer) : analyzer :=
  fold_left (fun σ prompt => (process_prompt prompt σ).2) prompts σ.
End External.

End PromptAnalyzer.

(* ===================================================================== *)
(** ** Vocabulary of the statements                                      *)
(* ===================================================================== *)

Module Views.
Import Text Re Py PromptAnalyzer.

(** Some keyword of the list occurs in the text. *)
Definition hit (text : string) (keywords : list string) : bool :=
  existsb (fun keyword => contains keyword text) keywords.

(** The categories of a table with a keyword in the text, in the order
    of the table. *)
Definition matching (table : lexicon) (text : string) : list string :=
  map fst (List.filter (fun entry => hit text (snd entry)) table).

(** The branches of the given categories, one after the other. *)
Fixpoint apply_all {S : Type} (body : string -> S -> result S) (categories : list string)
    (s : S) : result S :=
  match categories with
  | [] => Ok s
  | c :: rest => s' ← body c s; apply_all body rest s'
  end.

(** The last element of a list of categories. *)
Fixpoint last_of (l : list string) : option string :=
  match l with
  | [] => None
  | [c] => Some c
  | _ :: rest => last_of rest
  end.

(** The pattern ends with the group [(p+)]. *)
Fixpoint captures_class (p : ascii -> bool) (r : regex) : Prop :=
  match r with
  | Group (Plus q) => q = p
  | Cat _ r2 => captures_class p r2
  | _ => False
  end.

(** A parameter dictionary with the six keys of [analyze_prompt], each
    holding a value of its kind. *)
Definition populated (params : gmap string value) : Prop :=
  exists query_type entity_type metric dimension limit filters,
    params !! "query_type" = Some (VStr query_type) /\
    params !! "entity_type" = Some (VStr entity_type) /\
    params !! "metric" = Some (VStr metric) /\
    params !! "dimension" = Some (VStr dimension) /\
    params !! "limit" = Some (VInt limit) /\
    params !! "filters" = Some (VDict filters) /\
    1 <= limit /\
    In entity_type ["clients"; "programs"; "enrollments"; "opportunities"].

(** The value under a key of the dictionary that a call returned. *)
Definition field_of (r : result (gmap string value)) (key : string) : option value :=
  match r with
  | Ok params => params !! key
  | Raise _ => None
  end.

(** The value that [analyze_prompt] stores under a key of [filters]
    for a prompt. *)
Definition extracted (prompt key : string) : option string :=
  match analyze_prompt prompt with
  | Ok params =>
      match params !! "filters" with
      | Some (VDict f) => odict_get key f
      | _ => None
      end
  | Raise _ => None
  end.

(** Neither a digit nor a character of [string.punctuation], which
    holds both quotes. *)
Definition plain (c : ascii) : bool := negb (isdigit c || ispunct c).

(** The value under a key of the filters dictionary of [params]. *)
Definition filter_of (params : gmap string value) (key : string) : option string :=
  match params !! "filters" with
  | Some (VDict f) => odict_get key f
  | _ => None
  end.

(** Before the filter phrases, only the two date keys can be present. *)
Definition only_dates (params : gmap string value) : Prop :=
  forall k, k <> "date_from" -> k <> "date_to" -> filter_of params k = None.

(** The rules of [match_template], in the order of its [if] statements:
    the condition on the lower-cased prompt and the name of the template. *)
Definition template_rules : list ((string -> bool) * string) :=
  [ (fun t => contains "top client" t && contains "revenue" t,
     "top_clients_by_revenue");
    (fun t => contains "top program" t && contains "revenue" t,
     "top_programs_by_revenue");
    (fun t => (contains "top program" t || contains "best program" t)
              && (contains "profit margin" t || contains "profitability" t),
     "top_programs_by_profit_margin");
    (fun t => contains "revenue" t && contains "industry" t,
     "revenue_by_industry");
    (fun t => (contains "revenue" t || contains "sales" t)
              && (contains "trend" t || contains "over time" t),
     "revenue_trend_over_time");
    (fun t => (contains "pipeline" t || contains "opportunity" t)
              && contains "stage" t,
     "pipeline_by_stage");
    (fun t => contains "cost" t
              && (contains "breakdown" t || contains "distribution" t),
     "cost_breakdown") ].

(** The first rule whose condition holds. *)
Definition first_rule (prompt : string) : option string :=
  option_map snd (find (fun rule => fst rule (lower prompt)) template_rules).

(** [σ'] has the template table of [σ] and every object of [σ] with the
    content it has in [σ]; it may hold more objects. *)
Definition extends (σ σ' : analyzer) : Prop :=
  templates σ' = templates σ /\ heap σ ⊆ heap σ'.

(** Run from any store that extends [σ0], the code [m] ends in a store
    that extends [σ0], and what it returns satisfies [Q]. *)
Definition safe {A : Type} (σ0 : analyzer) (m : St A) (Q : A -> Prop) : Prop :=
  forall σ, extends σ0 σ ->
    extends σ0 (m σ).2 /\ (forall a, (m σ).1 = Ok a -> Q a).

(** An object that [σ0] does not hold. *)
Definition new_in (σ0 : analyzer) (l : loc) : Prop := l ∉ dom (heap σ0).

(** The dictionary behind a template name. *)
Definition template_content (σ : analyzer) (name : string)
    : option (gmap string value) :=
  l ← templates σ !! name; heap σ !! l.

(** The query texts of two requests that no branch of the builder knows. *)
Definition win_rate_of_clients : string :=
  "SELECT COUNT(CASE WHEN o.stage = 'Closed Won' THEN 1 END) as won_count, " +:+
  "COUNT(CASE WHEN o.stage = 'Closed Lost' THEN 1 END) as lost_count, " +:+
  "COUNT(*) as total_count, " +:+
  "CASE WHEN COUNT(*) > 0 THEN (COUNT(CASE WHEN o.stage = 'Closed Won' THEN 1 END)" +:+
  " * 100.0 / COUNT(*)) ELSE 0 END as win_rate " +:+
  "FROM clients c ORDER BY win_rate DESC LIMIT 10".

Definition revenue_of_clients : string :=
  "SELECT SUM(e.revenue) as total_revenue FROM clients c " +:+
  "JOIN enrollments e ON c.client_id = e.client_id " +:+
  "ORDER BY total_revenue DESC LIMIT 10".

(** The filters without the two date keys. *)
Definition without_dates (filters : odict) : odict :=
  List.filter (fun item => negb (String.eqb (fst item) "date_from"
                                 || String.eqb (fst item) "date_to")) filters.

(** The six filter phrases of [analyze_prompt]: key and pattern. *)
Definition filter_patterns : list (string * regex) :=
  [ ("industry", filter_pattern "industry"); ("region", filter_pattern "region");
    ("size", filter_pattern "size"); ("category", filter_pattern "category");
    ("delivery_mode", delivery_pattern); ("stage", filter_pattern "stage") ].

Definition is_none {X : Type} (o : option X) : bool :=
  match o with None => true | Some _ => false end.

(** No keyword of any table, no filter phrase and no usable number. *)
Definition nothing_matches (prompt : string) : bool :=
  let text := lower prompt in
  forallb (fun table => match matching table text with [] => true | _ => false end)
    [entity_types; metrics; dimensions; query_types; time_periods]
  && forallb (fun pattern => is_none (search true pattern prompt))
    [filter_pattern "industry"; filter_pattern "region"; filter_pattern "size";
     filter_pattern "category"; delivery_pattern; filter_pattern "stage"]
  && match extract_number prompt with
     | Ok None => true
     | Ok (Some n) => n =? 0
     | Raise _ => false
     end.

(** What the branch of a category assigns: the entity type of an
    entity category, the dimension of a dimension category, the metric of
    a metric category other than [trend], and the two date expressions
    of a time period. *)
Definition entity_of (c : string) : string :=
  if String.eqb c "client" then "clients"
  else if String.eqb c "program" then "programs"
  else if String.eqb c "enrollment" then "enrollments"
  else "opportunities".

Definition dimension_of (c : string) : string :=
  if String.eqb c "time" then "month" else c.

Definition metric_of (c text entity_type : string) : string :=
  if String.eqb c "revenue" then "revenue"
  else if String.eqb c "profit" then
    if contains "margin" text then "profit_margin" else "profit"
  else if String.eqb c "cost" then "cost"
  else if String.eqb entity_type "clients" then "client_count"
  else if String.eqb entity_type "programs" then "program_count"
  else if String.eqb entity_type "enrollments" then "enrollment_count"
  else "opportunity_count".

Definition dates_of (c : string) : string * string :=
  if String.eqb c "this_month" then
    (date_now_with [quoted "start of month"], date_now)
  else if String.eqb c "last_month" then
    (date_now_with [quoted "start of month"; quoted "-1 month"],
     date_now_with [quoted "start of month"; quoted "-1 day"])
  else if String.eqb c "this_quarter" then
    (date_now_with [quoted "start of month"; months_back false], date_now)
  else if String.eqb c "last_quarter" then
    (date_now_with [quoted "start of month"; months_back true],
     date_now_with [quoted "start of month"; months_back false; quoted "-1 day"])
  else if String.eqb c "this_year" then
    (date_now_with [quoted "start of year"], date_now)
  else
    (date_now_with [quoted "start of year"; quoted "-1 year"],
     date_now_with [quoted "start of year"; quoted "-1 day"]).

(** A step that leaves the key [k] of the dictionary as it was. *)
Definition keeps (k : string) (body : gmap string value -> result (gmap string value))
    : Prop :=
  forall s s', body s = Ok s' -> s' !! k = s !! k.

(** The digits that [extract_number] converts: the group of the first
    [top N] phrase of the lower-cased text, or else the first run of digits
    of the text. *)
Definition number_text (text : string) : option string :=
  match search false top_n_pattern (lower text) with
  | Some g => Some g
  | None => search false digits_pattern text
  end.

(** The limit that [analyze_prompt] keeps for the number of a prompt. *)
Definition limit_of (limit : option Z) : Z :=
  match limit with
  | Some n => if n =? 0 then 5 else n
  | None => 5
  end.

End Views.

(* ===================================================================== *)
(** ** The filter phrases on strings of code points                      *)
(* ===================================================================== *)

(** A [str] of Python is a sequence of code points, and [re.IGNORECASE]
    reaches beyond Latin-1: this module has the six filter phrases of
    [analyze_prompt] once more, on code points of any size, with the
    character tables of CPython's [re] and [str]. *)
Module Unicode.
Import Text.

Definition ustring : Type := list N.

(** The code points of a string of the 8-bit model. *)
Fixpoint of_string (s : string) : ustring :=
  match s with
  | EmptyString => []
  | String c s' => code c :: of_string s'
  end.

Definition between (lo hi c : N) : bool := ((lo <=? c) && (c <=? hi))%N.

(** [str.isspace], which is also the class [\s] of a [str] pattern. *)
Definition isspace (c : N) : bool :=
  between 9 13 c || between 28 32 c || (c =? 0x85)%N || (c =? 0xa0)%N
  || (c =? 0x1680)%N || between 0x2000 0x200a c || (c =? 0x2028)%N || (c =? 0x2029)%N
  || (c =? 0x202f)%N || (c =? 0x205f)%N || (c =? 0x3000)%N.

(** The key under which [re.IGNORECASE] compares a character of the text
    with an ASCII character of a pattern: beyond the capitals, the letters
    U+0130 and U+0131 count as [i], U+017F as [s] and U+212A as [k]. *)
Definition fold (c : N) : N :=
  if between 65 90 c || between 192 214 c || between 216 222 c then (c + 32)%N
  else if (c =? 0x130)%N || (c =? 0x131)%N then 105%N
  else if (c =? 0x17f)%N then 115%N
  else if (c =? 0x212a)%N then 107%N
  else c.

(** A character of a pattern of this program, all of them ASCII, against
    a character of the text. *)
Definition char_match (a : ascii) (c : N) : bool := (fold c =? fold (code a))%N.

(** The class [[a-zA-Z\s]] under [re.IGNORECASE]. *)
Definition letter_or_space (c : N) : bool := between 97 122 (fold c) || isspace c.

(** The decimal digits and [string.punctuation], which holds both quotes. *)
Definition ispunct (c : N) : bool :=
  between 33 47 c || between 58 64 c || between 91 96 c || between 123 126 c.

Definition plain (c : N) : bool := negb (between 48 57 c || ispunct c).

Definition ascii_letter (c : N) : bool := between 97 122 c || between 65 90 c.

(** Patterns, as in [Re], without the flag: all of them are searched
    with [re.IGNORECASE]. *)
Inductive regex : Type :=
| Lit (l : string)
| Plus (p : N -> bool)
| Alt (r1 r2 : regex)
| Cat (r1 r2 : regex)
| Group (r : regex).

Fixpoint lit (l : string) (s : ustring) : option (ustring * ustring) :=
  match l, s with
  | EmptyString, _ => Some ([], s)
  | String a l', b :: s' =>
      if char_match a b then
        match lit l' s' with
        | Some (w, rest) => Some (b :: w, rest)
        | None => None
        end
      else None
  | String _ _, [] => None
  end.

Section Backtracking.
Context {A : Type}.

Fixpoint star (p : N -> bool) (s : ustring)
    (k : ustring -> ustring -> option A) : option A :=
  match s with
  | c :: s' =>
      if p c then
        match star p s' (fun w rest => k (c :: w) rest) with
        | Some a => Some a
        | None => k [] s
        end
      else k [] s
  | [] => k [] s
  end.

Fixpoint run (r : regex) (s : ustring) (cap : ustring)
    (k : ustring -> ustring -> ustring -> option A) : option A :=
  match r with
  | Lit l =>
      match lit l s with
      | Some (w, rest) => k w rest cap
      | None => None
      end
  | Plus p =>
      match s with
      | c :: s' =>
          if p c then star p s' (fun w rest => k (c :: w) rest cap)
          else None
      | [] => None
      end
  | Alt r1 r2 =>
      match run r1 s cap k with
      | Some a => Some a
      | None => run r2 s cap k
      end
  | Cat r1 r2 =>
      run r1 s cap (fun w1 s1 cap1 =>
        run r2 s1 cap1 (fun w2 s2 cap2 => k (w1 ++ w2) s2 cap2))
  | Group r' => run r' s cap (fun w rest _ => k w rest w)
  end.
End Backtracking.

Definition match_here (r : regex) (s : ustring) : option ustring :=
  run r s [] (fun _ _ cap => Some cap).

(** [re.search(r, s, re.IGNORECASE).group(1)] *)
Fixpoint search (r : regex) (s : ustring) : option ustring :=
  match match_here r s with
  | Some cap => Some cap
  | None =>
      match s with
      | [] => None
      | _ :: s' => search r s'
      end
  end.

Fixpoint lstrip (s : ustring) : ustring :=
  match s with
  | [] => []
  | c :: s' => if isspace c then lstrip s' else s
  end.

Fixpoint rstrip (s : ustring) : ustring :=
  match s with
  | [] => []
  | c :: s' =>
      match rstrip s' with
      | [] => if isspace c then [] else [c]
      | t => c :: t
      end
  end.

(** [s.strip()] *)
Definition strip (s : ustring) : ustring := rstrip (lstrip s).

Definition is_eq_colon : regex := Alt (Lit "is") (Alt (Lit "=") (Lit ":")).

(** [r'<name>\s+(?:is|=|:)\s+([a-zA-Z\s]+)'] *)
Definition filter_pattern (name : string) : regex :=
  Cat (Lit name) (Cat (Plus isspace) (Cat is_eq_colon
    (Cat (Plus isspace) (Group (Plus letter_or_space))))).

(** [r'delivery\s+(?:mode|is|=|:)\s+([a-zA-Z\s]+)'] *)
Definition delivery_pattern : regex :=
  Cat (Lit "delivery") (Cat (Plus isspace) (Cat (Alt (Lit "mode") is_eq_colon)
    (Cat (Plus isspace) (Group (Plus letter_or_space))))).

(** The six phrases, in the order of the [if] statements. *)
Definition filter_patterns : list (string * regex) :=
  [ ("industry", filter_pattern "industry"); ("region", filter_pattern "region");
    ("size", filter_pattern "size"); ("category", filter_pattern "category");
    ("delivery_mode", delivery_pattern); ("stage", filter_pattern "stage") ].

(** [m = re.search(pattern, prompt, re.IGNORECASE)] and
    [if m: params['filters'][key] = m.group(1).strip()], for the six
    keys: the keys written and their values. *)
Definition stored (prompt : ustring) : list (string * ustring) :=
  flat_map (fun entry =>
              match search (snd entry) prompt with
              | Some g => [(fst entry, strip g)]
              | None => []
              end) filter_patterns.

(** The last code point of a string. *)
Fixpoint last (s : ustring) : option N :=
  match s with
  | [] => None
  | [c] => Some c
  | _ :: s' => last s'
  end.

(** The pattern ends with the group [(p+)]. *)
Fixpoint captures_class (p : N -> bool) (r : regex) : Prop :=
  match r with
  | Group (Plus q) => q = p
  | Cat _ r2 => captures_class p r2
  | _ => False
  end.

(** A pattern of [Re] and the same pattern on code points. *)
Inductive agrees : Re.regex -> regex -> Prop :=
| A_Lit l : agrees (Re.Lit l) (Lit l)
| A_Plus p q : (forall c, q (code c) = p c) -> agrees (Re.Plus p) (Plus q)
| A_Alt r1 r2 u1 u2 :
    agrees r1 u1 -> agrees r2 u2 -> agrees (Re.Alt r1 r2) (Alt u1 u2)
| A_Cat r1 r2 u1 u2 :
    agrees r1 u1 -> agrees r2 u2 -> agrees (Re.Cat r1 r2) (Cat u1 u2)
| A_Group r u : agrees r u -> agrees (Re.Group r) (Group u).

(** The characters of the 8-bit model. *)
Definition all_ascii : list ascii := map ascii_of_nat (seq 0 256).

End Unicode.

(* ===================================================================== *)
(** ** The specification's own wording, for comparison with the code     *)
(* ===================================================================== *)

Module Spec.
Import Text Re.

(** [<filter_name>\s*(?:is|=|:)\s*([a-zA-Z\s]+)], as the specification
    writes the pattern of [extract_filter]. *)
Definition filter_regex (filter_name : string) : regex :=
  Cat (Lit filter_name) (Cat (Star isspace) (Cat is_eq_colon
    (Cat (Star isspace) (Group (Plus letter_or_space))))).

(** [extract_filter(text, filter_name)]: case-insensitive, the group
    trimmed, none without a match. *)
Definition extract_filter (text filter_name : string) : option string :=
  option_map strip (search true (filter_regex filter_name) text).

(** [win_rate = won_count / total_closed_count x 100], and 0 when
    [total_closed_count = 0]: the closed opportunities are those won and
    those lost. *)
Definition total_closed_count (g : list VisualizationGenerator.opportunity) : Z :=
  VisualizationGenerator.won_count g + VisualizationGenerator.lost_count g.

Definition win_rate (g : list VisualizationGenerator.opportunity) : Q :=
  if total_closed_count g =? 0 then 0%Q
  else (inject_Z (VisualizationGenerator.won_count g)
        / inject_Z (total_closed_count g) * 100)%Q.

End Spec.

(* ===================================================================== *)
(** ** The columns that the chart branches read                          *)
(* ===================================================================== *)

Module Charts.
Import Text Py VisualizationGenerator.

(** [y_col = f"total_{metric}" if metric in ['revenue', 'profit'] else metric]
    followed by the three overrides, as in the bar and line branches. *)
Definition y_col (metric : string) : string :=
  let y_col := if member metric ["revenue"; "profit"]
               then "total_" +:+ metric else metric in
  if String.eqb metric "profit_margin" then "profit_margin"
  else if String.eqb metric "win_rate" then "win_rate"
  else if String.eqb metric "pipeline_value" then "weighted_value"
  else y_col.

(** [value_col] of the pie branch. *)
Definition value_col (metric : string) : string :=
  let value_col := if member metric ["revenue"; "profit"]
                   then "total_" +:+ metric else metric in
  if String.eqb metric "profit_margin" then "total_profit"
  else if String.eqb metric "win_rate" then "total_count"
  else if String.eqb metric "pipeline_value" then "weighted_value"
  else value_col.

(** The columns of the grouped bars of the comparison branch. *)
Definition comparison_cols (metric : string) : list string :=
  if String.eqb metric "profit_margin"
  then ["total_revenue"; "total_profit"; "profit_margin"]
  else [if member metric ["revenue"; "profit"] then "total_" +:+ metric else metric].

(** [s.endswith(suffix)] *)
Definition endswith (suffix s : string) : bool :=
  startswith (String.rev suffix) (String.rev s).

(** The select list names the column [col]: one of its items ends with
    [as col]. *)
Definition selects (col : string) (q : clauses) : bool :=
  existsb (endswith (" as " +:+ col)) (select_clause q).

(** The metrics that [# Handle metric] has a branch for. *)
Definition handled_metrics : list string :=
  ["revenue"; "profit"; "profit_margin"; "enrollment_count"; "client_count";
   "program_count"; "opportunity_count"; "win_rate"; "pipeline_value"].

End Charts.

(* ===================================================================== *)
(** ** Vocabulary of the further statements                              *)
(* ===================================================================== *)

Module Requests.
Import Text Re Py PromptAnalyzer Views.

(** The longest prefix of a text made of characters of a class. *)
Fixpoint take_while (p : ascii -> bool) (s : string) : string :=
  match s with
  | EmptyString => EmptyString
  | String c s' => if p c then String c (take_while p s') else EmptyString
  end.

(** The first run of digits of a text. *)
Definition take_digits (s : string) : string := take_while isdigit s.

Fixpoint first_digits (s : string) : option string :=
  match s with
  | EmptyString => None
  | String c s' => if isdigit c then Some (take_digits s) else first_digits s'
  end.

Definition not_digit (c : ascii) : bool := negb (isdigit c).

(** What a token of [simple_tokenize] is made of. *)
Definition token_char (c : ascii) : bool :=
  negb (isspace c) && negb (ispunct c) && negb (in_range 65 90 c).

(** The values that the resolver can leave under the three keys. *)
Definition resolver_metrics : list string :=
  ["revenue"; "profit"; "profit_margin"; "cost"; "client_count"; "program_count";
   "enrollment_count"; "opportunity_count"].

Definition resolver_dimensions : list string :=
  ["client_name"; "program_name"; "industry"; "region"; "size"; "category";
   "delivery_mode"; "month"].

Definition resolver_query_types : list string :=
  ["top"; "bottom"; "average"; "comparison"; "distribution"; "trend"].

Definition in_ranges (params : gmap string value) : Prop :=
  exists metric dimension query_type,
    params !! "metric" = Some (VStr metric) /\ In metric resolver_metrics /\
    params !! "dimension" = Some (VStr dimension) /\ In dimension resolver_dimensions /\
    params !! "query_type" = Some (VStr query_type) /\ In query_type resolver_query_types.

(** The keys that [create_custom_visualization] knows in [filters]. *)
Definition filter_keys : list string :=
  ["industry"; "size"; "region"; "category"; "delivery_mode"; "stage";
   "date_from"; "date_to"].

(** The filters of a dictionary hold known keys only, and the two date
    keys together. *)
Definition known_keys (s : gmap string value) : Prop :=
  forall f, s !! "filters" = Some (VDict f) ->
            forall k, In k (map fst f) -> In k filter_keys.

Definition dates_paired (s : gmap string value) : Prop :=
  filter_of s "date_from" = None <-> filter_of s "date_to" = None.

(** [d.get(k)] in a list of named dictionaries. *)
Fixpoint assoc {V : Type} (k : string) (l : list (string * V)) : option V :=
  match l with
  | [] => None
  | (k', v) :: rest => if String.eqb k' k then Some v else assoc k rest
  end.

(** The parameter dictionary that [process_prompt] works on, as a function
    of the prompt: the matching template with the limit of the prompt, or
    the result of [analyze_prompt]. *)
Definition request_params (prompt : string) : result (gmap string value) :=
  match first_rule prompt with
  | Some name =>
      match assoc name template_table with
      | Some d => limit ← extract_number prompt; Ok (set_limit limit d)
      | None => Raise (KeyError name)
      end
  | None => analyze_prompt prompt
  end.

(** The arguments that [execute_analysis] reads from the dictionary. *)
Definition str_field (d : gmap string value) (k : string) : string :=
  match d !! k with
  | Some (VStr s) => s
  | _ => EmptyString
  end.

Definition filters_field (d : gmap string value) : odict :=
  match d !! "filters" with
  | Some (VDict f) => f
  | _ => []
  end.

Definition limit_field (d : gmap string value) : Z :=
  match d !! "limit" with
  | Some (VInt n) => n
  | _ => 10
  end.

(** The dictionary after [execute_analysis]: a title is added when there
    is none. *)
Definition titled (d : gmap string value) : gmap string value :=
  match d !! "title" with
  | Some _ => d
  | None =>
      match generate_title d with
      | Ok title => <["title" := VStr title]> d
      | Raise _ => d
      end
  end.

(** A dictionary with the four string keys, and with filters and a limit
    of the right kind when it has them. *)
Definition requestable (d : gmap string value) : Prop :=
  (exists query_type entity_type metric dimension,
      d !! "query_type" = Some (VStr query_type) /\
      d !! "entity_type" = Some (VStr entity_type) /\
      d !! "metric" = Some (VStr metric) /\
      d !! "dimension" = Some (VStr dimension)) /\
  (d !! "filters" = None \/ exists f, d !! "filters" = Some (VDict f)) /\
  (d !! "limit" = None \/ exists n, d !! "limit" = Some (VInt n)).

(** The filters that the builder acts on: a known key and a value that is
    not empty. *)
Definition effective (item : string * string) : bool :=
  VisualizationGenerator.member (fst item) filter_keys
  && VisualizationGenerator.truthy (snd item).

End Requests.

(* ===================================================================== *)
(** * Properties                                                         *)
(* ===================================================================== *)

(** ** Strings *)

Section TextFacts.
Import Text.

Lemma append_nil (s : string) : EmptyString +:+ s = s.
Proof. reflexivity. Qed.

Lemma append_cons (c : ascii) (a b : string) : String c a +:+ b = String c (a +:+ b).
Proof. reflexivity. Qed.

Lemma append_empty_r (s : string) : s +:+ EmptyString = s.
Proof.
  induction s as [|c s IH]; [reflexivity |].
  now rewrite append_cons, IH.
Qed.

Lemma append_assoc (a b c : string) : (a +:+ b) +:+ c = a +:+ (b +:+ c).
Proof.
  induction a as [|x a IH]; [reflexivity |].
  now rewrite !append_cons, IH.
Qed.

Lemma all_chars_app (p : ascii -> bool) (a b : string) :
  all_chars p (a +:+ b) = all_chars p a && all_chars p b.
Proof.
  induction a as [|x a IH]; [reflexivity |].
  rewrite append_cons. simpl. rewrite IH. now rewrite andb_assoc.
Qed.

Lemma all_chars_impl (p q : ascii -> bool) (s : string) :
  (forall c, p c = true -> q c = true) ->
  all_chars p s = true -> all_chars q s = true.
Proof.
  intros Hpq. induction s as [|c s IH]; simpl; [reflexivity |].
  intros [Hc Hs]%andb_prop. rewrite (Hpq _ Hc). simpl. now apply IH.
Qed.

Lemma all_chars_lstrip (p : ascii -> bool) (s : string) :
  all_chars p s = true -> all_chars p (lstrip s) = true.
Proof.
  induction s as [|c s IH]; simpl; [reflexivity |].
  intros H. destruct (isspace c).
  - apply IH. now apply andb_prop in H as [_ H].
  - exact H.
Qed.

Lemma all_chars_rstrip (p : ascii -> bool) (s : string) :
  all_chars p s = true -> all_chars p (rstrip s) = true.
Proof.
  induction s as [|c s IH]; simpl; [reflexivity |].
  intros [Hc Hs]%andb_prop. specialize (IH Hs).
  destruct (rstrip s) as [|d t].
  - destruct (isspace c); simpl; [reflexivity | now rewrite Hc].
  - simpl in *. now rewrite Hc.
Qed.

Lemma all_chars_strip (p : ascii -> bool) (s : string) :
  all_chars p s = true -> all_chars p (strip s) = true.
Proof. intros H. unfold strip. now apply all_chars_rstrip, all_chars_lstrip. Qed.

(** The stripped text neither starts nor ends with white space. *)
Lemma head_lstrip (s : string) (c : ascii) :
  head (lstrip s) = Some c -> isspace c = false.
Proof.
  induction s as [|x s IH]; simpl; [discriminate |].
  destruct (isspace x) eqn:Hx; [exact IH |].
  simpl. intros [= <-]. exact Hx.
Qed.

Lemma head_rstrip (s : string) (c : ascii) :
  head (rstrip s) = Some c -> head s = Some c.
Proof.
  destruct s as [|x s]; simpl; [discriminate |].
  destruct (rstrip s); [destruct (isspace x); [discriminate |] |]; simpl; auto.
Qed.

Lemma last_rstrip (s : string) (c : ascii) :
  last (rstrip s) = Some c -> isspace c = false.
Proof.
  induction s as [|x s IH]; simpl; [discriminate |].
  destruct (rstrip s) as [|d t] eqn:Hr.
  - destruct (isspace x) eqn:Hx; simpl; [discriminate |].
    intros [= <-]. exact Hx.
  - exact IH.
Qed.

Lemma strip_trimmed (s : string) :
  (forall c, head (strip s) = Some c -> isspace c = false) /\
  (forall c, last (strip s) = Some c -> isspace c = false).
Proof.
  unfold strip. split; intros c H.
  - apply head_rstrip in H. now apply head_lstrip in H.
  - now apply last_rstrip in H.
Qed.

End TextFacts.

(** ** The matcher against the meaning of patterns *)

Section ReFacts.
Import Text Re.

Lemma lit_sound (ic : bool) (l s w rest : string) :
  lit ic l s = Some (w, rest) -> s = w +:+ rest /\ lit_matches ic l w = true.
Proof.
  revert s w rest. induction l as [|a l IH]; intros s w rest; simpl.
  - intros [= <- <-]. auto.
  - destruct s as [|b s]; [discriminate |].
    destruct (char_match ic a b) eqn:Hc; [|discriminate].
    destruct (lit ic l s) as [[w' rest']|] eqn:Hl; [|discriminate].
    intros [= <- <-]. destruct (IH _ _ _ Hl) as [-> Hm].
    simpl. rewrite Hc, Hm. auto.
Qed.

Lemma lit_complete (ic : bool) (l w rest : string) :
  lit_matches ic l w = true -> lit ic l (w +:+ rest) = Some (w, rest).
Proof.
  revert w. induction l as [|a l IH]; intros [|b w]; simpl; try discriminate.
  - reflexivity.
  - intros [Hc Hm]%andb_prop. rewrite Hc, (IH _ Hm). reflexivity.
Qed.

Lemma star_sound {A : Type} (p : ascii -> bool) (s : string)
    (k : string -> string -> option A) (a : A) :
  star p s k = Some a ->
  exists w rest, s = w +:+ rest /\ all_chars p w = true /\ k w rest = Some a.
Proof.
  revert k. induction s as [|c s IH]; intros k; simpl.
  - intros H. exists EmptyString, EmptyString. auto.
  - destruct (p c) eqn:Hc.
    + destruct (star p s _) as [a'|] eqn:Hs.
      * intros [= ->]. apply IH in Hs as (w & rest & -> & Hw & Hk).
        exists (String c w), rest. simpl. rewrite Hc, Hw. auto.
      * intros H. exists EmptyString, (String c s). auto.
    + intros H. exists EmptyString, (String c s). auto.
Qed.

Lemma star_complete {A : Type} (p : ascii -> bool) (w rest : string)
    (k : string -> string -> option A) :
  all_chars p w = true -> is_Some (k w rest) -> is_Some (star p (w +:+ rest) k).
Proof.
  revert k. induction w as [|c w IH]; intros k Hw Hk; simpl in *.
  - destruct rest as [|c s]; simpl; [exact Hk |].
    destruct (p c); [|exact Hk].
    destruct (star p s _); [eauto | exact Hk].
  - apply andb_prop in Hw as [Hc Hw]. rewrite Hc.
    destruct (IH (fun w0 r0 => k (String c w0) r0) Hw Hk) as [a Ha].
    rewrite Ha. eauto.
Qed.

Lemma run_sound {A : Type} (ic : bool) (r : regex) :
  forall (s cap : string) (k : string -> string -> string -> option A) (a : A),
    run ic r s cap k = Some a ->
    exists w rest cap',
      s = w +:+ rest /\ matches ic r w cap cap' /\ k w rest cap' = Some a.
Proof.
  induction r as [l | p | p | r1 IH1 r2 IH2 | r1 IH1 r2 IH2 | r IH];
    intros s cap k a; simpl.
  - destruct (lit ic l s) as [[w rest]|] eqn:Hl; [|discriminate].
    intros Hk. apply lit_sound in Hl as [-> Hm].
    exists w, rest, cap. split; [reflexivity|]. split; [now constructor | exact Hk].
  - destruct s as [|c s]; [discriminate |].
    destruct (p c) eqn:Hc; [|discriminate].
    intros (w & rest & -> & Hw & Hk)%star_sound.
    exists (String c w), rest, cap. split; [reflexivity|]. split; [|exact Hk].
    constructor; [discriminate | simpl; now rewrite Hc, Hw].
  - intros (w & rest & -> & Hw & Hk)%star_sound.
    exists w, rest, cap. split; [reflexivity|]. split; [now constructor | exact Hk].
  - destruct (run ic r1 s cap k) as [a1|] eqn:H1.
    + intros [= ->]. apply IH1 in H1 as (w & rest & cap' & -> & Hm & Hk).
      exists w, rest, cap'. split; [reflexivity|]. split; [now apply M_Alt_l | exact Hk].
    + intros H2. apply IH2 in H2 as (w & rest & cap' & -> & Hm & Hk).
      exists w, rest, cap'. split; [reflexivity|]. split; [now apply M_Alt_r | exact Hk].
  - intros H. apply IH1 in H as (w1 & s1 & cap1 & -> & Hm1 & H).
    apply IH2 in H as (w2 & s2 & cap2 & -> & Hm2 & Hk).
    exists (w1 +:+ w2), s2, cap2. split; [now rewrite append_assoc|].
    split; [now apply M_Cat with cap1 | exact Hk].
  - intros H. apply IH in H as (w & rest & cap' & -> & Hm & Hk).
    exists w, rest, w. split; [reflexivity|]. split; [now apply M_Group with cap' | exact Hk].
Qed.

Lemma run_complete {A : Type} (ic : bool) (r : regex) (w cap cap' : string) :
  matches ic r w cap cap' ->
  forall (rest : string) (k : string -> string -> string -> option A),
    is_Some (k w rest cap') -> is_Some (run ic r (w +:+ rest) cap k).
Proof.
  induction 1 as [l w cap Hl | p w cap Hne Hw | p w cap Hw
                 | r1 r2 w cap cap' _ IH | r1 r2 w cap cap' _ IH
                 | r1 r2 w1 w2 cap cap1 cap2 _ IH1 _ IH2
                 | r w cap cap' _ IH];
    intros rest k Hk; simpl.
  - now rewrite (lit_complete _ _ _ rest Hl).
  - destruct w as [|c w]; [congruence |]. simpl in *.
    apply andb_prop in Hw as [Hc Hw]. rewrite Hc.
    now apply (star_complete p w rest (fun w0 r0 => k (String c w0) r0 cap)).
  - now apply (star_complete p w rest (fun w0 r0 => k w0 r0 cap)).
  - destruct (IH rest k Hk) as [a Ha]. rewrite Ha. eauto.
  - destruct (run ic r1 (w +:+ rest) cap k); [eauto | now apply IH].
  - rewrite append_assoc. apply IH1. now apply IH2.
  - now apply IH.
Qed.

(** [search] finds a match exactly when the pattern occurs in the text. *)
Lemma search_sound (ic : bool) (r : regex) (s g : string) :
  search ic r s = Some g -> occurs ic r s g.
Proof.
  induction s as [|c s IH]; simpl; unfold match_here.
  - destruct (run ic r EmptyString _ _) as [g'|] eqn:Hr; [|discriminate].
    intros [= ->]. apply run_sound in Hr as (w & rest & cap' & Hs & Hm & [= ->]).
    exists EmptyString, w, rest. auto.
  - destruct (run ic r (String c s) _ _) as [g'|] eqn:Hr.
    + intros [= ->]. apply run_sound in Hr as (w & rest & cap' & Hs & Hm & [= ->]).
      exists EmptyString, w, rest. auto.
    + intros (pre & w & post & -> & Hm)%IH.
      exists (String c pre), w, post. auto.
Qed.

Lemma search_complete (ic : bool) (r : regex) (s g : string) :
  occurs ic r s g -> is_Some (search ic r s).
Proof.
  intros (pre & w & post & -> & Hm). induction pre as [|c pre IH]; simpl.
  - assert (is_Some (match_here ic r (w +:+ post))) as [g' Hg].
    { unfold match_here. eapply run_complete; eauto. }
    destruct (w +:+ post); simpl; rewrite Hg; eauto.
  - destruct (match_here ic r _); eauto.
Qed.

Lemma search_none (ic : bool) (r : regex) (s : string) :
  search ic r s = None <-> forall g, ~ occurs ic r s g.
Proof.
  split.
  - intros Hn g [g' Hg]%search_complete. congruence.
  - intros Hn. destruct (search ic r s) as [g|] eqn:Hs; [|reflexivity].
    apply search_sound in Hs. now apply Hn in Hs.
Qed.

End ReFacts.

(** Lookups after insertions under distinct literal keys, and the case
    analysis of a chain of comparisons. *)
Ltac lookups :=
  repeat (rewrite lookup_insert_eq || (rewrite lookup_insert_ne by discriminate)).

Ltac branches :=
  repeat match goal with
         | |- context [String.eqb ?a ?b] => destruct (String.eqb a b)
         | |- context [Text.contains ?a ?b] => destruct (Text.contains a b)
         | |- context [Py.eq_str ?a ?b] => destruct (Py.eq_str a b)
         end.

(** ** The lexicon passes of [analyze_prompt] *)

Section PassFacts.
Import Text Re Py PromptAnalyzer Views.

Lemma for_keywords_hit {S : Type} (keywords : list string) (text : string)
    (body : S -> result S) (s : S) :
  for_keywords keywords text body s = if hit text keywords then body s else Ok s.
Proof.
  induction keywords as [|k rest IH]; simpl; [reflexivity |].
  destruct (contains k text); simpl; [reflexivity | exact IH].
Qed.

(** Every category with a keyword in the text runs its branch, in the
    order of the table. *)
Lemma for_categories_matching {S : Type} (table : lexicon) (text : string)
    (body : string -> S -> result S) (s : S) :
  for_categories table text body s = apply_all body (matching table text) s.
Proof.
  revert s. induction table as [|[c kws] rest IH]; intros s; [reflexivity |].
  cbn [for_categories]. rewrite for_keywords_hit.
  unfold matching. cbn [List.filter snd].
  destruct (hit text kws); cbn [map fst apply_all].
  - unfold mbind, result_bind. destruct (body c s); [apply IH | reflexivity].
  - apply IH.
Qed.

Lemma apply_all_app {S : Type} (body : string -> S -> result S) (l1 l2 : list string)
    (s : S) :
  apply_all body (l1 ++ l2) s = (s' ← apply_all body l1 s; apply_all body l2 s').
Proof.
  revert s. induction l1 as [|c l1 IH]; intros s; [reflexivity |].
  cbn [app apply_all]. unfold mbind, result_bind in *.
  destruct (body c s); [apply IH | reflexivity].
Qed.

Lemma last_of_split (l : list string) (c : string) :
  last_of l = Some c -> exists l', l = l' ++ [c].
Proof.
  induction l as [|x l IH]; [discriminate |].
  destruct l as [|y l].
  - intros [= ->]. now exists [].
  - intros H. destruct (IH H) as [l' ->]. now exists (x :: l').
Qed.

Lemma matching_in_table (table : lexicon) (text c : string) :
  In c (matching table text) -> In c (map fst table).
Proof.
  unfold matching. intros (e & <- & He)%in_map_iff.
  apply filter_In in He as [He _]. now apply in_map.
Qed.

(** An invariant of a branch is an invariant of the pass, and the pass
    does not raise when the branch does not. *)
Lemma apply_all_invariant {S : Type} (P : S -> Prop) (body : string -> S -> result S)
    (l : list string) (s : S) :
  (forall c s, P s -> exists s', body c s = Ok s' /\ P s') ->
  P s -> exists s', apply_all body l s = Ok s' /\ P s'.
Proof.
  intros Hbody. revert s. induction l as [|c l IH]; intros s Hs; [now exists s |].
  cbn [apply_all]. destruct (Hbody c s Hs) as (s1 & -> & H1). now apply IH.
Qed.

(** *** The six keys stay populated *)

Lemma populated_set_str (k v : string) (params : gmap string value) :
  In k ["query_type"; "metric"; "dimension"] ->
  populated params -> populated (<[k := VStr v]> params).
Proof.
  intros Hk (qt & et & m & d & l & f & Hqt & Het & Hm & Hd & Hl & Hf & Hge & Hin).
  destruct Hk as [<- | [<- | [<- | []]]].
  - exists v, et, m, d, l, f. lookups. auto 10.
  - exists qt, et, v, d, l, f. lookups. auto 10.
  - exists qt, et, m, v, l, f. lookups. auto 10.
Qed.

Lemma populated_set_entity (v : string) (params : gmap string value) :
  In v ["clients"; "programs"; "enrollments"; "opportunities"] ->
  populated params -> populated (<["entity_type" := VStr v]> params).
Proof.
  intros Hv (qt & et & m & d & l & f & Hqt & Het & Hm & Hd & Hl & Hf & Hge & Hin).
  exists qt, v, m, d, l, f. lookups. auto 10.
Qed.

Lemma populated_set_filters (f' : odict) (params : gmap string value) :
  populated params -> populated (<["filters" := VDict f']> params).
Proof.
  intros (qt & et & m & d & l & f & Hqt & Het & Hm & Hd & Hl & Hf & Hge & Hin).
  exists qt, et, m, d, l, f'. lookups. auto 10.
Qed.

Lemma populated_set_limit (n : Z) (params : gmap string value) :
  1 <= n -> populated params -> populated (<["limit" := VInt n]> params).
Proof.
  intros Hn (qt & et & m & d & l & f & Hqt & Het & Hm & Hd & Hl & Hf & Hge & Hin).
  exists qt, et, m, d, n, f. lookups. auto 10.
Qed.

Lemma populated_default : populated default_params.
Proof.
  exists "top", "programs", "revenue", "program_name", 5, [].
  unfold default_params. lookups. repeat split; try reflexivity; [lia | simpl; auto].
Qed.

Ltac populate :=
  repeat first
    [ assumption
    | apply populated_set_str; [simpl; tauto |]
    | apply populated_set_entity; [simpl; tauto |]
    | apply populated_set_filters ].

Lemma entity_body_populated (c : string) (params : gmap string value) :
  populated params -> exists params', entity_body c params = Ok params' /\ populated params'.
Proof.
  intros H. unfold entity_body. branches; eexists; (split; [reflexivity |]); populate.
Qed.

Lemma metric_body_populated (text c : string) (params : gmap string value) :
  populated params ->
  exists params', metric_body text c params = Ok params' /\ populated params'.
Proof.
  intros H. unfold metric_body.
  assert (exists et, getitem params "entity_type" = Ok (VStr et)) as [et Het].
  { destruct H as (qt & et & m & d & l & f & Hqt & Het & _).
    exists et. unfold getitem. now rewrite Het. }
  rewrite Het. cbn [mbind result_bind].
  branches; eexists; (split; [reflexivity |]); populate.
Qed.

Lemma dimension_body_populated (c : string) (params : gmap string value) :
  populated params ->
  exists params', dimension_body c params = Ok params' /\ populated params'.
Proof.
  intros H. unfold dimension_body. branches; eexists; (split; [reflexivity |]); populate.
Qed.

Lemma query_type_body_populated (c : string) (params : gmap string value) :
  populated params ->
  exists params', query_type_body c params = Ok params' /\ populated params'.
Proof.
  intros H. unfold query_type_body. branches; eexists; (split; [reflexivity |]); populate.
Qed.

Lemma setitem2_filters (key v : string) (params : gmap string value) (f : odict) :
  params !! "filters" = Some (VDict f) ->
  setitem2 params "filters" key v = Ok (<["filters" := VDict (odict_set key v f)]> params).
Proof. intros H. unfold setitem2, getitem. now rewrite H. Qed.

Lemma setitem2_populated (key v : string) (params : gmap string value) :
  populated params ->
  exists params', setitem2 params "filters" key v = Ok params' /\ populated params'.
Proof.
  intros H.
  assert (exists f, params !! "filters" = Some (VDict f)) as [f Hf].
  { destruct H as (qt & et & m & d & l & f & _ & _ & _ & _ & _ & Hf & _). eauto. }
  rewrite (setitem2_filters _ _ _ _ Hf). eexists. split; [reflexivity |].
  now apply populated_set_filters.
Qed.

Lemma set_dates_populated (a b : string) (params : gmap string value) :
  populated params ->
  exists params', set_dates a b params = Ok params' /\ populated params'.
Proof.
  intros H. unfold set_dates.
  destruct (setitem2_populated "date_from" a params H) as (p1 & -> & H1).
  cbn [mbind result_bind]. now apply setitem2_populated.
Qed.

Lemma time_period_body_populated (c : string) (params : gmap string value) :
  populated params ->
  exists params', time_period_body c params = Ok params' /\ populated params'.
Proof.
  intros H. unfold time_period_body.
  branches; try (now apply set_dates_populated). now exists params.
Qed.

Lemma filter_step_populated (r : regex) (key prompt : string) (params : gmap string value) :
  populated params ->
  exists params', filter_step r key prompt params = Ok params' /\ populated params'.
Proof.
  intros H. unfold filter_step.
  destruct (search true r prompt); [now apply setitem2_populated | now exists params].
Qed.

Lemma pass_populated (table : lexicon) (text : string)
    (body : string -> gmap string value -> result (gmap string value))
    (params : gmap string value) :
  (forall c s, populated s -> exists s', body c s = Ok s' /\ populated s') ->
  populated params ->
  exists params', for_categories table text body params = Ok params' /\ populated params'.
Proof.
  intros Hbody H. rewrite for_categories_matching. now apply apply_all_invariant.
Qed.

Lemma filter_pass_populated (prompt : string) (params : gmap string value) :
  populated params ->
  exists params', filter_pass prompt params = Ok params' /\ populated params'.
Proof.
  intros H. unfold filter_pass.
  repeat match goal with
  | |- context [filter_step ?r ?k prompt ?p] =>
      let p' := fresh "p" in let Hp := fresh "Hp" in let E := fresh "E" in
      assert (populated p) as Hp by assumption;
      destruct (filter_step_populated r k prompt p Hp) as (p' & E & ?);
      rewrite E; cbn [mbind result_bind]; clear E Hp
  end.
  eauto.
Qed.

(** *** The number taken from the prompt *)

Lemma matches_captures_class (ic : bool) (p : ascii -> bool) (r : regex)
    (w cap g : string) :
  matches ic r w cap g -> captures_class p r ->
  all_chars p g = true /\ g <> EmptyString.
Proof.
  induction 1 as [| | | | | r1 r2 w1 w2 cap cap1 cap2 _ _ _ IH2 | r w cap cap' Hm _];
    cbn [captures_class]; try tauto.
  destruct r; try tauto. intros ->. inversion Hm; subst. auto.
Qed.

Lemma search_captures_class (ic : bool) (p : ascii -> bool) (r : regex) (s g : string) :
  captures_class p r -> search ic r s = Some g ->
  all_chars p g = true /\ g <> EmptyString.
Proof.
  intros Hr (pre & w & post & _ & Hm)%search_sound.
  eapply matches_captures_class; eauto.
Qed.

Lemma digit_value_nonneg (c : ascii) : isdigit c = true -> 0 <= digit_value c.
Proof.
  unfold isdigit, in_range, digit_value.
  intros [H _]%andb_prop. apply N.leb_le in H. lia.
Qed.

Lemma int_of_digits_from_nonneg (s : string) (acc : Z) :
  all_chars isdigit s = true -> 0 <= acc -> 0 <= int_of_digits_from acc s.
Proof.
  revert acc. induction s as [|c s IH]; intros acc; simpl; [auto |].
  intros [Hc Hs]%andb_prop Hacc. apply IH; [exact Hs |].
  pose proof (digit_value_nonneg c Hc). lia.
Qed.

Lemma int_ok (s : string) (n : Z) :
  int s = Ok n ->
  n = int_of_digits s /\ Z.of_nat (String.length s) <= int_max_str_digits.
Proof.
  unfold int. destruct (Z.of_nat (String.length s) <=? int_max_str_digits) eqn:H;
    [|discriminate].
  intros [= <-]. apply Z.leb_le in H. auto.
Qed.

Lemma int_short (s : string) :
  Z.of_nat (String.length s) <= int_max_str_digits -> int s = Ok (int_of_digits s).
Proof. intros H. apply Z.leb_le in H. unfold int. now rewrite H. Qed.

Lemma int_long (s : string) :
  int_max_str_digits < Z.of_nat (String.length s) ->
  exists msg, int s = Raise (Exception "ValueError" msg).
Proof.
  intros H. apply Z.leb_gt in H. unfold int. rewrite H. eexists. reflexivity.
Qed.

Lemma int_raises (s : string) (e : exn) :
  int s = Raise e ->
  int_max_str_digits < Z.of_nat (String.length s) /\
  exists msg, e = Exception "ValueError" msg.
Proof.
  unfold int. destruct (Z.of_nat (String.length s) <=? int_max_str_digits) eqn:H;
    [discriminate |].
  intros [= <-]. apply Z.leb_gt in H. eauto.
Qed.

Lemma extract_number_nonneg (text : string) (n : Z) :
  extract_number text = Ok (Some n) -> 0 <= n.
Proof.
  unfold extract_number.
  destruct (search false top_n_pattern (lower text)) as [g|] eqn:H1.
  - destruct (int g) as [m|] eqn:Hi; cbn [mbind result_bind]; [|discriminate].
    intros [= <-]. apply int_ok in Hi as [-> _].
    apply (search_captures_class _ isdigit) in H1 as [Hg _];
      [|reflexivity]. now apply int_of_digits_from_nonneg.
  - destruct (search false digits_pattern text) as [g|] eqn:H2; [|discriminate].
    destruct (int g) as [m|] eqn:Hi; cbn [mbind result_bind]; [|discriminate].
    intros [= <-]. apply int_ok in Hi as [-> _].
    apply (search_captures_class _ isdigit) in H2 as [Hg _];
      [|reflexivity]. now apply int_of_digits_from_nonneg.
Qed.

Lemma limit_of_positive (prompt : string) (limit : option Z) :
  extract_number prompt = Ok limit -> 1 <= limit_of limit.
Proof.
  intros E. unfold limit_of. destruct limit as [n|]; [|lia].
  apply extract_number_nonneg in E. destruct (n =? 0) eqn:Hz; [lia |].
  apply Z.eqb_neq in Hz. lia.
Qed.

Lemma set_limit_spec (limit : option Z) (params : gmap string value) :
  params !! "limit" = Some (VInt 5) ->
  set_limit limit params = <["limit" := VInt (limit_of limit)]> params.
Proof.
  intros H. unfold set_limit, limit_of.
  destruct limit as [n|]; [destruct (n =? 0) |];
    try reflexivity; symmetry; now apply insert_id.
Qed.

(** *** Keys that a pass leaves alone *)

Lemma apply_all_keeps (k : string)
    (body : string -> gmap string value -> result (gmap string value))
    (l : list string) :
  (forall c, keeps k (body c)) -> keeps k (apply_all body l).
Proof.
  intros Hbody. induction l as [|c l IH]; intros s s'; cbn [apply_all].
  - now intros [= ->].
  - destruct (body c s) as [s1|] eqn:E; cbn [mbind result_bind]; [|discriminate].
    intros H. rewrite (IH _ _ H). now apply (Hbody c).
Qed.

Lemma pass_keeps (k : string) (table : lexicon) (text : string)
    (body : string -> gmap string value -> result (gmap string value)) :
  (forall c, keeps k (body c)) -> keeps k (for_categories table text body).
Proof.
  intros Hbody s s'. rewrite for_categories_matching. now apply apply_all_keeps.
Qed.

Lemma entity_body_keeps (k c : string) :
  k <> "entity_type" -> k <> "dimension" -> keeps k (entity_body c).
Proof.
  intros H1 H2 s s'. unfold entity_body. branches; intros [= <-];
    rewrite ?lookup_insert_ne by congruence; reflexivity.
Qed.

Lemma metric_body_keeps (k text c : string) :
  k <> "metric" -> k <> "query_type" -> k <> "dimension" -> keeps k (metric_body text c).
Proof.
  intros H1 H2 H3 s s'. unfold metric_body.
  destruct (getitem s "entity_type"); cbn [mbind result_bind];
    branches; intros [= <-]; rewrite ?lookup_insert_ne by congruence; reflexivity.
Qed.

Lemma dimension_body_keeps (k c : string) :
  k <> "query_type" -> k <> "dimension" -> keeps k (dimension_body c).
Proof.
  intros H1 H2 s s'. unfold dimension_body. branches; intros [= <-];
    rewrite ?lookup_insert_ne by congruence; reflexivity.
Qed.

Lemma query_type_body_keeps (k c : string) :
  k <> "query_type" -> keeps k (query_type_body c).
Proof.
  intros H1 s s'. unfold query_type_body. branches; intros [= <-];
    rewrite ?lookup_insert_ne by congruence; reflexivity.
Qed.

Lemma setitem2_keeps (k key v : string) :
  k <> "filters" -> keeps k (fun s => setitem2 s "filters" key v).
Proof.
  intros H1 s s'. unfold setitem2.
  destruct (getitem s "filters") as [[| |f]|]; cbn [mbind result_bind]; try discriminate.
  intros [= <-]. now rewrite lookup_insert_ne by congruence.
Qed.

Lemma set_dates_keeps (k a b : string) :
  k <> "filters" -> keeps k (set_dates a b).
Proof.
  intros H1 s s'. unfold set_dates.
  destruct (setitem2 s "filters" "date_from" a) as [s1|] eqn:E;
    cbn [mbind result_bind]; [|discriminate].
  intros H. rewrite (setitem2_keeps k _ _ H1 _ _ H).
  now apply (setitem2_keeps k _ _ H1 _ _ E).
Qed.

Lemma time_period_body_keeps (k c : string) :
  k <> "filters" -> keeps k (time_period_body c).
Proof.
  intros H1 s s'. unfold time_period_body.
  branches; try (now apply set_dates_keeps). now intros [= <-].
Qed.

Lemma filter_step_keeps (k : string) (r : regex) (key prompt : string) :
  k <> "filters" -> keeps k (filter_step r key prompt).
Proof.
  intros H1 s s'. unfold filter_step. destruct (search true r prompt).
  - now apply setitem2_keeps.
  - now intros [= <-].
Qed.

Lemma bind_keeps (k : string) (f g : gmap string value -> result (gmap string value)) :
  keeps k f -> keeps k g -> keeps k (fun s => s' ← f s; g s').
Proof.
  intros Hf Hg s s'. destruct (f s) as [s1|] eqn:E; cbn [mbind result_bind]; [|discriminate].
  intros H. rewrite (Hg _ _ H). now apply Hf.
Qed.

Lemma filter_pass_keeps (k prompt : string) :
  k <> "filters" -> keeps k (filter_pass prompt).
Proof.
  intros H1. unfold filter_pass.
  repeat (apply bind_keeps; [now apply filter_step_keeps |]).
  now apply filter_step_keeps.
Qed.

(** *** [analyze_prompt] as the sequence of its passes *)

Lemma analyze_prompt_passes (prompt : string) (limit : option Z) :
  extract_number prompt = Ok limit ->
  exists p1 p2 p3 p4 p5 p6,
    entity_pass prompt (set_limit limit default_params) = Ok p1 /\
    metric_pass prompt p1 = Ok p2 /\
    dimension_pass prompt p2 = Ok p3 /\
    query_type_pass prompt p3 = Ok p4 /\
    time_period_pass prompt p4 = Ok p5 /\
    filter_pass prompt p5 = Ok p6 /\
    analyze_prompt prompt = Ok p6 /\
    populated p1 /\ populated p2 /\ populated p3 /\ populated p4 /\
    populated p5 /\ populated p6.
Proof.
  intros Hn.
  assert (populated (set_limit limit default_params)) as H0.
  { rewrite set_limit_spec by reflexivity.
    apply populated_set_limit;
      [apply (limit_of_positive prompt limit Hn) | apply populated_default]. }
  destruct (pass_populated entity_types (lower prompt) entity_body _
              entity_body_populated H0) as (p1 & E1 & H1).
  destruct (pass_populated metrics (lower prompt) (metric_body (lower prompt)) _
              (metric_body_populated (lower prompt)) H1) as (p2 & E2 & H2).
  destruct (pass_populated dimensions (lower prompt) dimension_body _
              dimension_body_populated H2) as (p3 & E3 & H3).
  destruct (pass_populated query_types (lower prompt) query_type_body _
              query_type_body_populated H3) as (p4 & E4 & H4).
  destruct (pass_populated time_periods (lower prompt) time_period_body _
              time_period_body_populated H4) as (p5 & E5 & H5).
  destruct (filter_pass_populated prompt _ H5) as (p6 & E6 & H6).
  exists p1, p2, p3, p4, p5, p6. repeat split; try assumption.
  unfold analyze_prompt, entity_pass, metric_pass, dimension_pass, query_type_pass,
    time_period_pass.
  rewrite Hn. cbn [mbind result_bind].
  rewrite E1. cbn [mbind result_bind]. rewrite E2. cbn [mbind result_bind].
  rewrite E3. cbn [mbind result_bind]. rewrite E4. cbn [mbind result_bind].
  rewrite E5. cbn [mbind result_bind]. exact E6.
Qed.

(** [analyze_prompt] fails exactly when [extract_number] does, with its
    exception. *)
Lemma analyze_prompt_number (prompt : string) (params : gmap string value) :
  analyze_prompt prompt = Ok params -> exists limit, extract_number prompt = Ok limit.
Proof.
  unfold analyze_prompt. destruct (extract_number prompt) as [limit|e];
    cbn [mbind result_bind]; [eauto | discriminate].
Qed.

Lemma analyze_prompt_raises (prompt : string) (e : exn) :
  extract_number prompt = Raise e -> analyze_prompt prompt = Raise e.
Proof. intros H. unfold analyze_prompt. now rewrite H. Qed.

Lemma analyze_prompt_returns (prompt : string) (limit : option Z) :
  extract_number prompt = Ok limit -> exists params, analyze_prompt prompt = Ok params.
Proof.
  intros Hn. destruct (analyze_prompt_passes prompt limit Hn)
    as (p1 & p2 & p3 & p4 & p5 & p6 & _ & _ & _ & _ & _ & _ & E & _).
  eauto.
Qed.

End PassFacts.

(** ** When the resolver answers *)

Section Resolver.
Import Text Re Py PromptAnalyzer Views.

Lemma analyze_prompt_limit (prompt : string) (limit : option Z)
    (params : gmap string value) :
  extract_number prompt = Ok limit ->
  analyze_prompt prompt = Ok params -> params !! "limit" = Some (VInt (limit_of limit)).
Proof.
  intros Hn.
  destruct (analyze_prompt_passes prompt limit Hn)
    as (p1 & p2 & p3 & p4 & p5 & p6 & E1 & E2 & E3 & E4 & E5 & E6 & E & _).
  rewrite E. intros [= <-].
  rewrite (filter_pass_keeps "limit" prompt ltac:(discriminate) _ _ E6).
  rewrite (pass_keeps "limit" _ _ _
             (fun c => time_period_body_keeps "limit" c ltac:(discriminate)) _ _ E5).
  rewrite (pass_keeps "limit" _ _ _
             (fun c => query_type_body_keeps "limit" c ltac:(discriminate)) _ _ E4).
  rewrite (pass_keeps "limit" _ _ _
             (fun c => dimension_body_keeps "limit" c ltac:(discriminate)
                         ltac:(discriminate)) _ _ E3).
  rewrite (pass_keeps "limit" _ _ _
             (fun c => metric_body_keeps "limit" _ c ltac:(discriminate)
                         ltac:(discriminate) ltac:(discriminate)) _ _ E2).
  rewrite (pass_keeps "limit" _ _ _
             (fun c => entity_body_keeps "limit" c ltac:(discriminate)
                         ltac:(discriminate)) _ _ E1).
  rewrite set_limit_spec by reflexivity. apply lookup_insert_eq.
Qed.

Lemma pass_without_match {S : Type} (table : lexicon) (text : string)
    (body : string -> S -> result S) (s : S) :
  match matching table text with [] => true | _ => false end = true ->
  for_categories table text body s = Ok s.
Proof.
  intros H. rewrite for_categories_matching.
  destruct (matching table text); [reflexivity | discriminate].
Qed.

Lemma filter_step_without_match (r : regex) (key prompt : string)
    (params : gmap string value) :
  is_none (search true r prompt) = true -> filter_step r key prompt params = Ok params.
Proof.
  unfold filter_step. destruct (search true r prompt); [discriminate | reflexivity].
Qed.

Lemma analyze_prompt_defaults (prompt : string) :
  nothing_matches prompt = true -> analyze_prompt prompt = Ok default_params.
Proof.
  unfold nothing_matches. cbn [forallb].
  intros [[H1 H2]%andb_prop H3]%andb_prop.
  repeat match type of H1 with (_ && _ = true) =>
    let H := fresh "T" in apply andb_prop in H1 as [H H1] end.
  repeat match type of H2 with (_ && _ = true) =>
    let H := fresh "F" in apply andb_prop in H2 as [H H2] end.
  unfold analyze_prompt, entity_pass, metric_pass, dimension_pass, query_type_pass,
    time_period_pass, filter_pass.
  destruct (extract_number prompt) as [limit|e]; [|discriminate].
  cbn [mbind result_bind].
  assert (set_limit limit default_params = default_params) as ->.
  { unfold set_limit. destruct limit as [n|]; [|reflexivity]. now rewrite H3. }
  repeat (rewrite pass_without_match by assumption; cbn [mbind result_bind]).
  repeat (rewrite filter_step_without_match by assumption; cbn [mbind result_bind]).
  reflexivity.
Qed.

(** *** When [extract_number] returns *)

Lemma extract_number_text (text : string) :
  extract_number text
  = match number_text text with
    | Some g => n ← int g; Ok (Some n)
    | None => Ok None
    end.
Proof.
  unfold extract_number, number_text.
  destruct (search false top_n_pattern (lower text)); [reflexivity |].
  now destruct (search false digits_pattern text).
Qed.

Lemma length_append (a b : string) :
  String.length (a +:+ b) = (String.length a + String.length b)%nat.
Proof.
  induction a as [|c a IH]; [reflexivity |].
  rewrite append_cons. cbn [String.length]. now rewrite IH.
Qed.

Lemma length_lower (s : string) : String.length (lower s) = String.length s.
Proof. induction s as [|c s IH]; [reflexivity |]. cbn [lower String.length]. now rewrite IH. Qed.

(** The group of a match is no longer than the longer of the text matched
    and the group before. *)
Lemma matches_capture_length (ic : bool) (r : regex) (w cap cap' : string) :
  matches ic r w cap cap' ->
  (String.length cap' <= Nat.max (String.length cap) (String.length w))%nat.
Proof.
  induction 1 as [| | | | | r1 r2 w1 w2 cap cap1 cap2 _ IH1 _ IH2 |]; try lia.
  rewrite length_append. lia.
Qed.

Lemma search_length (ic : bool) (r : regex) (s g : string) :
  search ic r s = Some g -> (String.length g <= String.length s)%nat.
Proof.
  intros (pre & w & post & -> & Hm)%search_sound.
  apply matches_capture_length in Hm. cbn [String.length] in Hm.
  rewrite !length_append. lia.
Qed.

Lemma number_text_length (text g : string) :
  number_text text = Some g -> (String.length g <= String.length text)%nat.
Proof.
  unfold number_text.
  destruct (search false top_n_pattern (lower text)) as [g'|] eqn:H1.
  - intros [= <-]. apply search_length in H1. now rewrite length_lower in H1.
  - apply search_length.
Qed.

(** C3, as the code has it.  [analyze_prompt] fails exactly when
    [extract_number] does, and with the same exception: the ValueError of
    [int] for a number of more than 4300 digits (the digits after [top],
    or else the first run of digits).  For every other prompt, those of at
    most 4300 characters among them, it returns with the six keys
    [query_type], [entity_type], [metric], [dimension], [limit] and [filters]
    populated; the limit is the number taken from the prompt, or the default
    5 when there is none or it is 0, and is at least 1; when nothing in
    the prompt matches, the result is the dictionary of defaults. *)
Theorem analyze_prompt_populated (prompt : string) :
  (forall limit,
      extract_number prompt = Ok limit ->
      exists params,
        analyze_prompt prompt = Ok params /\
        populated params /\
        params !! "limit" = Some (VInt (limit_of limit)) /\
        1 <= limit_of limit /\
        (limit = None \/ limit = Some 0 -> limit_of limit = 5)) /\
  (forall e, extract_number prompt = Raise e ->
             analyze_prompt prompt = Raise e /\
             exists msg, e = Exception "ValueError" msg) /\
  match number_text prompt with
  | Some g =>
      if Z.of_nat (String.length g) <=? int_max_str_digits
      then extract_number prompt = Ok (Some (int_of_digits g))
      else exists msg, extract_number prompt = Raise (Exception "ValueError" msg)
  | None => extract_number prompt = Ok None
  end /\
  (Z.of_nat (String.length prompt) <= int_max_str_digits ->
   exists limit, extract_number prompt = Ok limit) /\
  (nothing_matches prompt = true ->
   analyze_prompt prompt = Ok default_params /\
   default_params !! "query_type" = Some (VStr "top") /\
   default_params !! "entity_type" = Some (VStr "programs") /\
   default_params !! "metric" = Some (VStr "revenue") /\
   default_params !! "dimension" = Some (VStr "program_name") /\
   default_params !! "limit" = Some (VInt 5) /\
   default_params !! "filters" = Some (VDict [])).
Proof.
  split; [|split; [|split; [|split]]].
  - intros limit Hn.
    destruct (analyze_prompt_passes prompt limit Hn)
      as (p1 & p2 & p3 & p4 & p5 & p6 & _ & _ & _ & _ & _ & _ & E & _ & _ & _ & _ & _ & H).
    exists p6. split; [exact E |]. split; [exact H |].
    split; [now apply (analyze_prompt_limit prompt) |].
    split; [now apply (limit_of_positive prompt) |].
    unfold limit_of. now intros [-> | ->].
  - intros e He. split; [now apply analyze_prompt_raises |].
    rewrite extract_number_text in He.
    destruct (number_text prompt) as [g|]; [|discriminate].
    destruct (int g) as [n|e'] eqn:Hi; cbn [mbind result_bind] in He; [discriminate |].
    injection He as <-. now apply int_raises in Hi as [_ Hmsg].
  - rewrite extract_number_text. destruct (number_text prompt) as [g|]; [|reflexivity].
    destruct (Z.of_nat (String.length g) <=? int_max_str_digits) eqn:Hlen.
    + apply Z.leb_le in Hlen. now rewrite (int_short g Hlen).
    + apply Z.leb_gt in Hlen. destruct (int_long g Hlen) as [msg ->]. eauto.
  - intros Hlen. rewrite extract_number_text.
    destruct (number_text prompt) as [g|] eqn:Hg; [|eauto].
    apply number_text_length in Hg. rewrite int_short by lia. eauto.
  - intros H. split; [now apply analyze_prompt_defaults |].
    repeat split; reflexivity.
Qed.

Lemma analyze_prompt_populated_witness :
  nothing_matches "hello" = true /\
  analyze_prompt "hello" = Ok default_params /\
  (exists params, analyze_prompt "show me 0 clients" = Ok params /\
                  params !! "limit" = Some (VInt 5)).
Proof.
  pose proof (analyze_prompt_populated "hello") as (_ & _ & _ & _ & H).
  pose proof (analyze_prompt_populated "show me 0 clients") as (H0 & _).
  split; [vm_compute; reflexivity |].
  split; [apply H; vm_compute; reflexivity |].
  destruct (H0 (Some 0) ltac:(vm_compute; reflexivity)) as (p & E & _ & Hl & _ & H5).
  exists p. split; [exact E |]. rewrite Hl, H5; [reflexivity |]. now right.
Defined.

(** C3 as stated fails: on a prompt of 4301 digits [int] raises, and
    [analyze_prompt] with it. *)
Lemma analyze_prompt_fails_on_a_long_number :
  String.length (repeat_char "9" 4301) = 4301%nat /\
  analyze_prompt (repeat_char "9" 4301)
  = Raise (Exception "ValueError"
             ("Exceeds the limit (4300 digits) for integer string conversion: " +:+
              "value has 4301 digits; use sys.set_int_max_str_digits() to increase " +:+
              "the limit")).
Proof. split; vm_compute; reflexivity. Qed.

End Resolver.

(** ** Which category of a pass decides *)

Section LastMatch.
Import Text Re Py PromptAnalyzer Views.

Lemma matching_app (t1 t2 : lexicon) (text : string) :
  matching (t1 ++ t2) text = matching t1 text ++ matching t2 text.
Proof. unfold matching. now rewrite List.filter_app, List.map_app. Qed.

(** The branch of the last matching category runs last. *)
Lemma apply_all_last {S : Type} (P Q : S -> Prop) (body : string -> S -> result S)
    (l : list string) (c : string) (s s' : S) :
  P s ->
  (forall c' s1 s2, P s1 -> body c' s1 = Ok s2 -> P s2) ->
  (forall s1 s2, P s1 -> body c s1 = Ok s2 -> Q s2) ->
  apply_all body (l ++ [c]) s = Ok s' -> Q s'.
Proof.
  intros Hs HP HQ. rewrite apply_all_app.
  assert (forall s0 s1, P s0 -> apply_all body l s0 = Ok s1 -> P s1) as Hl.
  { induction l as [|x l IH]; intros s0 s1 H0; cbn [apply_all].
    - now intros [= <-].
    - destruct (body x s0) as [sx|] eqn:E; cbn [mbind result_bind]; [|discriminate].
      apply IH. now apply (HP x s0). }
  destruct (apply_all body l s) as [s1|] eqn:E1; cbn [mbind result_bind]; [|discriminate].
  cbn [apply_all]. destruct (body c s1) as [s2|] eqn:E2; cbn [mbind result_bind];
    [|discriminate].
  intros [= <-]. apply (HQ s1); [|exact E2]. now apply (Hl s).
Qed.

Lemma pass_last {S : Type} (P Q : S -> Prop) (table : lexicon) (text : string)
    (body : string -> S -> result S) (c : string) (s s' : S) :
  last_of (matching table text) = Some c ->
  P s ->
  (forall c' s1 s2, P s1 -> body c' s1 = Ok s2 -> P s2) ->
  (forall s1 s2, In c (map fst table) -> P s1 -> body c s1 = Ok s2 -> Q s2) ->
  for_categories table text body s = Ok s' -> Q s'.
Proof.
  intros Hlast Hs HP HQ. rewrite for_categories_matching.
  destruct (last_of_split _ _ Hlast) as [l Hl].
  assert (In c (map fst table)) as Hin.
  { apply (matching_in_table table text). rewrite Hl. apply in_or_app. right. now left. }
  rewrite Hl. intros H.
  apply (apply_all_last P Q body l c s s' Hs HP); [|exact H].
  intros s1 s2. now apply HQ.
Qed.

Ltac categories H :=
  cbn [map fst] in H;
  repeat (destruct H as [<- | H]); [.. | destruct H].

Lemma entity_pass_last (prompt c : string) (params params' : gmap string value) :
  last_of (matching entity_types (lower prompt)) = Some c ->
  entity_pass prompt params = Ok params' ->
  params' !! "entity_type" = Some (VStr (entity_of c)) /\
  (c = "client" -> params' !! "dimension" = Some (VStr "client_name")) /\
  (c = "program" -> params' !! "dimension" = Some (VStr "program_name")).
Proof.
  intros Hlast. unfold entity_pass.
  apply (pass_last (fun _ => True)
           (fun p => p !! "entity_type" = Some (VStr (entity_of c)) /\
                     (c = "client" -> p !! "dimension" = Some (VStr "client_name")) /\
                     (c = "program" -> p !! "dimension" = Some (VStr "program_name")))
           _ _ _ c params params' Hlast I); [auto |].
  intros s1 s2 Hin _. categories Hin; intros [= <-]; lookups;
    (split; [reflexivity | split; intros [=]; reflexivity]).
Qed.

Lemma dimension_pass_last (prompt c : string) (params params' : gmap string value) :
  last_of (matching dimensions (lower prompt)) = Some c ->
  dimension_pass prompt params = Ok params' ->
  params' !! "dimension" = Some (VStr (dimension_of c)).
Proof.
  intros Hlast. unfold dimension_pass.
  apply (pass_last (fun _ => True)
           (fun p => p !! "dimension" = Some (VStr (dimension_of c)))
           _ _ _ c params params' Hlast I); [auto |].
  intros s1 s2 Hin _. categories Hin; intros [= <-]; lookups; reflexivity.
Qed.

Lemma query_type_pass_last (prompt c : string) (params params' : gmap string value) :
  last_of (matching query_types (lower prompt)) = Some c ->
  query_type_pass prompt params = Ok params' ->
  params' !! "query_type" = Some (VStr c).
Proof.
  intros Hlast. unfold query_type_pass.
  apply (pass_last (fun _ => True) (fun p => p !! "query_type" = Some (VStr c))
           _ _ _ c params params' Hlast I); [auto |].
  intros s1 s2 Hin _. categories Hin; intros [= <-]; lookups; reflexivity.
Qed.

Lemma apply_all_split {S : Type} (body : string -> S -> result S) (l1 l2 : list string)
    (s s' : S) :
  apply_all body (l1 ++ l2) s = Ok s' ->
  exists s1, apply_all body l1 s = Ok s1 /\ apply_all body l2 s1 = Ok s'.
Proof.
  rewrite apply_all_app. destruct (apply_all body l1 s) as [s1|];
    cbn [mbind result_bind]; [eauto | discriminate].
Qed.

Lemma metric_pass_last (prompt c et : string) (params params' : gmap string value) :
  last_of (matching (firstn 4 metrics) (lower prompt)) = Some c ->
  params !! "entity_type" = Some (VStr et) ->
  In et ["clients"; "programs"; "enrollments"; "opportunities"] ->
  metric_pass prompt params = Ok params' ->
  params' !! "metric" = Some (VStr (metric_of c (lower prompt) et)).
Proof.
  intros Hlast Het Hin. unfold metric_pass.
  rewrite for_categories_matching.
  change metrics with (firstn 4 metrics ++ skipn 4 metrics).
  rewrite matching_app. intros (s1 & E1 & E2)%apply_all_split.
  assert (s1 !! "metric" = Some (VStr (metric_of c (lower prompt) et))) as H1.
  { destruct (last_of_split _ _ Hlast) as [l Hl].
    assert (In c (map fst (firstn 4 metrics))) as Hc.
    { apply (matching_in_table _ (lower prompt)). rewrite Hl.
      apply in_or_app. right. now left. }
    rewrite Hl in E1. revert E1.
    apply (apply_all_last (fun p => p !! "entity_type" = Some (VStr et))
             (fun p => p !! "metric" = Some (VStr (metric_of c (lower prompt) et))));
      [exact Het | |].
    - intros c' p1 p2 Hp1 Hb.
      rewrite (metric_body_keeps "entity_type" (lower prompt) c'
                 ltac:(discriminate) ltac:(discriminate) ltac:(discriminate) _ _ Hb).
      exact Hp1.
    - intros p1 p2 Hp1. unfold metric_body, getitem. rewrite Hp1.
      cbn [mbind result_bind]. cbn [firstn metrics map fst] in Hc.
      repeat (destruct Hc as [<- | Hc]); [.. | destruct Hc].
      + intros [= <-]. lookups. reflexivity.
      + unfold metric_of. cbn [String.eqb Ascii.eqb Bool.eqb].
        destruct (contains "margin" (lower prompt)); intros [= <-]; lookups; reflexivity.
      + intros [= <-]. lookups. reflexivity.
      + cbn [In] in Hin.
        repeat (destruct Hin as [<- | Hin]); [.. | destruct Hin];
          intros [= <-]; lookups; reflexivity. }
  unfold matching in E2. cbn [skipn metrics List.filter snd] in E2.
  destruct (hit (lower prompt) _); cbn [map fst apply_all] in E2.
  - unfold metric_body in E2. cbn [String.eqb Ascii.eqb Bool.eqb] in E2.
    cbn [mbind result_bind] in E2. injection E2 as <-. lookups. exact H1.
  - now injection E2 as <-.
Qed.

Lemma odict_get_set_eq (k v : string) (d : odict) :
  odict_get k (odict_set k v d) = Some v.
Proof.
  induction d as [|[k' v'] d IH]; cbn [odict_set odict_get].
  - now rewrite String.eqb_refl.
  - destruct (String.eqb k' k) eqn:E; cbn [odict_get].
    + now rewrite String.eqb_refl.
    + now rewrite E.
Qed.

Lemma odict_get_set_ne (k k' v : string) (d : odict) :
  k <> k' -> odict_get k' (odict_set k v d) = odict_get k' d.
Proof.
  intros Hne. induction d as [|[k0 v0] d IH]; cbn [odict_set odict_get].
  - destruct (String.eqb_spec k k'); [contradiction | reflexivity].
  - destruct (String.eqb_spec k0 k) as [-> | Hk]; cbn [odict_get].
    + destruct (String.eqb_spec k k'); [contradiction | reflexivity].
    + destruct (String.eqb k0 k'); [reflexivity | exact IH].
Qed.

Lemma setitem2_filter_of (key v : string) (params params' : gmap string value) :
  setitem2 params "filters" key v = Ok params' ->
  filter_of params' key = Some v /\
  (forall k, key <> k -> filter_of params' k = filter_of params k).
Proof.
  unfold setitem2, getitem, filter_of.
  destruct (params !! "filters") as [[| |f]|]; cbn [mbind result_bind]; try discriminate.
  intros [= <-]. rewrite lookup_insert_eq. split.
  - apply odict_get_set_eq.
  - intros k Hk. now apply odict_get_set_ne.
Qed.

Lemma set_dates_filter_of (a b : string) (params params' : gmap string value) :
  set_dates a b params = Ok params' ->
  filter_of params' "date_from" = Some a /\
  filter_of params' "date_to" = Some b /\
  (forall k, k <> "date_from" -> k <> "date_to" ->
             filter_of params' k = filter_of params k).
Proof.
  unfold set_dates.
  destruct (setitem2 params "filters" "date_from" a) as [p1|] eqn:E1;
    cbn [mbind result_bind]; [|discriminate].
  intros E2. apply setitem2_filter_of in E1 as [H1 F1], E2 as [H2 F2].
  split; [rewrite F2 by discriminate; exact H1 |]. split; [exact H2 |].
  intros k Ha Hb. rewrite F2 by congruence. apply F1. congruence.
Qed.

Lemma time_period_pass_last (prompt c : string) (params params' : gmap string value) :
  last_of (matching time_periods (lower prompt)) = Some c ->
  time_period_pass prompt params = Ok params' ->
  filter_of params' "date_from" = Some (fst (dates_of c)) /\
  filter_of params' "date_to" = Some (snd (dates_of c)).
Proof.
  intros Hlast. unfold time_period_pass.
  apply (pass_last (fun _ => True)
           (fun p => filter_of p "date_from" = Some (fst (dates_of c)) /\
                     filter_of p "date_to" = Some (snd (dates_of c)))
           _ _ _ c params params' Hlast I); [auto |].
  intros s1 s2 Hin _. categories Hin; intros (Ha & Hb & _)%set_dates_filter_of;
    split; assumption.
Qed.

(** The filter phrases: each one writes its own key only. *)
Lemma filter_step_filter_of (r : regex) (key prompt : string)
    (params params' : gmap string value) :
  filter_step r key prompt params = Ok params' ->
  (forall g, search true r prompt = Some g -> filter_of params' key = Some (strip g)) /\
  (search true r prompt = None -> filter_of params' key = filter_of params key) /\
  (forall k, key <> k -> filter_of params' k = filter_of params k).
Proof.
  unfold filter_step. destruct (search true r prompt) as [g|].
  - intros [H F]%setitem2_filter_of. split; [now intros g' [= <-] |]. split; [discriminate |].
    exact F.
  - intros [= <-]. split; [discriminate |]. auto.
Qed.

Lemma filter_of_keeps (k : string) (s s' : gmap string value) :
  s' !! "filters" = s !! "filters" -> filter_of s' k = filter_of s k.
Proof. unfold filter_of. now intros ->. Qed.

Lemma only_dates_before_filters (prompt : string) (limit : option Z)
    (p5 : gmap string value) :
  (exists p1 p2 p3 p4,
      entity_pass prompt (set_limit limit default_params) = Ok p1 /\
      metric_pass prompt p1 = Ok p2 /\
      dimension_pass prompt p2 = Ok p3 /\
      query_type_pass prompt p3 = Ok p4 /\
      time_period_pass prompt p4 = Ok p5) ->
  only_dates p5.
Proof.
  intros (p1 & p2 & p3 & p4 & E1 & E2 & E3 & E4 & E5).
  assert (only_dates p4) as H4.
  { intros k _ _. unfold filter_of.
    rewrite (pass_keeps "filters" _ _ _
               (fun c => query_type_body_keeps "filters" c ltac:(discriminate)) _ _ E4).
    rewrite (pass_keeps "filters" _ _ _
               (fun c => dimension_body_keeps "filters" c ltac:(discriminate)
                           ltac:(discriminate)) _ _ E3).
    rewrite (pass_keeps "filters" _ _ _
               (fun c => metric_body_keeps "filters" _ c ltac:(discriminate)
                           ltac:(discriminate) ltac:(discriminate)) _ _ E2).
    rewrite (pass_keeps "filters" _ _ _
               (fun c => entity_body_keeps "filters" c ltac:(discriminate)
                           ltac:(discriminate)) _ _ E1).
    unfold set_limit. destruct limit as [n|]; [destruct (n =? 0) |];
      reflexivity. }
  revert E5. unfold time_period_pass. rewrite for_categories_matching.
  clear E1 E2 E3 E4.
  generalize (matching time_periods (lower prompt)) as l. intros l. revert p4 H4.
  induction l as [|c l IH]; intros p4 H4; cbn [apply_all].
  - now intros [= <-].
  - destruct (time_period_body c p4) as [q|] eqn:E; cbn [mbind result_bind];
      [|discriminate].
    apply IH. intros k Ha Hb. revert E. unfold time_period_body.
    branches; try (intros (_ & _ & F)%set_dates_filter_of; rewrite F by assumption;
                   now apply H4).
    intros [= <-]. now apply H4.
Qed.

(** The value that [analyze_prompt] leaves under each of the six
    filter keys is the stripped group of the first match of its phrase. *)
Lemma analyze_prompt_filter (prompt key : string) (r : regex)
    (params : gmap string value) :
  analyze_prompt prompt = Ok params ->
  In (key, r) filter_patterns ->
  filter_of params key = option_map strip (search true r prompt).
Proof.
  intros Ha. destruct (analyze_prompt_number prompt params Ha) as [limit Hn]. revert Ha.
  destruct (analyze_prompt_passes prompt limit Hn)
    as (p1 & p2 & p3 & p4 & p5 & p6 & E1 & E2 & E3 & E4 & E5 & E6 & E & _).
  rewrite E. intros [= <-].
  assert (only_dates p5) as H5.
  { apply (only_dates_before_filters prompt limit). exists p1, p2, p3, p4. auto. }
  clear E E1 E2 E3 E4 E5. unfold filter_pass in E6.
  destruct (filter_step _ "industry" prompt p5) as [q1|] eqn:S1;
    cbn [mbind result_bind] in E6; [|discriminate].
  destruct (filter_step _ "region" prompt q1) as [q2|] eqn:S2;
    cbn [mbind result_bind] in E6; [|discriminate].
  destruct (filter_step _ "size" prompt q2) as [q3|] eqn:S3;
    cbn [mbind result_bind] in E6; [|discriminate].
  destruct (filter_step _ "category" prompt q3) as [q4|] eqn:S4;
    cbn [mbind result_bind] in E6; [|discriminate].
  destruct (filter_step _ "delivery_mode" prompt q4) as [q5|] eqn:S5;
    cbn [mbind result_bind] in E6; [|discriminate].
  apply filter_step_filter_of in S1 as (A1 & B1 & F1), S2 as (A2 & B2 & F2),
    S3 as (A3 & B3 & F3), S4 as (A4 & B4 & F4), S5 as (A5 & B5 & F5),
    E6 as (A6 & B6 & F6).
  intros Hin. cbn [filter_patterns In] in Hin.
  repeat (destruct Hin as [[= <- <-] | Hin]); [.. | destruct Hin].
  - rewrite F6, F5, F4, F3, F2 by discriminate.
    destruct (search true (filter_pattern "industry") prompt) as [g|] eqn:S;
      cbn [option_map]; [now apply A1 | rewrite B1 by reflexivity; now apply H5].
  - rewrite F6, F5, F4, F3 by discriminate.
    destruct (search true (filter_pattern "region") prompt) as [g|] eqn:S;
      cbn [option_map];
      [now apply A2 | rewrite B2, F1 by (reflexivity || discriminate); now apply H5].
  - rewrite F6, F5, F4 by discriminate.
    destruct (search true (filter_pattern "size") prompt) as [g|] eqn:S;
      cbn [option_map];
      [now apply A3 | rewrite B3, F2, F1 by (reflexivity || discriminate); now apply H5].
  - rewrite F6, F5 by discriminate.
    destruct (search true (filter_pattern "category") prompt) as [g|] eqn:S;
      cbn [option_map];
      [now apply A4
      | rewrite B4, F3, F2, F1 by (reflexivity || discriminate); now apply H5].
  - rewrite F6 by discriminate.
    destruct (search true delivery_pattern prompt) as [g|] eqn:S;
      cbn [option_map];
      [now apply A5
      | rewrite B5, F4, F3, F2, F1 by (reflexivity || discriminate); now apply H5].
  - destruct (search true (filter_pattern "stage") prompt) as [g|] eqn:S;
      cbn [option_map];
      [now apply A6
      | rewrite B6, F5, F4, F3, F2, F1 by (reflexivity || discriminate); now apply H5].
Qed.

Lemma filter_pass_keeps_dates (prompt k : string) (params params' : gmap string value) :
  k = "date_from" \/ k = "date_to" ->
  filter_pass prompt params = Ok params' ->
  filter_of params' k = filter_of params k.
Proof.
  intros Hk E6. unfold filter_pass in E6.
  destruct (filter_step _ "industry" prompt params) as [q1|] eqn:S1;
    cbn [mbind result_bind] in E6; [|discriminate].
  destruct (filter_step _ "region" prompt q1) as [q2|] eqn:S2;
    cbn [mbind result_bind] in E6; [|discriminate].
  destruct (filter_step _ "size" prompt q2) as [q3|] eqn:S3;
    cbn [mbind result_bind] in E6; [|discriminate].
  destruct (filter_step _ "category" prompt q3) as [q4|] eqn:S4;
    cbn [mbind result_bind] in E6; [|discriminate].
  destruct (filter_step _ "delivery_mode" prompt q4) as [q5|] eqn:S5;
    cbn [mbind result_bind] in E6; [|discriminate].
  apply filter_step_filter_of in S1 as (_ & _ & F1), S2 as (_ & _ & F2),
    S3 as (_ & _ & F3), S4 as (_ & _ & F4), S5 as (_ & _ & F5), E6 as (_ & _ & F6).
  destruct Hk as [-> | ->]; now rewrite F6, F5, F4, F3, F2, F1 by discriminate.
Qed.

(** C2, as the code has it.  Every lexicon pass of [analyze_prompt]
    visits all categories of its table and runs the branch of each one
    that has a keyword in the lower-cased prompt; the [break] ends the
    keyword loop of that category only.  So the LAST matching category
    decides: it gives the entity type (with the default dimension of
    [client] or [program] when that is the last match of the entity
    pass), the dimension, the query type and the two date filters of the
    result, and the last match among [revenue], [profit], [cost] and
    [count] gives the metric.  The result is the dictionary that
    [analyze_prompt] returns, when it returns. *)
Theorem lexicon_pass_last_match_wins (prompt : string) :
  (forall (table : lexicon)
          (body : string -> gmap string value -> result (gmap string value))
          (params : gmap string value),
      for_categories table (lower prompt) body params =
      apply_all body (matching table (lower prompt)) params) /\
  (forall params c,
      last_of (matching entity_types (lower prompt)) = Some c ->
      exists params',
        entity_pass prompt params = Ok params' /\
        params' !! "entity_type" = Some (VStr (entity_of c)) /\
        (c = "client" -> params' !! "dimension" = Some (VStr "client_name")) /\
        (c = "program" -> params' !! "dimension" = Some (VStr "program_name"))) /\
  forall params,
    analyze_prompt prompt = Ok params ->
    (forall c, last_of (matching entity_types (lower prompt)) = Some c ->
               params !! "entity_type" = Some (VStr (entity_of c))) /\
    (forall c et, last_of (matching (firstn 4 metrics) (lower prompt)) = Some c ->
                  params !! "entity_type" = Some (VStr et) ->
                  params !! "metric" = Some (VStr (metric_of c (lower prompt) et))) /\
    (forall c, last_of (matching dimensions (lower prompt)) = Some c ->
               params !! "dimension" = Some (VStr (dimension_of c))) /\
    (forall c, last_of (matching query_types (lower prompt)) = Some c ->
               params !! "query_type" = Some (VStr c)) /\
    (forall c, last_of (matching time_periods (lower prompt)) = Some c ->
               filter_of params "date_from" = Some (fst (dates_of c)) /\
               filter_of params "date_to" = Some (snd (dates_of c))).
Proof.
  split; [intros; apply for_categories_matching |]. split.
  - intros params c Hlast.
    assert (exists params', entity_pass prompt params = Ok params') as [params' E].
    { unfold entity_pass. rewrite for_categories_matching.
      destruct (apply_all_invariant (fun _ => True) entity_body
                  (matching entity_types (lower prompt)) params) as (p & -> & _);
        [|exact I | eauto].
      intros c' s _. unfold entity_body. branches; eauto. }
    exists params'. split; [exact E |]. now apply (entity_pass_last prompt c params).
  - intros params Ha. destruct (analyze_prompt_number prompt params Ha) as [limit Hn].
    destruct (analyze_prompt_passes prompt limit Hn)
      as (p1 & p2 & p3 & p4 & p5 & p6 & E1 & E2 & E3 & E4 & E5 & E6 & E & H1 & _).
    rewrite E in Ha. injection Ha as <-.
    assert (forall k, k <> "filters" -> p6 !! k = p4 !! k) as K64.
    { intros k Hk. rewrite (filter_pass_keeps k prompt Hk _ _ E6).
      now rewrite (pass_keeps k _ _ _ (fun c => time_period_body_keeps k c Hk) _ _ E5). }
    assert (forall k, k <> "filters" -> k <> "query_type" -> p6 !! k = p3 !! k) as K63.
    { intros k Hk Hq. rewrite K64 by exact Hk.
      now rewrite (pass_keeps k _ _ _ (fun c => query_type_body_keeps k c Hq) _ _ E4). }
    assert (forall k, k <> "filters" -> k <> "query_type" -> k <> "dimension" ->
                      p6 !! k = p2 !! k) as K62.
    { intros k Hk Hq Hd. rewrite K63 by assumption.
      now rewrite (pass_keeps k _ _ _ (fun c => dimension_body_keeps k c Hq Hd) _ _ E3). }
    assert (p6 !! "entity_type" = p1 !! "entity_type") as K61.
    { rewrite K62 by discriminate.
      now rewrite (pass_keeps "entity_type" _ _ _
                     (fun c => metric_body_keeps "entity_type" _ c ltac:(discriminate)
                                 ltac:(discriminate) ltac:(discriminate)) _ _ E2). }
    repeat split.
    + intros c Hlast. rewrite K61. now apply (entity_pass_last prompt c _ _ Hlast E1).
    + intros c et Hlast Het. rewrite K62 by discriminate.
      rewrite K61 in Het.
      apply (metric_pass_last prompt c et p1); try assumption.
      destruct H1 as (qt & et' & m & d & l & f & _ & Het' & _ & _ & _ & _ & _ & Hin).
      rewrite Het' in Het. now injection Het as <-.
    + intros c Hlast. rewrite K63 by discriminate.
      now apply (dimension_pass_last prompt c p2).
    + intros c Hlast. rewrite K64 by discriminate.
      now apply (query_type_pass_last prompt c p3).
    + rewrite (filter_pass_keeps_dates prompt "date_from" p5 p6) by auto.
      now apply (time_period_pass_last prompt c p4).
    + rewrite (filter_pass_keeps_dates prompt "date_to" p5 p6) by auto.
      now apply (time_period_pass_last prompt c p4).
Qed.

Lemma lexicon_pass_last_match_wins_witness :
  last_of (matching entity_types (lower "show clients by program")) = Some "program" /\
  exists params,
    analyze_prompt "show clients by program" = Ok params /\
    params !! "entity_type" = Some (VStr "programs").
Proof.
  split; [vm_compute; reflexivity |].
  destruct (analyze_prompt_passes "show clients by program" None
              ltac:(vm_compute; reflexivity))
    as (p1 & p2 & p3 & p4 & p5 & params & _ & _ & _ & _ & _ & _ & E & _).
  destruct (lexicon_pass_last_match_wins "show clients by program") as (_ & _ & H).
  destruct (H params E) as (He & _).
  exists params. split; [exact E |]. apply (He "program"). vm_compute. reflexivity.
Defined.

(** C2 as stated fails: the prompt has a keyword of the category
    [client] and one of the later category [program], and the entity type
    and dimension that result are those of [program]. *)
Lemma first_entity_match_does_not_win :
  matching entity_types (lower "show clients by program") = ["client"; "program"] /\
  field_of (analyze_prompt "show clients by program") "entity_type"
    = Some (VStr "programs") /\
  field_of (analyze_prompt "show clients by program") "dimension"
    = Some (VStr "program_name") /\
  field_of (analyze_prompt "show clients by program") "entity_type"
    <> Some (VStr (entity_of "client")).
Proof.
  split; [vm_compute; reflexivity |].
  split; [vm_compute; reflexivity |].
  split; [vm_compute; reflexivity |].
  vm_compute. discriminate.
Qed.

End LastMatch.

(** ** Later passes override earlier ones *)

Section Override.
Import Text Re Py PromptAnalyzer Views.

(** C4.  For the prompt [show revenue trend by industry] the metric pass
    leaves [query_type = trend] and [dimension = month]; the dimension
    pass then writes [dimension = industry] over whatever dimension it
    finds and leaves the other keys alone; no query-type keyword
    matches; the result has [dimension = industry] and
    [query_type = trend]. *)
Theorem revenue_trend_by_industry :
  let prompt := "show revenue trend by industry" in
  extract_number prompt = Ok None /\
  field_of (entity_pass prompt (set_limit None default_params) ≫= metric_pass prompt)
    "query_type" = Some (VStr "trend") /\
  field_of (entity_pass prompt (set_limit None default_params) ≫= metric_pass prompt)
    "dimension" = Some (VStr "month") /\
  (forall params,
      dimension_pass prompt params = Ok (<["dimension" := VStr "industry"]> params)) /\
  matching query_types (lower prompt) = [] /\
  field_of (analyze_prompt prompt) "dimension" = Some (VStr "industry") /\
  field_of (analyze_prompt prompt) "query_type" = Some (VStr "trend") /\
  field_of (analyze_prompt prompt) "metric" = Some (VStr "revenue") /\
  field_of (analyze_prompt prompt) "entity_type" = Some (VStr "programs").
Proof.
  cbv zeta.
  split; [vm_compute; reflexivity |].
  split; [vm_compute; reflexivity |]. split; [vm_compute; reflexivity |].
  split.
  { intros params. unfold dimension_pass. rewrite for_categories_matching.
    replace (matching dimensions (lower "show revenue trend by industry"))
      with ["industry"] by (vm_compute; reflexivity).
    reflexivity. }
  repeat split; vm_compute; reflexivity.
Qed.

End Override.

(** ** The filter phrases *)

Section Filters.
Import Text Re Py PromptAnalyzer Views.

Lemma extracted_filter (prompt key : string) (r : regex) (params : gmap string value) :
  In (key, r) filter_patterns ->
  analyze_prompt prompt = Ok params ->
  extracted prompt key = option_map strip (search true r prompt).
Proof.
  intros Hin E. unfold extracted.
  rewrite E. now apply (analyze_prompt_filter prompt key r params E).
Qed.

Lemma extracted_returned (prompt key v : string) :
  extracted prompt key = Some v -> exists params, analyze_prompt prompt = Ok params.
Proof.
  unfold extracted. destruct (analyze_prompt prompt) as [params|e]; [eauto | discriminate].
Qed.

(** C8, as the code has it.  For each of the six filter keys the value
    that [analyze_prompt] stores is the stripped group of the leftmost
    match of the key's pattern, searched in the prompt without regard to
    case: [<key>\s+(?:is|=|:)\s+([a-zA-Z\s]+)] for industry, region, size,
    category and stage, and [delivery\s+(?:mode|is|=|:)\s+([a-zA-Z\s]+)]
    for delivery_mode, with white space required on both sides of the
    separator.  A value is stored exactly when the pattern occurs in the
    prompt.  The prompt [industry is Healthcare] gives [Healthcare].
    All this is said of the prompts on which [analyze_prompt] returns. *)
Theorem filter_extraction (prompt key : string) (r : regex) (params : gmap string value) :
  In (key, r) filter_patterns ->
  analyze_prompt prompt = Ok params ->
  extracted prompt key = option_map strip (search true r prompt) /\
  (forall v, extracted prompt key = Some v ->
             exists g, occurs true r prompt g /\ v = strip g) /\
  (extracted prompt key = None <-> forall g, ~ occurs true r prompt g) /\
  extracted "industry is Healthcare" "industry" = Some "Healthcare".
Proof.
  intros Hin Ha. pose proof (extracted_filter prompt key r params Hin Ha) as E.
  split; [exact E |]. rewrite E. split; [|split].
  - intros v. destruct (search true r prompt) as [g|] eqn:S; [|discriminate].
    intros [= <-]. exists g. split; [now apply search_sound | reflexivity].
  - rewrite <- search_none.
    destruct (search true r prompt); cbn [option_map]; split; intros H;
      (discriminate H || reflexivity).
  - vm_compute. reflexivity.
Qed.

Lemma filter_extraction_witness :
  In ("delivery_mode", delivery_pattern) filter_patterns /\
  is_Some (field_of (analyze_prompt "courses with Delivery  Mode Online in 2024")
             "filters") /\
  extracted "courses with Delivery  Mode Online in 2024" "delivery_mode" = Some "Online in".
Proof.
  assert (In ("delivery_mode", delivery_pattern) filter_patterns) as Hin.
  { cbn [filter_patterns In]. do 4 right. left. reflexivity. }
  split; [exact Hin |].
  destruct (analyze_prompt_passes "courses with Delivery  Mode Online in 2024"
              (Some 2024) ltac:(vm_compute; reflexivity))
    as (p1 & p2 & p3 & p4 & p5 & params & _ & _ & _ & _ & _ & _ & Ha & _ & _ & _ & _ & _ & H).
  split.
  - rewrite Ha. cbn [field_of]. destruct H as (? & ? & ? & ? & ? & f & _ & _ & _ & _ & _ & -> & _).
    eauto.
  - destruct (filter_extraction "courses with Delivery  Mode Online in 2024"
                "delivery_mode" delivery_pattern params Hin Ha) as (E & _).
    rewrite E. vm_compute. reflexivity.
Defined.

(** C8 as stated fails: the specification's pattern accepts a separator
    without white space around it and, for the delivery mode, asks for the
    separator after the two words; the code does neither. *)
Lemma extract_filter_differs_from_spec :
  Spec.extract_filter "industry:Tech" "industry" = Some "Tech" /\
  extracted "industry:Tech" "industry" = None /\
  Spec.extract_filter "delivery mode is online" "delivery mode" = Some "online" /\
  extracted "delivery mode is online" "delivery_mode" = Some "is online".
Proof. repeat split; vm_compute; reflexivity. Qed.

Lemma letter_or_space_plain (c : ascii) :
  letter_or_space c = true -> plain c = true /\ Ascii.eqb c "'"%char = false.
Proof.
  destruct c as [[] [] [] [] [] [] [] []]; vm_compute; intros H;
    (discriminate H || (split; reflexivity)).
Qed.

(** On the strings of the 8-bit model, every value that [analyze_prompt]
    stores under one of the six keys is made of ASCII letters and of
    white space. *)
Lemma latin1_filter_values (prompt key v : string) :
  In key ["industry"; "region"; "size"; "category"; "delivery_mode"; "stage"] ->
  extracted prompt key = Some v ->
  all_chars letter_or_space v = true /\
  (forall c, head v = Some c -> isspace c = false) /\
  (forall c, last v = Some c -> isspace c = false) /\
  all_chars plain v = true /\
  all_chars (fun c => negb (Ascii.eqb c "'"%char)) v = true.
Proof.
  intros Hkey.
  assert (exists r, In (key, r) filter_patterns /\ captures_class letter_or_space r)
    as (r & Hin & Hr).
  { cbn [In] in Hkey. repeat (destruct Hkey as [<- | Hkey]); [.. | destruct Hkey];
      eexists; (split; [cbn [filter_patterns In]; eauto 10 | reflexivity]). }
  intros Hv. destruct (extracted_returned prompt key v Hv) as [params Ha]. revert Hv.
  rewrite (extracted_filter prompt key r params Hin Ha).
  destruct (search true r prompt) as [g|] eqn:S; [|discriminate].
  intros [= <-].
  apply (search_captures_class _ letter_or_space) in S as [Hg _]; [|exact Hr].
  assert (all_chars letter_or_space (strip g) = true) as Hs by now apply all_chars_strip.
  destruct (strip_trimmed g) as [Hh Hl].
  repeat split; try assumption.
  - revert Hs. apply all_chars_impl. intros c Hc. now apply letter_or_space_plain.
  - revert Hs. apply all_chars_impl. intros c Hc.
    apply letter_or_space_plain in Hc as [_ ->]. reflexivity.
Qed.

End Filters.

(** ** The filter phrases on code points *)

Section WideFilters.
Import Text Py PromptAnalyzer Views.

Lemma between_spec (lo hi c : N) :
  Unicode.between lo hi c = true <-> (lo <= c <= hi)%N.
Proof.
  unfold Unicode.between. rewrite andb_true_iff, !N.leb_le. reflexivity.
Qed.

Lemma between_out (lo hi c : N) :
  (c < lo \/ hi < c)%N -> Unicode.between lo hi c = false.
Proof.
  intros H. destruct (Unicode.between lo hi c) eqn:E; [|reflexivity].
  apply between_spec in E. lia.
Qed.

(** The code points that the class [[a-zA-Z\s]] holds under the flag. *)
Lemma letter_or_space_cases (c : N) :
  Unicode.letter_or_space c = true ->
  ((97 <= c <= 122) \/ (65 <= c <= 90) \/
   c = 0x130 \/ c = 0x131 \/ c = 0x17f \/ c = 0x212a)%N \/
  Unicode.isspace c = true.
Proof.
  unfold Unicode.letter_or_space. intros [H | H]%orb_true_iff; [left | now right].
  revert H. unfold Unicode.fold.
  destruct (Unicode.between 65 90 c || Unicode.between 192 214 c
            || Unicode.between 216 222 c) eqn:E1.
  - rewrite !orb_true_iff, !between_spec in E1. rewrite between_spec. lia.
  - destruct ((c =? 0x130)%N || (c =? 0x131)%N) eqn:E2.
    + rewrite orb_true_iff, !N.eqb_eq in E2. lia.
    + destruct (c =? 0x17f)%N eqn:E3; [apply N.eqb_eq in E3; lia |].
      destruct (c =? 0x212a)%N eqn:E4; [apply N.eqb_eq in E4; lia |].
      rewrite between_spec. lia.
Qed.

Lemma isspace_cases (c : N) :
  Unicode.isspace c = true ->
  ((9 <= c <= 13) \/ (28 <= c <= 32) \/ c = 0x85 \/ c = 0xa0 \/ 0x1680 <= c)%N.
Proof.
  unfold Unicode.isspace. rewrite !orb_true_iff, !between_spec, !N.eqb_eq. lia.
Qed.

Lemma letter_or_space_plain_wide (c : N) :
  Unicode.letter_or_space c = true -> Unicode.plain c = true.
Proof.
  intros H. unfold Unicode.plain, Unicode.ispunct. apply negb_true_iff.
  apply letter_or_space_cases in H as [H | H%isspace_cases];
    rewrite !between_out by lia; reflexivity.
Qed.

Lemma forallb_impl {X : Type} (p q : X -> bool) (l : list X) :
  (forall x, p x = true -> q x = true) -> forallb p l = true -> forallb q l = true.
Proof.
  intros H. rewrite !forallb_forall. auto.
Qed.

(** *** Stripping *)

Lemma forallb_lstrip (p : N -> bool) (s : Unicode.ustring) :
  forallb p s = true -> forallb p (Unicode.lstrip s) = true.
Proof.
  induction s as [|c s IH]; cbn [Unicode.lstrip forallb]; [reflexivity |].
  intros H. destruct (Unicode.isspace c).
  - apply IH. now apply andb_prop in H as [_ H].
  - exact H.
Qed.

Lemma forallb_rstrip (p : N -> bool) (s : Unicode.ustring) :
  forallb p s = true -> forallb p (Unicode.rstrip s) = true.
Proof.
  induction s as [|c s IH]; cbn [Unicode.rstrip forallb]; [reflexivity |].
  intros [Hc Hs]%andb_prop. specialize (IH Hs).
  destruct (Unicode.rstrip s) as [|d t].
  - destruct (Unicode.isspace c); cbn [forallb]; [reflexivity | now rewrite Hc].
  - cbn [forallb] in *. now rewrite Hc.
Qed.

Lemma head_lstrip_wide (s : Unicode.ustring) (c : N) :
  hd_error (Unicode.lstrip s) = Some c -> Unicode.isspace c = false.
Proof.
  induction s as [|x s IH]; cbn [Unicode.lstrip]; [discriminate |].
  destruct (Unicode.isspace x) eqn:Hx; [exact IH |].
  cbn. intros [= <-]. exact Hx.
Qed.

Lemma head_rstrip_wide (s : Unicode.ustring) (c : N) :
  hd_error (Unicode.rstrip s) = Some c -> hd_error s = Some c.
Proof.
  destruct s as [|x s]; cbn [Unicode.rstrip]; [discriminate |].
  destruct (Unicode.rstrip s); [destruct (Unicode.isspace x); [discriminate |] |];
    cbn; auto.
Qed.

Lemma last_rstrip_wide (s : Unicode.ustring) (c : N) :
  Unicode.last (Unicode.rstrip s) = Some c -> Unicode.isspace c = false.
Proof.
  induction s as [|x s IH]; cbn [Unicode.rstrip]; [discriminate |].
  destruct (Unicode.rstrip s) as [|d t] eqn:Hr.
  - destruct (Unicode.isspace x) eqn:Hx; cbn; [discriminate |].
    intros [= <-]. exact Hx.
  - exact IH.
Qed.

(** *** What the group of a match holds *)

Lemma star_class {A : Type} (p : N -> bool) (s : Unicode.ustring)
    (k : Unicode.ustring -> Unicode.ustring -> option A) (a : A) :
  Unicode.star p s k = Some a ->
  exists w rest, k w rest = Some a /\ forallb p w = true.
Proof.
  revert k. induction s as [|c s IH]; intros k; cbn [Unicode.star].
  - intros H. exists [], []. auto.
  - destruct (p c) eqn:Hc.
    + destruct (Unicode.star p s _) as [a'|] eqn:Hs.
      * intros [= ->]. apply IH in Hs as (w & rest & Hk & Hw).
        exists (c :: w), rest. cbn [forallb]. rewrite Hc, Hw. auto.
      * intros H. exists [], (c :: s). auto.
    + intros H. exists [], (c :: s). auto.
Qed.

Lemma run_returns {A : Type} (r : Unicode.regex) :
  forall (s cap : Unicode.ustring)
         (k : Unicode.ustring -> Unicode.ustring -> Unicode.ustring -> option A) (a : A),
    Unicode.run r s cap k = Some a -> exists w rest cap', k w rest cap' = Some a.
Proof.
  induction r as [l | p | r1 IH1 r2 IH2 | r1 IH1 r2 IH2 | r IH];
    intros s cap k a; cbn [Unicode.run].
  - destruct (Unicode.lit l s) as [[w rest]|]; [eauto | discriminate].
  - destruct s as [|c s]; [discriminate |]. destruct (p c); [|discriminate].
    intros (w & rest & Hk & _)%star_class. eauto.
  - destruct (Unicode.run r1 s cap k) as [a'|] eqn:H1.
    + intros [= ->]. now apply IH1 in H1.
    + apply IH2.
  - intros (w1 & s1 & cap1 & H)%IH1. apply IH2 in H as (w2 & s2 & cap2 & H). eauto.
  - intros (w & rest & cap' & H)%IH. eauto.
Qed.

Lemma run_captures_class {A : Type} (p : N -> bool) (r : Unicode.regex) :
  Unicode.captures_class p r ->
  forall (s cap : Unicode.ustring)
         (k : Unicode.ustring -> Unicode.ustring -> Unicode.ustring -> option A) (a : A),
    Unicode.run r s cap k = Some a ->
    exists w rest g, k w rest g = Some a /\ forallb p g = true /\ g <> [].
Proof.
  induction r as [l | q | r1 IH1 r2 IH2 | r1 IH1 r2 IH2 | r IH];
    cbn [Unicode.captures_class]; try contradiction.
  - intros Hr s cap k a. cbn [Unicode.run].
    intros (w1 & s1 & cap1 & H)%run_returns.
    apply (IH2 Hr) in H as (w2 & s2 & g & H). eauto.
  - destruct r as [| q | | |]; try contradiction. intros -> s cap k a.
    cbn [Unicode.run]. destruct s as [|c s]; [discriminate |].
    destruct (p c) eqn:Hc; [|discriminate].
    intros (w & rest & Hk & Hw)%star_class.
    exists (c :: w), rest, (c :: w). cbn [forallb]. rewrite Hc, Hw.
    split; [exact Hk |]. split; [reflexivity | discriminate].
Qed.

Lemma search_captures_class_wide (p : N -> bool) (r : Unicode.regex)
    (s g : Unicode.ustring) :
  Unicode.captures_class p r -> Unicode.search r s = Some g ->
  forallb p g = true /\ g <> [].
Proof.
  intros Hr. induction s as [|c s IH]; cbn [Unicode.search]; unfold Unicode.match_here.
  - destruct (Unicode.run r [] _ _) as [g'|] eqn:H; [|discriminate].
    intros [= ->]. apply (run_captures_class p r Hr) in H as (w & rest & g' & [= ->] & Hg).
    exact Hg.
  - destruct (Unicode.run r (c :: s) _ _) as [g'|] eqn:H; [|exact IH].
    intros [= ->]. apply (run_captures_class p r Hr) in H as (w & rest & g' & [= ->] & Hg).
    exact Hg.
Qed.

Lemma stored_pattern (prompt : Unicode.ustring) (key : string) (v : Unicode.ustring) :
  In (key, v) (Unicode.stored prompt) ->
  exists r g,
    In (key, r) Unicode.filter_patterns /\
    Unicode.search r prompt = Some g /\ v = Unicode.strip g.
Proof.
  unfold Unicode.stored. intros ([k r] & Hin & H)%in_flat_map. cbn [fst snd] in H.
  destruct (Unicode.search r prompt) as [g|] eqn:S; [|destruct H].
  destruct H as [[= <- <-] | []]. eauto.
Qed.

(** *** The two models of the phrases agree on the 8-bit strings *)

Lemma in_all_ascii (c : ascii) : In c Unicode.all_ascii.
Proof.
  unfold Unicode.all_ascii. rewrite <- (ascii_nat_embedding c).
  apply in_map, in_seq. pose proof (nat_ascii_bounded c). lia.
Qed.

Lemma characters_agree (c : ascii) :
  Unicode.isspace (code c) = isspace c /\
  Unicode.letter_or_space (code c) = Re.letter_or_space c /\
  forall a, Unicode.char_match a (code c) = Re.char_match true a c.
Proof.
  assert (forallb (fun c =>
            Bool.eqb (Unicode.isspace (code c)) (isspace c)
            && Bool.eqb (Unicode.letter_or_space (code c)) (Re.letter_or_space c)
            && forallb (fun a => Bool.eqb (Unicode.char_match a (code c))
                                          (Re.char_match true a c))
                 Unicode.all_ascii)
            Unicode.all_ascii = true) as H by (vm_compute; reflexivity).
  rewrite forallb_forall in H. specialize (H c (in_all_ascii c)).
  apply andb_prop in H as [[H1 H2]%andb_prop H3].
  apply Bool.eqb_prop in H1, H2. split; [exact H1 |]. split; [exact H2 |].
  intros a. rewrite forallb_forall in H3. apply Bool.eqb_prop, H3, in_all_ascii.
Qed.

Lemma of_string_app (a b : string) :
  Unicode.of_string (a +:+ b) = Unicode.of_string a ++ Unicode.of_string b.
Proof.
  induction a as [|c a IH]; [reflexivity |].
  rewrite append_cons. cbn [Unicode.of_string app]. now rewrite IH.
Qed.

Lemma lit_agrees (l s : string) :
  Unicode.lit l (Unicode.of_string s)
  = option_map (fun wr => (Unicode.of_string (fst wr), Unicode.of_string (snd wr)))
      (Re.lit true l s).
Proof.
  revert s. induction l as [|a l IH]; intros s; [reflexivity |].
  destruct s as [|b s]; [reflexivity |].
  cbn [Unicode.lit Re.lit Unicode.of_string].
  destruct (characters_agree b) as (_ & _ & ->).
  destruct (Re.char_match true a b); [|reflexivity].
  rewrite IH. now destruct (Re.lit true l s) as [[w rest]|].
Qed.

Lemma star_agrees (p : ascii -> bool) (q : N -> bool) :
  (forall c, q (code c) = p c) ->
  forall (s : string) (k : string -> string -> option string)
         (k' : Unicode.ustring -> Unicode.ustring -> option Unicode.ustring),
    (forall w rest, k' (Unicode.of_string w) (Unicode.of_string rest)
                    = option_map Unicode.of_string (k w rest)) ->
    Unicode.star q (Unicode.of_string s) k'
    = option_map Unicode.of_string (Re.star p s k).
Proof.
  intros Hq s. induction s as [|c s IH]; intros k k' Hk;
    cbn [Unicode.star Re.star Unicode.of_string].
  - apply (Hk EmptyString EmptyString).
  - rewrite Hq. destruct (p c); [|apply (Hk EmptyString (String c s))].
    rewrite (IH (fun w rest => k (String c w) rest)
                (fun w rest => k' (code c :: w) rest));
      [|intros w rest; apply (Hk (String c w) rest)].
    destruct (Re.star p s _); [reflexivity |]. apply (Hk EmptyString (String c s)).
Qed.

Lemma run_agrees (r : Re.regex) (u : Unicode.regex) :
  Unicode.agrees r u ->
  forall (s cap : string) (k : string -> string -> string -> option string)
         (k' : Unicode.ustring -> Unicode.ustring -> Unicode.ustring
               -> option Unicode.ustring),
    (forall w rest c,
        k' (Unicode.of_string w) (Unicode.of_string rest) (Unicode.of_string c)
        = option_map Unicode.of_string (k w rest c)) ->
    Unicode.run u (Unicode.of_string s) (Unicode.of_string cap) k'
    = option_map Unicode.of_string (Re.run true r s cap k).
Proof.
  induction 1 as [l | p q Hq | r1 r2 u1 u2 _ IH1 _ IH2 | r1 r2 u1 u2 _ IH1 _ IH2
                 | r u _ IH];
    intros s cap k k' Hk; cbn [Unicode.run Re.run].
  - rewrite lit_agrees. destruct (Re.lit true l s) as [[w rest]|]; [|reflexivity].
    cbn [option_map fst snd]. apply Hk.
  - destruct s as [|c s]; [reflexivity |]. cbn [Unicode.of_string].
    rewrite Hq. destruct (p c); [|reflexivity].
    apply (star_agrees p q Hq). intros w rest. apply (Hk (String c w) rest cap).
  - rewrite (IH1 s cap k k' Hk). destruct (Re.run true r1 s cap k); [reflexivity |].
    now apply IH2.
  - apply IH1. intros w1 s1 cap1. apply IH2. intros w2 s2 cap2.
    rewrite <- of_string_app. apply Hk.
  - apply IH. intros w rest c. apply Hk.
Qed.

Lemma search_agrees (r : Re.regex) (u : Unicode.regex) (s : string) :
  Unicode.agrees r u ->
  Unicode.search u (Unicode.of_string s)
  = option_map Unicode.of_string (Re.search true r s).
Proof.
  intros H.
  assert (forall s, Unicode.match_here u (Unicode.of_string s)
                    = option_map Unicode.of_string (Re.match_here true r s)) as Hm.
  { intros s0. unfold Unicode.match_here, Re.match_here.
    apply (run_agrees r u H s0 EmptyString). reflexivity. }
  induction s as [|c s IH]; cbn [Unicode.of_string Unicode.search Re.search].
  - pose proof (Hm EmptyString) as H0. cbn [Unicode.of_string] in H0. rewrite H0.
    now destruct (Re.match_here true r EmptyString).
  - pose proof (Hm (String c s)) as H1. cbn [Unicode.of_string] in H1. rewrite H1.
    destruct (Re.match_here true r (String c s)); [reflexivity |]. exact IH.
Qed.

Lemma lstrip_agrees (s : string) :
  Unicode.lstrip (Unicode.of_string s) = Unicode.of_string (lstrip s).
Proof.
  induction s as [|c s IH]; [reflexivity |].
  cbn [Unicode.of_string Unicode.lstrip lstrip].
  destruct (characters_agree c) as (-> & _). now destruct (isspace c).
Qed.

Lemma rstrip_agrees (s : string) :
  Unicode.rstrip (Unicode.of_string s) = Unicode.of_string (rstrip s).
Proof.
  induction s as [|c s IH]; [reflexivity |].
  cbn [Unicode.of_string Unicode.rstrip rstrip]. rewrite IH.
  destruct (characters_agree c) as (-> & _).
  destruct (rstrip s) as [|d t]; [now destruct (isspace c) | reflexivity].
Qed.

Lemma strip_agrees (s : string) :
  Unicode.strip (Unicode.of_string s) = Unicode.of_string (strip s).
Proof. unfold Unicode.strip, strip. now rewrite lstrip_agrees, rstrip_agrees. Qed.

Lemma filter_patterns_agree (key : string) (r : Re.regex) :
  In (key, r) filter_patterns ->
  exists u, In (key, u) Unicode.filter_patterns /\ Unicode.agrees r u.
Proof.
  assert (forall c, Unicode.isspace (code c) = isspace c) as Hs
    by (intros c; apply characters_agree).
  assert (forall c, Unicode.letter_or_space (code c) = Re.letter_or_space c) as Hl
    by (intros c; apply characters_agree).
  cbn [filter_patterns In]. intros Hin.
  repeat (destruct Hin as [[= <- <-] | Hin]); [.. | destruct Hin];
    eexists; (split; [cbn [Unicode.filter_patterns In]; eauto 10 |]);
    unfold Re.filter_pattern, Re.delivery_pattern, Re.is_eq_colon,
      Unicode.filter_pattern, Unicode.delivery_pattern, Unicode.is_eq_colon;
    repeat constructor; assumption.
Qed.

(** C10, as the code has it.  Every value that the six filter phrases
    store is made of the characters that the class [[a-zA-Z\s]] holds
    under [re.IGNORECASE]: the ASCII letters, the four letters U+0130,
    U+0131, U+017F and U+212A, and white space; it neither starts nor ends
    with white space; and it holds no decimal digit, no quote and no other
    character of [string.punctuation].  This is said of prompts of any code
    points; and what [analyze_prompt] stores for a prompt of the 8-bit
    model is what these phrases store for its code points. *)
Theorem filter_values_hold_no_quote :
  (forall (prompt : Unicode.ustring) (key : string) (v : Unicode.ustring),
      In (key, v) (Unicode.stored prompt) ->
      In key ["industry"; "region"; "size"; "category"; "delivery_mode"; "stage"] /\
      forallb Unicode.letter_or_space v = true /\
      (forall c, In c v ->
                 Unicode.ascii_letter c = true \/ Unicode.isspace c = true \/
                 In c [0x130; 0x131; 0x17f; 0x212a]%N) /\
      (forall c, hd_error v = Some c -> Unicode.isspace c = false) /\
      (forall c, Unicode.last v = Some c -> Unicode.isspace c = false) /\
      forallb Unicode.plain v = true /\
      ~ In 39%N v /\ ~ In 34%N v) /\
  (forall (prompt key v : string) (params : gmap string value),
      In key ["industry"; "region"; "size"; "category"; "delivery_mode"; "stage"] ->
      analyze_prompt prompt = Ok params ->
      filter_of params key = Some v ->
      In (key, Unicode.of_string v) (Unicode.stored (Unicode.of_string prompt))).
Proof.
  split.
  - intros prompt key v (r & g & Hin & S & ->)%stored_pattern.
    assert (In key ["industry"; "region"; "size"; "category"; "delivery_mode"; "stage"]
            /\ Unicode.captures_class Unicode.letter_or_space r) as [Hkey Hr].
    { cbn [Unicode.filter_patterns In] in Hin.
      repeat (destruct Hin as [[= <- <-] | Hin]); [.. | destruct Hin];
        (split; [cbn [In]; auto 10 | reflexivity]). }
    split; [exact Hkey |].
    apply (search_captures_class_wide _ _ _ _ Hr) in S as [Hg _].
    assert (forallb Unicode.letter_or_space (Unicode.strip g) = true) as Hs.
    { unfold Unicode.strip. now apply forallb_rstrip, forallb_lstrip. }
    assert (forallb Unicode.plain (Unicode.strip g) = true) as Hp.
    { revert Hs. apply forallb_impl, letter_or_space_plain_wide. }
    split; [exact Hs |]. split; [|split; [|split; [|split; [exact Hp |]]]].
    + intros c Hc. rewrite forallb_forall in Hs.
      destruct (letter_or_space_cases c (Hs c Hc)) as [H | H]; [|auto].
      unfold Unicode.ascii_letter. cbn [In].
      destruct H as [H | [H | H]];
        [left; apply orb_true_iff; left; now apply between_spec
        | left; apply orb_true_iff; right; now apply between_spec
        | right; right; intuition auto].
    + intros c H. unfold Unicode.strip in H.
      apply head_rstrip_wide in H. now apply head_lstrip_wide in H.
    + intros c H. now apply last_rstrip_wide in H.
    + rewrite forallb_forall in Hp.
      split; intros H; apply Hp in H; discriminate H.
  - intros prompt key v params Hkey Ha Hv.
    assert (exists r, In (key, r) filter_patterns) as [r Hin].
    { cbn [In] in Hkey. repeat (destruct Hkey as [<- | Hkey]); [.. | destruct Hkey];
        eexists; cbn [filter_patterns In]; eauto 10. }
    rewrite (analyze_prompt_filter prompt key r params Ha Hin) in Hv.
    destruct (Re.search true r prompt) as [g|] eqn:S; [|discriminate].
    injection Hv as <-.
    destruct (filter_patterns_agree key r Hin) as (u & Hu & Hagree).
    unfold Unicode.stored. apply in_flat_map. exists (key, u). split; [exact Hu |].
    cbn [fst snd]. rewrite (search_agrees r u prompt Hagree), S. cbn [option_map].
    left. now rewrite strip_agrees.
Qed.

Lemma filter_values_hold_no_quote_witness :
  In ("region", Unicode.of_string "North  America")
     (Unicode.stored (Unicode.of_string "region = North  America's 2 offices")) /\
  forallb Unicode.letter_or_space (Unicode.of_string "North  America") = true /\
  forallb Unicode.plain (Unicode.of_string "North  America") = true.
Proof.
  destruct filter_values_hold_no_quote as [Hwide Hlink].
  destruct (analyze_prompt_returns "region = North  America's 2 offices" (Some 2)
              ltac:(vm_compute; reflexivity)) as [params Ha].
  assert (filter_of params "region" = Some "North  America") as Hv.
  { rewrite (analyze_prompt_filter _ "region" (Re.filter_pattern "region") params Ha);
      [vm_compute; reflexivity | cbn [filter_patterns In]; auto]. }
  pose proof (Hlink _ "region" _ params ltac:(cbn [In]; auto) Ha Hv) as Hin.
  split; [exact Hin |].
  destruct (Hwide _ _ _ Hin) as (_ & H1 & _ & _ & _ & H2 & _). auto.
Defined.

(** C10 as stated fails beyond Latin-1: under [re.IGNORECASE] the class
    [[a-zA-Z\s]] also holds the long s, U+017F, and the value stored for
    the prompt [industry is <U+017F>oftware] starts with it: a character
    that is neither an ASCII letter nor white space. *)
Lemma filter_value_with_a_long_s :
  Unicode.stored (Unicode.of_string "industry is " ++ [0x17f%N]
                  ++ Unicode.of_string "oftware")
  = [("industry", 0x17f%N :: Unicode.of_string "oftware")] /\
  Unicode.ascii_letter 0x17f = false /\
  Unicode.isspace 0x17f = false.
Proof.
  split; [vm_compute; reflexivity |]. split; reflexivity.
Qed.

End WideFilters.

(** ** Templates *)

Section Templates.
Import Text Re Py PromptAnalyzer Views.

Lemma match_template_first_rule (prompt : string) (σ : analyzer) :
  match_template prompt σ =
  match first_rule prompt with
  | Some name => (t ← template name; mret (Some t)) σ
  | None => (Ok None, σ)
  end.
Proof.
  unfold match_template, first_rule, template_rules.
  cbn [find fst snd].
  repeat match goal with
         | |- context [if ?c then _ else _] =>
             destruct c; [reflexivity |]
         end.
  reflexivity.
Qed.

Lemma match_template_state (prompt : string) (σ : analyzer) :
  (match_template prompt σ).2 = σ.
Proof.
  rewrite match_template_first_rule. destruct (first_rule prompt) as [name|];
    [|reflexivity].
  unfold mbind, St_bind, template. destruct (templates σ !! name); reflexivity.
Qed.

(** *** Code that leaves the objects of a store alone *)

Lemma extends_refl (σ : analyzer) : extends σ σ.
Proof. split; reflexivity. Qed.

Lemma safe_ret {A : Type} (σ0 : analyzer) (a : A) (Q : A -> Prop) :
  Q a -> safe σ0 (mret a) Q.
Proof. intros Ha σ Hσ. split; [exact Hσ |]. now intros a' [= <-]. Qed.

Lemma safe_lift {A : Type} (σ0 : analyzer) (r : result A) :
  safe σ0 (lift r) (fun _ => True).
Proof. intros σ Hσ. split; [exact Hσ | auto]. Qed.

Lemma safe_bind {A B : Type} (σ0 : analyzer) (m : St A) (f : A -> St B)
    (Q : A -> Prop) (Q' : B -> Prop) :
  safe σ0 m Q -> (forall a, Q a -> safe σ0 (f a) Q') -> safe σ0 (m ≫= f) Q'.
Proof.
  intros Hm Hf σ Hσ. destruct (Hm σ Hσ) as [H1 H2].
  unfold mbind, St_bind. destruct (m σ) as [[a|e] σ1]; cbn [fst snd] in *.
  - apply (Hf a); auto.
  - split; [exact H1 | discriminate].
Qed.

Lemma safe_try {A : Type} (σ0 : analyzer) (m : St A) (handler : exn -> St A)
    (Q : A -> Prop) :
  safe σ0 m Q -> (forall e, safe σ0 (handler e) Q) -> safe σ0 (try_except m handler) Q.
Proof.
  intros Hm Hh σ Hσ. destruct (Hm σ Hσ) as [H1 H2].
  unfold try_except. destruct (m σ) as [[a|e] σ1]; cbn [fst snd] in *.
  - split; [exact H1 | exact H2].
  - now apply (Hh e).
Qed.

Lemma safe_weaken {A : Type} (σ0 : analyzer) (m : St A) (Q Q' : A -> Prop) :
  (forall a, Q a -> Q' a) -> safe σ0 m Q -> safe σ0 m Q'.
Proof. intros HQ Hm σ Hσ. destruct (Hm σ Hσ) as [H1 H2]. split; auto. Qed.

Lemma safe_deref (σ0 : analyzer) (l : loc) : safe σ0 (deref l) (fun _ => True).
Proof.
  intros σ Hσ. unfold deref. destruct (heap σ !! l); (split; [exact Hσ | auto]).
Qed.

Lemma safe_template (σ0 : analyzer) (name : string) :
  safe σ0 (template name) (fun _ => True).
Proof.
  intros σ Hσ. unfold template. destruct (templates σ !! name); (split; [exact Hσ | auto]).
Qed.

Lemma safe_match_template (σ0 : analyzer) (prompt : string) :
  safe σ0 (match_template prompt) (fun _ => True).
Proof.
  intros σ Hσ. rewrite match_template_state. split; [exact Hσ | auto].
Qed.

Lemma safe_alloc (σ0 : analyzer) (d : gmap string value) :
  safe σ0 (alloc d) (new_in σ0).
Proof.
  intros σ [Ht Hh]. unfold alloc. cbn [fst snd].
  assert (heap σ !! fresh (dom (heap σ)) = None) as Hfresh.
  { apply not_elem_of_dom, is_fresh. }
  assert (heap σ0 !! fresh (dom (heap σ)) = None) as Hfresh0.
  { eapply lookup_weaken_None; eauto. }
  split.
  - split; [exact Ht |]. cbn [heap]. now apply insert_subseteq_r.
  - intros a [= <-]. now apply not_elem_of_dom.
Qed.

Lemma safe_store (σ0 : analyzer) (l : loc) (k : string) (v : value) :
  new_in σ0 l -> safe σ0 (store l k v) (fun _ => True).
Proof.
  intros Hl σ [Ht Hh]. unfold store.
  destruct (heap σ !! l) as [d|]; cbn [fst snd]; (split; [|auto]).
  - split; [exact Ht |]. cbn [heap]. apply insert_subseteq_r; [|exact Hh].
    now apply not_elem_of_dom.
  - now split.
Qed.

Section External.
Context {table chart : Type}.
Variable read_sql : string -> result table.
Variable empty : table -> bool.
Variable draw : string -> string -> string -> table -> result chart.
Variable new_generator : result unit.

Abbreviation execute_analysis := (execute_analysis read_sql empty draw new_generator).
Abbreviation process_prompt := (process_prompt read_sql empty draw new_generator).
Abbreviation process_all := (process_all read_sql empty draw new_generator).

(** [execute_analysis] writes to the dictionary it is given only. *)
Lemma safe_execute_analysis (σ0 : analyzer) (params : loc) :
  new_in σ0 params -> safe σ0 (execute_analysis params) (fun _ => True).
Proof.
  intros Hp. unfold PromptAnalyzer.execute_analysis.
  apply safe_try; [|intros e; now apply safe_ret].
  eapply safe_bind; [apply safe_lift | intros _ _].
  eapply safe_bind; [apply safe_deref | intros d _].
  do 6 (eapply safe_bind; [apply safe_lift | intros ? _]).
  eapply safe_bind with (Q := fun _ => True); [|intros _ _; now apply safe_ret].
  destruct (d !! "title").
  - now apply safe_ret.
  - eapply safe_bind; [apply safe_lift | intros title _]. now apply safe_store.
Qed.

Lemma safe_process_prompt (σ0 : analyzer) (prompt : string) :
  safe σ0 (process_prompt prompt) (fun _ => True).
Proof.
  unfold PromptAnalyzer.process_prompt.
  apply safe_try; [|intros e; now apply safe_ret].
  eapply safe_bind; [apply safe_match_template | intros template _].
  eapply safe_bind with (Q := fun _ => True).
  { destruct template as [t|]; [|now apply safe_ret].
    eapply safe_bind; [apply safe_deref | intros d _]. now apply safe_ret. }
  intros use_template _.
  eapply safe_bind with (Q := new_in σ0); [|intros params Hp;
                                            now apply safe_execute_analysis].
  destruct template as [t|]; [destruct use_template |].
  - eapply safe_bind; [apply safe_deref | intros d _].
    eapply safe_bind; [apply safe_alloc | intros params Hp].
    eapply safe_bind; [apply safe_lift | intros limit _].
    eapply safe_bind with (Q := fun _ => True); [|intros _ _; now apply safe_ret].
    destruct limit as [limit|]; [|now apply safe_ret].
    destruct (limit =? 0); [now apply safe_ret | now apply safe_store].
  - eapply safe_bind; [apply safe_lift | intros d _]. apply safe_alloc.
  - eapply safe_bind; [apply safe_lift | intros d _]. apply safe_alloc.
Qed.

Lemma process_prompt_extends (prompt : string) (σ : analyzer) :
  extends σ (process_prompt prompt σ).2.
Proof. apply (safe_process_prompt σ prompt σ), extends_refl. Qed.

Lemma extends_template_content (σ σ' : analyzer) (name : string)
    (d : gmap string value) :
  extends σ σ' -> template_content σ name = Some d -> template_content σ' name = Some d.
Proof.
  intros [Ht Hh]. unfold template_content. rewrite Ht.
  destruct (templates σ !! name) as [l|]; cbn; [|discriminate].
  intros H. now apply (lookup_weaken _ _ _ _ H Hh).
Qed.

Lemma process_all_extends (prompts : list string) (σ : analyzer) :
  extends σ (process_all prompts σ).
Proof.
  revert σ. induction prompts as [|prompt rest IH]; intros σ; [apply extends_refl |].
  cbn [PromptAnalyzer.process_all fold_left].
  destruct (process_prompt_extends prompt σ) as [Ht Hh].
  destruct (IH (process_prompt prompt σ).2) as [Ht' Hh'].
  split; [now rewrite <- Ht | now transitivity (heap (process_prompt prompt σ).2)].
Qed.

(** C7.  [process_prompt] copies the template that [match_template]
    yields before it writes the limit, and [execute_analysis] writes
    the title to the copy: whatever the prompt and the store, the
    template table is the one it was and every object of the store,
    the template dictionaries among them, has the content it had; this
    holds after any sequence of prompts.  The prompt
    [show me the top 10 clients by revenue] matches no rule ([top client]
    is not in it); a prompt that matches a template and carries a number
    leaves the number in the copy, and the template stays without a
    limit. *)
Theorem process_prompt_preserves_templates (prompt : string) (σ : analyzer) :
  templates (process_prompt prompt σ).2 = templates σ /\
  heap σ ⊆ heap (process_prompt prompt σ).2 /\
  (forall name d, template_content σ name = Some d ->
                  template_content (process_prompt prompt σ).2 name = Some d) /\
  (forall prompts name d,
      In (name, d) template_table ->
      template_content (process_all prompts init) name = Some d) /\
  first_rule "show me the top 10 clients by revenue" = None /\
  (let prompt := "list the top clients by revenue, limit 10" in
   first_rule prompt = Some "top_clients_by_revenue" /\
   heap (process_prompt prompt init).2 !! 7%nat
     = Some (<["limit" := VInt 10]>
               (template_dict "top" "clients" "revenue" "client_name"
                  "Top Clients by Revenue"
                  "Shows the clients that have generated the most revenue")) /\
   template_content (process_prompt prompt init).2 "top_clients_by_revenue"
     = Some (template_dict "top" "clients" "revenue" "client_name"
               "Top Clients by Revenue"
               "Shows the clients that have generated the most revenue")).
Proof.
  destruct (process_prompt_extends prompt σ) as [Ht Hh].
  split; [exact Ht |]. split; [exact Hh |]. split; [|split; [|split]].
  - intros name d. apply extends_template_content. now split.
  - intros prompts name d Hin.
    apply (extends_template_content init); [apply process_all_extends |].
    cbn [template_table In] in Hin.
    repeat (destruct Hin as [[= <- <-] | Hin]); [.. | destruct Hin]; reflexivity.
  - vm_compute. reflexivity.
  - cbv zeta. split; [vm_compute; reflexivity |]. split.
    + destruct new_generator as [[]|e]; reflexivity.
    + apply (extends_template_content init); [apply process_prompt_extends |].
      reflexivity.
Qed.

(** C6.  [match_template] tries its rules in the order in which they
    are written and returns the template of the first rule whose
    condition holds on the lower-cased prompt, or nothing when no rule
    holds.  For [Show me the top client by revenue] that is the
    template [top_clients_by_revenue]; [process_prompt] then works on a
    copy of it, with [dimension = client_name], the template's title
    and description, and without the [filters] and [limit] keys that
    the resolver would set. *)
Theorem match_template_priority (prompt : string) (σ : analyzer) :
  match_template prompt σ =
    match first_rule prompt with
    | Some name =>
        match templates σ !! name with
        | Some t => (Ok (Some t), σ)
        | None => (Raise (KeyError name), σ)
        end
    | None => (Ok None, σ)
    end /\
  (let prompt := "Show me the top client by revenue" in
   first_rule prompt = Some "top_clients_by_revenue" /\
   match_template prompt init = (Ok (templates init !! "top_clients_by_revenue"), init) /\
   template_content init "top_clients_by_revenue"
     = Some (template_dict "top" "clients" "revenue" "client_name"
               "Top Clients by Revenue"
               "Shows the clients that have generated the most revenue") /\
   heap (process_prompt prompt init).2 !! 7%nat
     = template_content init "top_clients_by_revenue" /\
   (heap (process_prompt prompt init).2 !! 7%nat ≫= fun d => d !! "dimension")
     = Some (VStr "client_name") /\
   (heap (process_prompt prompt init).2 !! 7%nat ≫= fun d => d !! "filters") = None /\
   (heap (process_prompt prompt init).2 !! 7%nat ≫= fun d => d !! "limit") = None /\
   (process_prompt prompt init).1
     = Ok (match new_generator with
           | Ok _ =>
               Analysis
                 (VisualizationGenerator.create_custom_visualization read_sql empty draw
                    "top" "clients" "revenue" "client_name" [] 10)
                 7%nat
           | Raise e => Error (str_of_exn e)
           end) /\
   field_of (analyze_prompt prompt) "filters" = Some (VDict [])).
Proof.
  split.
  - rewrite match_template_first_rule. destruct (first_rule prompt) as [name|];
      [|reflexivity].
    unfold mbind, St_bind, template. destruct (templates σ !! name); reflexivity.
  - cbv zeta.
    split; [vm_compute; reflexivity |].
    split; [reflexivity |]. split; [reflexivity |].
    split; [destruct new_generator as [[]|e]; reflexivity |].
    split; [destruct new_generator as [[]|e]; reflexivity |].
    split; [destruct new_generator as [[]|e]; reflexivity |].
    split; [destruct new_generator as [[]|e]; reflexivity |].
    split; [destruct new_generator as [[]|e]; reflexivity |].
    vm_compute. reflexivity.
Qed.

End External.

Lemma process_prompt_preserves_templates_witness :
  template_content init "top_clients_by_revenue"
  = Some (template_dict "top" "clients" "revenue" "client_name"
            "Top Clients by Revenue"
            "Shows the clients that have generated the most revenue") /\
  template_content
    (process_prompt (table := unit) (chart := unit)
       (fun _ => Ok tt) (fun _ => true) (fun _ _ _ _ => Ok tt) (Ok tt)
       "list the top clients by revenue, limit 10" init).2
    "top_clients_by_revenue"
  = Some (template_dict "top" "clients" "revenue" "client_name"
            "Top Clients by Revenue"
            "Shows the clients that have generated the most revenue").
Proof.
  destruct (process_prompt_preserves_templates (table := unit) (chart := unit)
              (fun _ => Ok tt) (fun _ => true) (fun _ _ _ _ => Ok tt) (Ok tt)
              "list the top clients by revenue, limit 10" init) as (_ & _ & H & _).
  split; [reflexivity | apply H; reflexivity].
Defined.

End Templates.

(** ** The query builder *)

Section QueryBuilder.
Import Text Py VisualizationGenerator Views.

Lemma handle_filter_drops_dates (entity_type key value : string) (q : clauses) :
  String.eqb entity_type "enrollments" = false ->
  String.eqb entity_type "opportunities" = false ->
  String.eqb key "date_from" || String.eqb key "date_to" = true ->
  handle_filter entity_type q (key, value) = q.
Proof.
  intros He Ho Hk. unfold handle_filter. rewrite He, Ho.
  destruct (String.eqb_spec key "date_from") as [-> | Hf].
  - cbn. now destruct (truthy value).
  - destruct (String.eqb_spec key "date_to") as [-> | Ht]; [|discriminate].
    cbn. now destruct (truthy value).
Qed.

Lemma handle_filters_without_dates (entity_type : string) (filters : odict) (q : clauses) :
  String.eqb entity_type "enrollments" = false ->
  String.eqb entity_type "opportunities" = false ->
  handle_filters entity_type filters q
  = handle_filters entity_type (without_dates filters) q.
Proof.
  intros He Ho. unfold handle_filters. revert q.
  induction filters as [|[k v] rest IH]; intros q; [reflexivity |].
  cbn [fold_left without_dates List.filter fst].
  destruct (String.eqb k "date_from" || String.eqb k "date_to") eqn:Hk; cbn [negb].
  - rewrite (handle_filter_drops_dates entity_type k v q He Ho Hk). apply IH.
  - cbn [fold_left]. apply IH.
Qed.

Lemma handle_filter_where_grows (entity_type : string) (q : clauses)
    (item : string * string) (x : string) :
  In x (where_clause q) -> In x (where_clause (handle_filter entity_type q item)).
Proof.
  intros Hx. destruct item as [k v]. unfold handle_filter.
  repeat match goal with
         | |- context [if ?c then _ else _] => destruct c
         end;
    cbn [add_where where_clause]; auto using in_or_app.
Qed.

Lemma handle_filters_where_grows (entity_type : string) (filters : odict) (q : clauses)
    (x : string) :
  In x (where_clause q) -> In x (where_clause (handle_filters entity_type filters q)).
Proof.
  unfold handle_filters. revert q.
  induction filters as [|item rest IH]; intros q Hx; [exact Hx |].
  cbn [fold_left]. apply IH. now apply handle_filter_where_grows.
Qed.

Lemma handle_filters_where_item (entity_type : string) (filters : odict) (q : clauses)
    (item : string * string) (x : string) :
  In item filters ->
  (forall q', In x (where_clause (handle_filter entity_type q' item))) ->
  In x (where_clause (handle_filters entity_type filters q)).
Proof.
  intros Hin Hx. unfold handle_filters. revert q.
  induction filters as [|item' rest IH]; intros q; [destruct Hin |].
  cbn [fold_left]. destruct Hin as [-> | Hin].
  - apply (handle_filters_where_grows entity_type rest). apply Hx.
  - now apply IH.
Qed.

Lemma truthy_nonempty (v : string) : v <> EmptyString -> truthy v = true.
Proof.
  intros Hv. unfold truthy. destruct (String.eqb_spec v EmptyString); [contradiction |].
  reflexivity.
Qed.

(** C9.  The date filters reach the query for enrollments (on
    [e.start_date]) and for opportunities (on [o.created_date]) only: for
    any other entity type, clients and programs among them, the query is
    the one built from the filters without [date_from] and [date_to]. *)
Theorem date_filters_need_a_dated_entity
    (entity_type metric dimension : string) (filters : odict) (limit : Z) :
  (entity_type <> "enrollments" -> entity_type <> "opportunities" ->
   build_query entity_type metric dimension filters limit
   = build_query entity_type metric dimension (without_dates filters) limit) /\
  (forall v, v <> EmptyString -> In ("date_from", v) filters ->
     In ("e.start_date >= '" +:+ v +:+ "'")
        (where_clause (build_clauses "enrollments" metric dimension filters)) /\
     In ("o.created_date >= '" +:+ v +:+ "'")
        (where_clause (build_clauses "opportunities" metric dimension filters))) /\
  (forall v, v <> EmptyString -> In ("date_to", v) filters ->
     In ("e.start_date <= '" +:+ v +:+ "'")
        (where_clause (build_clauses "enrollments" metric dimension filters)) /\
     In ("o.created_date <= '" +:+ v +:+ "'")
        (where_clause (build_clauses "opportunities" metric dimension filters))).
Proof.
  split; [|split].
  - intros He Ho. unfold build_query, build_clauses.
    rewrite handle_filters_without_dates; [reflexivity | |].
    + now destruct (String.eqb_spec entity_type "enrollments").
    + now destruct (String.eqb_spec entity_type "opportunities").
  - intros v Hv Hin. unfold build_clauses.
    split; apply (handle_filters_where_item _ _ _ ("date_from", v)); try exact Hin;
      intros q'; unfold handle_filter; cbn; rewrite (truthy_nonempty v Hv);
      cbn [add_where where_clause]; apply in_or_app; right; left; reflexivity.
  - intros v Hv Hin. unfold build_clauses.
    split; apply (handle_filters_where_item _ _ _ ("date_to", v)); try exact Hin;
      intros q'; unfold handle_filter; cbn; rewrite (truthy_nonempty v Hv);
      cbn [add_where where_clause]; apply in_or_app; right; left; reflexivity.
Qed.

Lemma date_filters_need_a_dated_entity_witness :
  build_query "clients" "revenue" "industry"
    [("date_from", "2024-01-01"); ("region", "Asia"); ("date_to", "2024-12-31")] 5
  = build_query "clients" "revenue" "industry" [("region", "Asia")] 5 /\
  In "e.start_date >= '2024-01-01'"
     (where_clause (build_clauses "enrollments" "revenue" "month"
                      [("date_from", "2024-01-01")])).
Proof.
  destruct (date_filters_need_a_dated_entity "clients" "revenue" "industry"
              [("date_from", "2024-01-01"); ("region", "Asia"); ("date_to", "2024-12-31")] 5)
    as (H1 & _).
  destruct (date_filters_need_a_dated_entity "enrollments" "revenue" "month"
              [("date_from", "2024-01-01")] 5) as (_ & H2 & _).
  split.
  - apply H1; discriminate.
  - apply (H2 "2024-01-01"); [discriminate | left; reflexivity].
Defined.

(** *** No request is rejected *)

(** C1, as the code has it.  The query builder has no rejection: for
    every request it returns a query text and raises nothing.  A
    dimension that the branch of the entity type does not know is left
    out of the query without notice (for clients, every dimension other
    than industry, size and region gives the same text), and a metric is
    written into the text whether or not its table is in the FROM clause
    (clients with win_rate gives a text that names [o.stage] and selects
    from [clients c] only).  [create_custom_visualization] reports a
    failure only when running the query or drawing the chart raises, with
    the message of that exception. *)
Theorem query_builder_accepts_every_request
    (query_type entity_type metric dimension : string) (filters : odict) (limit : Z) :
  compile query_type entity_type metric dimension filters limit
    = Ok (build_query entity_type metric dimension filters limit) /\
  (forall (table chart : Type) (read_sql : string -> result table)
          (empty : table -> bool)
          (draw : string -> string -> string -> table -> result chart) (msg : string),
      create_custom_visualization read_sql empty draw
        query_type entity_type metric dimension filters limit = Failure msg ->
      (exists e, read_sql (build_query entity_type metric dimension filters limit)
                   = Raise e /\ msg = str_of_exn e) \/
      (exists data kind e,
          read_sql (build_query entity_type metric dimension filters limit) = Ok data /\
          chart_kind query_type dimension = Some kind /\
          draw kind metric dimension data = Raise e /\ msg = str_of_exn e)) /\
  (forall dimension',
      member dimension ["industry"; "size"; "region"] = false ->
      member dimension' ["industry"; "size"; "region"] = false ->
      build_query "clients" metric dimension filters limit
      = build_query "clients" metric dimension' filters limit) /\
  compile "top" "clients" "win_rate" "client_name" [] 10 = Ok win_rate_of_clients /\
  compile "top" "clients" "revenue" "stage" [] 10 = Ok revenue_of_clients.
Proof.
  split; [reflexivity |]. split; [|split; [|split; reflexivity]].
  - intros table chart read_sql empty draw msg.
    unfold create_custom_visualization, visualization_body, compile.
    cbn [mbind result_bind].
    destruct (read_sql _) as [data|e] eqn:Hr; cbn [mbind result_bind].
    + destruct (negb (empty data)); cbn [mbind result_bind]; [|discriminate].
      destruct (chart_kind query_type dimension) as [kind|] eqn:Hk;
        cbn [mbind result_bind]; [|discriminate].
      destruct (draw kind metric dimension data) as [c|e] eqn:Hd;
        cbn [mbind result_bind]; [discriminate |].
      intros [= <-]. right. exists data, kind, e. auto.
    + intros [= <-]. left. exists e. auto.
  - intros dimension' H1 H2. unfold build_query, build_clauses, handle_entity.
    cbn [String.eqb Ascii.eqb Bool.eqb]. now rewrite H1, H2.
Qed.

Lemma query_builder_accepts_every_request_witness :
  build_query "clients" "revenue" "stage" [] 10
  = build_query "clients" "revenue" "month" [] 10.
Proof.
  destruct (query_builder_accepts_every_request "top" "clients" "revenue" "stage" [] 10)
    as (_ & _ & H & _).
  apply (H "month"); reflexivity.
Defined.

(** C1 as stated fails: the requests (clients, win_rate) and (clients,
    revenue, dimension stage) are compiled to a query text; nothing named
    [UnsupportedCombination] is raised, and with a database that answers
    the text the call returns its data. *)
Lemma unsupported_combination_is_not_raised :
  compile "top" "clients" "win_rate" "client_name" [] 10 = Ok win_rate_of_clients /\
  (forall msg, compile "top" "clients" "win_rate" "client_name" [] 10
               <> Raise (Exception "UnsupportedCombination" msg)) /\
  compile "top" "clients" "revenue" "stage" [] 10 = Ok revenue_of_clients /\
  create_custom_visualization (chart := unit)
    (fun query => Ok [query]) (fun _ => true) (fun _ _ _ _ => Ok tt)
    "top" "clients" "revenue" "stage" [] 10
  = Visualization [revenue_of_clients] None revenue_of_clients.
Proof.
  split; [reflexivity |]. split; [discriminate |]. split; reflexivity.
Qed.

(** *** The two guarded ratios *)

Lemma is_positive_spec (a : option num) :
  is_positive a = true ->
  exists r, a = Some r /\ (0 < to_real r)%Q /\ Qeq_bool (to_real r) 0 = false /\
            (forall z, r = Int z -> (z =? 0) = false).
Proof.
  destruct a as [r|]; [|discriminate]. cbn [is_positive].
  intros H. exists r. split; [reflexivity |].
  assert (0 < to_real r)%Q as Hr.
  { destruct r as [z|q]; cbn [to_real].
    - apply Z.ltb_lt in H. unfold Qlt, inject_Z. cbn. lia.
    - apply Qnot_le_lt. intros Hle. apply Qle_bool_iff in Hle. rewrite Hle in H.
      discriminate. }
  split; [exact Hr |]. split.
  - destruct (Qeq_bool (to_real r) 0) eqn:E; [|reflexivity].
    apply Qeq_bool_eq in E. rewrite E in Hr. now apply Qlt_irrefl in Hr.
  - intros z ->. apply Z.ltb_lt in H. apply Z.eqb_neq. lia.
Qed.

Lemma count_stage_bounds (name : string) (g : list opportunity) :
  0 <= count_stage name g <= total_count g.
Proof.
  unfold count_stage, total_count. split; [lia |].
  apply inj_le, List.filter_length_le.
Qed.

Lemma win_rate_of_rows (g : list opportunity) :
  g <> [] ->
  win_rate g = Some (Real (inject_Z (won_count g) * 100 / inject_Z (total_count g))).
Proof.
  intros Hne. unfold win_rate.
  assert (0 < total_count g) as Hpos.
  { unfold total_count. destruct g; [contradiction | cbn; lia]. }
  apply Z.ltb_lt in Hpos as Hb. rewrite Hb.
  unfold sql_div, lift2, mul, arith. cbn [to_real].
  destruct (Qeq_bool (inject_Z (total_count g)) 0) eqn:E; [|reflexivity].
  apply Qeq_bool_eq in E. unfold Qeq in E. cbn in E. lia.
Qed.

(** C5, where the code leaves the claim.  The win rate that the query
    computes for a group with rows is won_count x 100 / COUNT( * ), every
    opportunity of the group counted, the open ones too; for a group with
    one won and one open opportunity it is 50, where won_count over the
    closed opportunities gives 100.  The profit margin has no real
    literal: on integer sums its quotient is an integer, so a profit of
    100 on a revenue of 200 gives 0 and not 50, which the same rows give
    when the columns hold reals. *)
Theorem ratios_of_the_query (g : list opportunity) :
  (g <> [] ->
   win_rate g = Some (Real (inject_Z (won_count g) * 100 / inject_Z (total_count g)))) /\
  (g = [] -> win_rate g = Some (Int 0)) /\
  In ("CASE WHEN COUNT(*) > 0 THEN (COUNT(CASE WHEN o.stage = 'Closed Won' THEN 1 END)"
      +:+ " * 100.0 / COUNT(*)) ELSE 0 END as win_rate")
     (select_clause (build_clauses "opportunities" "win_rate" "month" [])) /\
  (let g := [ {| stage := Some "Closed Won" |}; {| stage := Some "Proposal" |} ] in
   Spec.total_closed_count g = 1 /\
   (Spec.win_rate g == 100)%Q /\
   exists q, win_rate g = Some (Real q) /\ (q == 50)%Q) /\
  profit_margin
    [ {| revenue := Some (Int 200); trainer_cost := Some (Int 100);
         logistics_cost := Some (Int 0); venue_cost := Some (Int 0);
         utilities_cost := Some (Int 0); materials_cost := Some (Int 0) |} ]
  = Some (Int 0) /\
  exists q,
    profit_margin
      [ {| revenue := Some (Real 200); trainer_cost := Some (Real 100);
           logistics_cost := Some (Real 0); venue_cost := Some (Real 0);
           utilities_cost := Some (Real 0); materials_cost := Some (Real 0) |} ]
    = Some (Real q) /\ (q == 50)%Q.
Proof.
  split; [apply win_rate_of_rows |].
  split; [now intros -> |].
  split; [vm_compute; tauto |].
  split.
  { cbv zeta. split; [reflexivity |]. split; [reflexivity |].
    eexists. split; reflexivity. }
  split; [reflexivity |].
  eexists. split; reflexivity.
Qed.

End QueryBuilder.

(** ** The number and the tokens of a prompt *)

Section Numbers.
Import Text Re Py PromptAnalyzer Views Requests.

Lemma star_all {A : Type} (p : ascii -> bool) (s : string) (f : string -> A) :
  star p s (fun w _ => Some (f w)) = Some (f (take_while p s)).
Proof.
  revert f. induction s as [|c s IH]; intros f; [reflexivity |].
  cbn [star take_while]. destruct (p c); [|reflexivity].
  now rewrite (IH (fun w => f (String c w))).
Qed.

Lemma search_digits (text : string) :
  search false digits_pattern text = first_digits text.
Proof.
  induction text as [|c text IH]; [reflexivity |].
  cbn [search first_digits]. unfold match_here, digits_pattern. cbn [run].
  destruct (isdigit c) eqn:Hc.
  - rewrite (star_all isdigit text (fun w => String c w)).
    unfold take_digits. cbn [take_while]. now rewrite Hc.
  - exact IH.
Qed.

Lemma first_digits_none (text : string) :
  first_digits text = None <-> all_chars not_digit text = true.
Proof.
  unfold not_digit. induction text as [|c text IH]; cbn [first_digits all_chars];
    [tauto |].
  destruct (isdigit c); cbn [negb andb]; [split; discriminate | exact IH].
Qed.

Lemma take_digits_spec (s : string) :
  exists post, s = take_digits s +:+ post /\
               all_chars isdigit (take_digits s) = true /\
               (forall c, head post = Some c -> isdigit c = false).
Proof.
  unfold take_digits.
  induction s as [|c s (post & E & Hd & Hp)]; cbn [take_while].
  - exists EmptyString. repeat split. discriminate.
  - destruct (isdigit c) eqn:Hc.
    + exists post. rewrite append_cons, <- E. cbn [all_chars]. rewrite Hc, Hd. auto.
    + exists (String c s). repeat split. now intros c' [= <-].
Qed.

Lemma first_digits_spec (text g : string) :
  first_digits text = Some g ->
  exists pre post,
    text = pre +:+ g +:+ post /\
    all_chars not_digit pre = true /\
    all_chars isdigit g = true /\ g <> EmptyString /\
    (forall c, head post = Some c -> isdigit c = false).
Proof.
  induction text as [|c text IH]; cbn [first_digits]; [discriminate |].
  destruct (isdigit c) eqn:Hc.
  - intros [= <-]. destruct (take_digits_spec (String c text)) as (post & E & Hd & Hp).
    exists EmptyString, post. repeat split; try assumption.
    unfold take_digits. cbn [take_while]. rewrite Hc. discriminate.
  - intros (pre & post & -> & Hpre & Hg & Hne & Hp)%IH.
    exists (String c pre), post. repeat split; try assumption.
    cbn [all_chars]. unfold not_digit at 1. now rewrite Hc.
Qed.

Lemma lower_char_digit (c : ascii) : isdigit (lower_char c) = isdigit c.
Proof. destruct c as [[] [] [] [] [] [] [] []]; reflexivity. Qed.

Lemma all_chars_lower_digit (s : string) :
  all_chars not_digit (lower s) = all_chars not_digit s.
Proof.
  induction s as [|c s IH]; [reflexivity |]. cbn [lower all_chars].
  unfold not_digit at 1 3. now rewrite lower_char_digit, IH.
Qed.

Lemma matches_holds_capture (ic : bool) (p : ascii -> bool) (r : regex)
    (w cap g : string) :
  matches ic r w cap g -> captures_class p r ->
  exists a b, w = a +:+ g +:+ b /\ all_chars p g = true /\ g <> EmptyString.
Proof.
  induction 1 as [| | | | | r1 r2 w1 w2 cap cap1 cap2 _ _ _ IH2 | r w cap cap' Hm _];
    cbn [captures_class]; try tauto.
  - intros (a & b & -> & Hg & Hne)%IH2. exists (w1 +:+ a), b.
    rewrite !append_assoc. auto.
  - destruct r; try tauto. intros ->. inversion Hm; subst.
    exists EmptyString, EmptyString. rewrite append_empty_r. auto.
Qed.

Lemma no_digit_no_occurrence (ic : bool) (r : regex) (s g : string) :
  captures_class isdigit r -> occurs ic r s g -> all_chars not_digit s = false.
Proof.
  intros Hr (pre & w & post & -> & Hm).
  destruct (matches_holds_capture ic isdigit r w _ g Hm Hr) as (a & b & -> & Hg & Hne).
  rewrite !all_chars_app. destruct g as [|c g]; [congruence |].
  cbn [all_chars] in *. apply andb_prop in Hg as [Hc _].
  unfold not_digit at 3. rewrite Hc. cbn. now rewrite !andb_false_r.
Qed.

(** X1.  [extract_number] finds no number exactly when the text has no
    digit, and a number it finds is never negative: a sign before the
    digits is not read. *)
Theorem extract_number_none_iff_no_digit (text : string) :
  (extract_number text = Ok None <-> all_chars not_digit text = true) /\
  (forall n, extract_number text = Ok (Some n) -> 0 <= n).
Proof.
  split; [|intros n; apply extract_number_nonneg].
  unfold extract_number. rewrite search_digits. split.
  - destruct (search false top_n_pattern (lower text)) as [g|];
      [destruct (int g); discriminate |].
    destruct (first_digits text) as [g|] eqn:E; [destruct (int g); discriminate |].
    intros _. now apply first_digits_none.
  - intros H. destruct (search false top_n_pattern (lower text)) as [g|] eqn:S.
    + apply search_sound in S.
      apply (no_digit_no_occurrence false) in S; [|reflexivity].
      rewrite all_chars_lower_digit in S. congruence.
    + apply first_digits_none in H. now rewrite H.
Qed.

(** X2.  Without a [top N] phrase, the number of a text is its first run
    of digits, taken whole and read in base ten: nothing but characters
    that are no digits comes before it, and no digit follows it. *)
Theorem extract_number_first_run (text : string) (n : Z) :
  search false top_n_pattern (lower text) = None ->
  extract_number text = Ok (Some n) ->
  exists pre g post,
    text = pre +:+ g +:+ post /\
    all_chars not_digit pre = true /\
    all_chars isdigit g = true /\ g <> EmptyString /\
    (forall c, head post = Some c -> isdigit c = false) /\
    n = int_of_digits g.
Proof.
  intros Htop. unfold extract_number. rewrite Htop, search_digits.
  destruct (first_digits text) as [g|] eqn:E; [|discriminate].
  destruct (int g) as [m|] eqn:Hi; cbn [mbind result_bind]; [|discriminate].
  intros [= <-]. apply int_ok in Hi as [-> _].
  destruct (first_digits_spec text g E) as (pre & post & H).
  exists pre, g, post. tauto.
Qed.

Lemma extract_number_first_run_witness :
  exists pre g post,
    "show 12 of the 345 clients" = pre +:+ g +:+ post /\
    all_chars not_digit pre = true /\
    all_chars isdigit g = true /\ g <> EmptyString /\
    (forall c, head post = Some c -> isdigit c = false) /\
    12 = int_of_digits g.
Proof.
  apply (extract_number_first_run "show 12 of the 345 clients" 12);
    vm_compute; reflexivity.
Defined.

Lemma all_chars_rev_app (p : ascii -> bool) (a b : string) :
  all_chars p (String.rev_app a b) = all_chars p a && all_chars p b.
Proof.
  revert b. induction a as [|c a IH]; intros b; [reflexivity |].
  cbn [String.rev_app all_chars]. rewrite IH. cbn [all_chars].
  destruct (p c), (all_chars p a), (all_chars p b); reflexivity.
Qed.

Lemma rev_app_nonempty (a b : string) :
  b <> EmptyString -> String.rev_app a b <> EmptyString.
Proof.
  revert b. induction a as [|c a IH]; intros b Hb; [exact Hb |].
  cbn [String.rev_app]. apply IH. discriminate.
Qed.

Lemma rev_nonempty (a : string) : a <> EmptyString -> String.rev a <> EmptyString.
Proof.
  destruct a as [|c a]; [congruence |]. intros _. unfold String.rev.
  cbn [String.rev_app]. apply rev_app_nonempty. discriminate.
Qed.

Lemma split_go_tokens (p : ascii -> bool) (s cur token : string) :
  all_chars p s = true -> all_chars p cur = true ->
  all_chars (fun c => negb (isspace c)) cur = true ->
  In token (split_go cur s) ->
  token <> EmptyString /\
  all_chars (fun c => negb (isspace c)) token = true /\ all_chars p token = true.
Proof.
  revert cur. induction s as [|c s IH]; intros cur Hs Hcur Hsp; cbn [split_go].
  - destruct cur as [|d cur]; [intros [] |]. intros [<- | []].
    split; [now apply rev_nonempty |]. unfold String.rev.
    rewrite !all_chars_rev_app, Hcur, Hsp. auto.
  - cbn [all_chars] in Hs. apply andb_prop in Hs as [Hc Hs].
    destruct (isspace c) eqn:Hw.
    + destruct cur as [|d cur]; [now apply IH |].
      intros [<- | Hin]; [|now apply (IH EmptyString)].
      split; [now apply rev_nonempty |]. unfold String.rev.
      rewrite !all_chars_rev_app, Hcur, Hsp. auto.
    + apply IH; [exact Hs | cbn [all_chars]; now rewrite Hc | cbn [all_chars]; now rewrite Hw].
Qed.

Lemma lower_char_not_upper (c : ascii) : in_range 65 90 (lower_char c) = false.
Proof. destruct c as [[] [] [] [] [] [] [] []]; reflexivity. Qed.

Lemma replace_punct_lower_chars (s : string) :
  all_chars (fun c => negb (ispunct c) && negb (in_range 65 90 c))
    (replace_punct (lower s)) = true.
Proof.
  induction s as [|c s IH]; [reflexivity |].
  cbn [lower replace_punct all_chars]. rewrite IH, andb_true_r.
  destruct (ispunct (lower_char c)) eqn:Hp; [reflexivity |].
  now rewrite Hp, lower_char_not_upper.
Qed.

(** X3.  Every token of [simple_tokenize] is a non-empty word without
    white space, without a character of [string.punctuation] and without
    an upper-case letter A to Z. *)
Theorem simple_tokenize_tokens (text token : string) :
  In token (simple_tokenize text) ->
  token <> EmptyString /\ all_chars token_char token = true.
Proof.
  intros Hin. unfold simple_tokenize in Hin.
  destruct (split_go_tokens _ _ EmptyString token
              (replace_punct_lower_chars text) eq_refl eq_refl Hin) as (Hne & Hsp & Hp).
  split; [exact Hne |]. clear Hin Hne.
  induction token as [|c token IH]; [reflexivity |].
  cbn [all_chars] in *. apply andb_prop in Hsp as [Hc1 Hs1], Hp as [Hc2 Hs2].
  unfold token_char at 1. rewrite Hc1, (IH Hs1 Hs2).
  now destruct (ispunct c), (in_range 65 90 c).
Qed.

Lemma simple_tokenize_tokens_witness :
  In "top" (simple_tokenize "Show me: the TOP-5 clients!") /\
  "top" <> EmptyString /\ all_chars token_char "top" = true.
Proof.
  assert (In "top" (simple_tokenize "Show me: the TOP-5 clients!")) as Hin.
  { vm_compute. tauto. }
  split; [exact Hin |].
  exact (simple_tokenize_tokens "Show me: the TOP-5 clients!" "top" Hin).
Defined.

End Numbers.

(** ** What the resolver can and cannot return *)

Section ResolverRanges.
Import Text Re Py PromptAnalyzer Views Requests.

Lemma apply_all_preserves {S : Type} (P : S -> Prop) (body : string -> S -> result S)
    (l : list string) (s s' : S) :
  (forall c s1 s2, body c s1 = Ok s2 -> P s1 -> P s2) ->
  apply_all body l s = Ok s' -> P s -> P s'.
Proof.
  intros Hbody. revert s. induction l as [|c l IH]; intros s; cbn [apply_all].
  - now intros [= <-].
  - destruct (body c s) as [s1|] eqn:E; cbn [mbind result_bind]; [|discriminate].
    intros H Hs. apply (IH s1 H). now apply (Hbody c s).
Qed.

Lemma pass_preserves {S : Type} (P : S -> Prop) (table : lexicon) (text : string)
    (body : string -> S -> result S) (s s' : S) :
  (forall c s1 s2, body c s1 = Ok s2 -> P s1 -> P s2) ->
  for_categories table text body s = Ok s' -> P s -> P s'.
Proof. rewrite for_categories_matching. apply apply_all_preserves. Qed.

Lemma ranges_set_metric (v : string) (s : gmap string value) :
  In v resolver_metrics -> in_ranges s -> in_ranges (<["metric" := VStr v]> s).
Proof.
  intros Hv (m & d & q & Hm & Him & Hd & Hid & Hq & Hiq).
  exists v, d, q. lookups. auto 10.
Qed.

Lemma ranges_set_dimension (v : string) (s : gmap string value) :
  In v resolver_dimensions -> in_ranges s -> in_ranges (<["dimension" := VStr v]> s).
Proof.
  intros Hv (m & d & q & Hm & Him & Hd & Hid & Hq & Hiq).
  exists m, v, q. lookups. auto 10.
Qed.

Lemma ranges_set_query_type (v : string) (s : gmap string value) :
  In v resolver_query_types -> in_ranges s -> in_ranges (<["query_type" := VStr v]> s).
Proof.
  intros Hv (m & d & q & Hm & Him & Hd & Hid & Hq & Hiq).
  exists m, d, v. lookups. auto 10.
Qed.

Lemma ranges_set_other (k : string) (v : value) (s : gmap string value) :
  k <> "metric" -> k <> "dimension" -> k <> "query_type" ->
  in_ranges s -> in_ranges (<[k := v]> s).
Proof.
  intros H1 H2 H3 (m & d & q & Hm & Him & Hd & Hid & Hq & Hiq).
  exists m, d, q. rewrite !lookup_insert_ne by congruence. auto 10.
Qed.

Ltac ranges :=
  repeat first
    [ assumption
    | apply ranges_set_metric; [cbn; tauto |]
    | apply ranges_set_dimension; [cbn; tauto |]
    | apply ranges_set_query_type; [cbn; tauto |]
    | apply ranges_set_other; [discriminate | discriminate | discriminate |] ].

Lemma entity_body_ranges (c : string) (s s' : gmap string value) :
  entity_body c s = Ok s' -> in_ranges s -> in_ranges s'.
Proof. unfold entity_body. branches; intros [= <-] H; ranges. Qed.

Lemma metric_body_ranges (text c : string) (s s' : gmap string value) :
  metric_body text c s = Ok s' -> in_ranges s -> in_ranges s'.
Proof.
  unfold metric_body. destruct (getitem s "entity_type"); cbn [mbind result_bind];
    branches; intros [= <-] H; ranges.
Qed.

Lemma dimension_body_ranges (c : string) (s s' : gmap string value) :
  dimension_body c s = Ok s' -> in_ranges s -> in_ranges s'.
Proof. unfold dimension_body. branches; intros [= <-] H; ranges. Qed.

Lemma query_type_body_ranges (c : string) (s s' : gmap string value) :
  query_type_body c s = Ok s' -> in_ranges s -> in_ranges s'.
Proof. unfold query_type_body. branches; intros [= <-] H; ranges. Qed.

Lemma in_ranges_filters (s s' : gmap string value) :
  (forall k, k <> "filters" -> s' !! k = s !! k) -> in_ranges s -> in_ranges s'.
Proof.
  intros K (m & d & q & Hm & Him & Hd & Hid & Hq & Hiq).
  exists m, d, q. rewrite !K by discriminate. auto 10.
Qed.

Lemma analyze_prompt_in_ranges (prompt : string) (params : gmap string value) :
  analyze_prompt prompt = Ok params -> in_ranges params.
Proof.
  intros Ha. destruct (analyze_prompt_number prompt params Ha) as [limit Hn]. revert Ha.
  destruct (analyze_prompt_passes prompt limit Hn)
    as (p1 & p2 & p3 & p4 & p5 & p6 & E1 & E2 & E3 & E4 & E5 & E6 & E & _).
  rewrite E. intros [= <-].
  apply (in_ranges_filters p4).
  { intros k Hk. rewrite (filter_pass_keeps k prompt Hk _ _ E6).
    now rewrite (pass_keeps k _ _ _ (fun c => time_period_body_keeps k c Hk) _ _ E5). }
  apply (pass_preserves in_ranges _ _ _ _ _ query_type_body_ranges E4).
  apply (pass_preserves in_ranges _ _ _ _ _ dimension_body_ranges E3).
  apply (pass_preserves in_ranges _ _ _ _ _ (metric_body_ranges (lower prompt)) E2).
  apply (pass_preserves in_ranges _ _ _ _ _ entity_body_ranges E1).
  rewrite set_limit_spec by reflexivity.
  apply ranges_set_other; try discriminate.
  exists "revenue", "program_name", "top". unfold default_params. lookups.
  cbn. auto 20.
Qed.

(** X4.  Whatever the prompt, a dictionary that the resolver returns
    holds one of eight metrics, one of eight dimensions and one of six
    query types: it never holds the metrics [win_rate] and
    [pipeline_value] nor the dimensions [stage] and [cost_type], which only
    the templates name. *)
Theorem resolver_ranges (prompt : string) (params : gmap string value) :
  analyze_prompt prompt = Ok params ->
  in_ranges params /\
  params !! "metric" <> Some (VStr "win_rate") /\
  params !! "metric" <> Some (VStr "pipeline_value") /\
  params !! "dimension" <> Some (VStr "stage") /\
  params !! "dimension" <> Some (VStr "cost_type").
Proof.
  intros E.
  pose proof (analyze_prompt_in_ranges prompt params E) as H.
  split; [exact H |].
  destruct H as (m & d & q & Hm & Him & Hd & Hid & _).
  rewrite Hm, Hd. cbn [resolver_metrics resolver_dimensions In] in Him, Hid.
  repeat split; intros [= ->]; intuition discriminate.
Qed.

Lemma resolver_ranges_witness :
  exists params,
    analyze_prompt "What is the win rate by stage of the pipeline?" = Ok params /\
    in_ranges params /\
    params !! "metric" <> Some (VStr "win_rate") /\
    params !! "metric" <> Some (VStr "pipeline_value") /\
    params !! "dimension" <> Some (VStr "stage") /\
    params !! "dimension" <> Some (VStr "cost_type").
Proof.
  destruct (analyze_prompt_returns "What is the win rate by stage of the pipeline?" None
              ltac:(vm_compute; reflexivity)) as [params E].
  exists params. split; [exact E |].
  apply (resolver_ranges "What is the win rate by stage of the pipeline?" params E).
Defined.

(** *** The filters of the result *)

Lemma odict_set_keys (k v : string) (d : odict) (x : string) :
  In x (map fst (odict_set k v d)) -> x = k \/ In x (map fst d).
Proof.
  induction d as [|[k' v'] d IH]; cbn [odict_set map fst In].
  - intros [<- | []]. now left.
  - destruct (String.eqb_spec k' k) as [-> | Hne]; cbn [map fst In].
    + intros [<- | H]; auto.
    + intros [<- | H]; [auto |]. destruct (IH H); auto.
Qed.

Lemma setitem2_known_keys (key v : string) (s s' : gmap string value) :
  In key filter_keys ->
  setitem2 s "filters" key v = Ok s' -> known_keys s -> known_keys s'.
Proof.
  intros Hkey. unfold setitem2, getitem, known_keys.
  destruct (s !! "filters") as [[| |f0]|] eqn:E; cbn [mbind result_bind]; try discriminate.
  intros [= <-] H f. rewrite lookup_insert_eq. intros [= <-] k Hk.
  apply odict_set_keys in Hk as [-> | Hk]; [exact Hkey | now apply (H f0)].
Qed.

Lemma time_period_body_filters (c : string) (s s' : gmap string value) :
  time_period_body c s = Ok s' ->
  known_keys s /\ dates_paired s -> known_keys s' /\ dates_paired s'.
Proof.
  assert (forall a b, set_dates a b s = Ok s' ->
            known_keys s -> known_keys s' /\ dates_paired s') as Hset.
  { intros a b E Hk. split.
    - unfold set_dates in E.
      destruct (setitem2 s "filters" "date_from" a) as [s1|] eqn:E1;
        cbn [mbind result_bind] in E; [|discriminate].
      apply (setitem2_known_keys "date_to" b s1 s'); [cbn; tauto | exact E |].
      apply (setitem2_known_keys "date_from" a s s1); [cbn; tauto | exact E1 | exact Hk].
    - apply set_dates_filter_of in E as (Ha & Hb & _). unfold dates_paired.
      rewrite Ha, Hb. split; discriminate. }
  unfold time_period_body. branches; try (intros E [Hk _]; now apply (Hset _ _ E)).
  now intros [= <-].
Qed.

Lemma filter_step_filters (r : regex) (key prompt : string) (s s' : gmap string value) :
  In key ["industry"; "region"; "size"; "category"; "delivery_mode"; "stage"] ->
  filter_step r key prompt s = Ok s' ->
  known_keys s /\ dates_paired s -> known_keys s' /\ dates_paired s'.
Proof.
  intros Hkey E [Hk Hd]. split.
  - unfold filter_step in E. destruct (search true r prompt) as [g|].
    + apply (setitem2_known_keys key (strip g) s s'); [|exact E | exact Hk].
      cbn in Hkey |- *. tauto.
    + now injection E as <-.
  - apply filter_step_filter_of in E as (_ & _ & F). unfold dates_paired.
    rewrite !F; [exact Hd | |]; intros ->; cbn in Hkey; intuition discriminate.
Qed.

(** X5.  The filters that [analyze_prompt] returns hold only keys that
    the query builder knows; [date_from] and [date_to] are present
    together or not at all, and they are present exactly when a
    time-period phrase occurs in the prompt. *)
Theorem resolver_filters (prompt : string) (params : gmap string value) :
  analyze_prompt prompt = Ok params ->
  exists f,
    params !! "filters" = Some (VDict f) /\
    (forall k, In k (map fst f) -> In k filter_keys) /\
    (odict_get "date_from" f = None <-> odict_get "date_to" f = None) /\
    (odict_get "date_from" f = None <-> matching time_periods (lower prompt) = []).
Proof.
  intros Ha. destruct (analyze_prompt_number prompt params Ha) as [limit Hn].
  destruct (analyze_prompt_passes prompt limit Hn)
    as (p1 & p2 & p3 & p4 & p5 & p6 & E1 & E2 & E3 & E4 & E5 & E6 & E & _ & _ & _ & _ & _ & H6).
  rewrite E in Ha. injection Ha as <-.
  destruct H6 as (qt & et & m & d & l & f & _ & _ & _ & _ & _ & Hf & _).
  exists f. split; [exact Hf |].
  assert (p4 !! "filters" = Some (VDict [])) as H4.
  { rewrite (pass_keeps "filters" _ _ _
               (fun c => query_type_body_keeps "filters" c ltac:(discriminate)) _ _ E4).
    rewrite (pass_keeps "filters" _ _ _
               (fun c => dimension_body_keeps "filters" c ltac:(discriminate)
                           ltac:(discriminate)) _ _ E3).
    rewrite (pass_keeps "filters" _ _ _
               (fun c => metric_body_keeps "filters" _ c ltac:(discriminate)
                           ltac:(discriminate) ltac:(discriminate)) _ _ E2).
    rewrite (pass_keeps "filters" _ _ _
               (fun c => entity_body_keeps "filters" c ltac:(discriminate)
                           ltac:(discriminate)) _ _ E1).
    unfold set_limit. destruct limit as [n|]; [destruct (n =? 0) |];
      reflexivity. }
  assert (known_keys p5 /\ dates_paired p5) as H5.
  { apply (pass_preserves (fun s => known_keys s /\ dates_paired s) _ _ _ _ _
             time_period_body_filters E5).
    split.
    - intros f0. rewrite H4. intros [= <-] k [].
    - unfold dates_paired, filter_of. rewrite H4. tauto. }
  assert (known_keys p6 /\ dates_paired p6) as [Hk Hd].
  { pose proof E6 as E6'. revert E6' H5. unfold filter_pass.
    destruct (filter_step _ "industry" prompt p5) as [q1|] eqn:S1;
      cbn [mbind result_bind]; [|discriminate].
    destruct (filter_step _ "region" prompt q1) as [q2|] eqn:S2;
      cbn [mbind result_bind]; [|discriminate].
    destruct (filter_step _ "size" prompt q2) as [q3|] eqn:S3;
      cbn [mbind result_bind]; [|discriminate].
    destruct (filter_step _ "category" prompt q3) as [q4|] eqn:S4;
      cbn [mbind result_bind]; [|discriminate].
    destruct (filter_step _ "delivery_mode" prompt q4) as [q5|] eqn:S5;
      cbn [mbind result_bind]; [|discriminate].
    intros S6 H5.
    apply (filter_step_filters _ "stage" _ _ _ ltac:(cbn; tauto) S6).
    apply (filter_step_filters _ "delivery_mode" _ _ _ ltac:(cbn; tauto) S5).
    apply (filter_step_filters _ "category" _ _ _ ltac:(cbn; tauto) S4).
    apply (filter_step_filters _ "size" _ _ _ ltac:(cbn; tauto) S3).
    apply (filter_step_filters _ "region" _ _ _ ltac:(cbn; tauto) S2).
    apply (filter_step_filters _ "industry" _ _ _ ltac:(cbn; tauto) S1). exact H5. }
  split; [now apply Hk |].
  unfold dates_paired, filter_of in Hd. rewrite Hf in Hd. split; [exact Hd |].
  assert (odict_get "date_from" f = filter_of p5 "date_from") as ->.
  { rewrite <- (filter_pass_keeps_dates prompt "date_from" p5 p6) by auto.
    unfold filter_of. now rewrite Hf. }
  destruct (matching time_periods (lower prompt)) as [|c0 l0] eqn:Hm.
  - split; [reflexivity | intros _].
    unfold time_period_pass in E5. rewrite for_categories_matching, Hm in E5.
    injection E5 as <-. unfold filter_of. now rewrite H4.
  - split; [|discriminate]. intros Hnone. exfalso.
    assert (exists c, last_of (matching time_periods (lower prompt)) = Some c) as [c Hc].
    { rewrite Hm. clear. revert c0. induction l0 as [|x l0 IH]; intros c0; [now exists c0 |].
      destruct (IH x) as [c Hc]. exists c. exact Hc. }
    destruct (time_period_pass_last prompt c p4 p5 Hc E5) as [Ha _]. congruence.
Qed.

Lemma resolver_filters_witness :
  exists params f,
    analyze_prompt "enrollments of last year where region is Asia" = Ok params /\
    params !! "filters" = Some (VDict f) /\
    (forall k, In k (map fst f) -> In k filter_keys) /\
    (odict_get "date_from" f = None <-> odict_get "date_to" f = None) /\
    (odict_get "date_from" f = None
     <-> matching time_periods (lower "enrollments of last year where region is Asia")
         = []).
Proof.
  destruct (analyze_prompt_returns "enrollments of last year where region is Asia" None
              ltac:(vm_compute; reflexivity)) as [params E].
  destruct (resolver_filters "enrollments of last year where region is Asia" params E)
    as [f H].
  exists params, f. split; [exact E | exact H].
Defined.

End ResolverRanges.

(** ** From the prompt to the request *)

Section ProcessPrompt.
Import Text Re Py PromptAnalyzer Views Requests.

Lemma startswith_append (a b : string) : startswith a (a +:+ b) = true.
Proof.
  induction a as [|c a IH]; [reflexivity |].
  rewrite append_cons. cbn [startswith]. now rewrite Ascii.eqb_refl.
Qed.

Lemma requestable_generate_title (d : gmap string value) :
  requestable d -> exists title, generate_title d = Ok title.
Proof.
  intros ((qt & et & m & dim & Hqt & Het & Hm & Hd) & _).
  unfold generate_title, getitem. rewrite Hqt, Het, Hm, Hd.
  cbn [mbind result_bind capitalize_value].
  destruct (eq_str (VStr qt) "top" || eq_str (VStr qt) "bottom");
    [destruct (d !! "limit") |]; cbn [mbind result_bind];
    destruct (eq_str (VStr dim) "client_name" || eq_str (VStr dim) "program_name");
    cbn [mbind result_bind]; eauto.
Qed.

Lemma populated_requestable (d : gmap string value) : populated d -> requestable d.
Proof.
  intros (qt & et & m & dim & l & f & Hqt & Het & Hm & Hd & Hl & Hf & _).
  split; [|split]; eauto 10.
Qed.

(** X6.  [generate_title] succeeds on every result of [analyze_prompt],
    and the title starts with the label of the query type. *)
Theorem resolver_title (prompt : string) (params : gmap string value) :
  analyze_prompt prompt = Ok params ->
  exists title query_type label,
    generate_title params = Ok title /\
    params !! "query_type" = Some (VStr query_type) /\
    odict_get query_type query_type_map = Some label /\
    startswith label title = true.
Proof.
  intros Ha. destruct (analyze_prompt_number prompt params Ha) as [limit Hn].
  destruct (analyze_prompt_passes prompt limit Hn)
    as (p1 & p2 & p3 & p4 & p5 & p & _ & _ & _ & _ & _ & _ & E & _ & _ & _ & _ & _ & H).
  rewrite E in Ha. injection Ha as <-.
  pose proof (analyze_prompt_in_ranges prompt p E) as (m' & d' & qt & _ & _ & _ & _ & Hq & Hiq).
  destruct H as (qt0 & et & m & dim & l & f & Hqt & Het & Hm & Hd & Hl & _).
  rewrite Hqt in Hq. injection Hq as <-.
  assert (exists label, odict_get qt0 query_type_map = Some label) as [label Hlabel].
  { cbn [resolver_query_types In] in Hiq.
    repeat (destruct Hiq as [<- | Hiq]); [.. | destruct Hiq]; eexists; reflexivity. }
  assert (exists rest, generate_title p = Ok (label +:+ rest)) as [rest Ht].
  { unfold generate_title, getitem. rewrite Hqt, Het, Hm, Hd, Hl.
    cbn [mbind result_bind capitalize_value lookup_value]. rewrite Hlabel.
    destruct (eq_str (VStr qt0) "top" || eq_str (VStr qt0) "bottom");
      cbn [mbind result_bind];
      destruct (eq_str (VStr dim) "client_name" || eq_str (VStr dim) "program_name");
      cbn [mbind result_bind];
      destruct (odict_get m metric_map);
      destruct (odict_get dim dimension_map) as [y|]; try destruct (String.eqb y EmptyString);
      cbn [app join]; eexists; try reflexivity;
      (instantiate (1 := EmptyString); now rewrite append_empty_r). }
  exists (label +:+ rest), qt0, label.
  repeat split; try assumption. apply startswith_append.
Qed.

Lemma resolver_title_witness :
  exists params title query_type label,
    analyze_prompt "compare the profit margins of the 3 regions" = Ok params /\
    generate_title params = Ok title /\
    params !! "query_type" = Some (VStr query_type) /\
    odict_get query_type query_type_map = Some label /\
    startswith label title = true.
Proof.
  destruct (analyze_prompt_returns "compare the profit margins of the 3 regions" (Some 3)
              ltac:(vm_compute; reflexivity)) as [params E].
  destruct (resolver_title "compare the profit margins of the 3 regions" params E)
    as (title & query_type & label & H).
  exists params, title, query_type, label. split; [exact E | exact H].
Defined.

Lemma dict_truthy_lookup (d : gmap string value) (k : string) (v : value) :
  d !! k = Some v -> dict_truthy d = true.
Proof.
  intros H. unfold dict_truthy. apply negb_true_iff, bool_decide_eq_false.
  intros ->. now rewrite lookup_empty in H.
Qed.

Lemma requestable_set_limit (limit : option Z) (d : gmap string value) :
  requestable d -> requestable (set_limit limit d).
Proof.
  intros H. unfold set_limit. destruct limit as [n|]; [|exact H].
  destruct (n =? 0); [exact H |].
  destruct H as ((qt & et & m & dim & Hqt & Het & Hm & Hd) & Hf & Hl).
  split; [|split].
  - exists qt, et, m, dim. lookups. auto.
  - destruct Hf as [Hf | [f Hf]]; [left | right; exists f]; now lookups.
  - right. exists n. now lookups.
Qed.

Lemma first_rule_template (prompt name : string) :
  first_rule prompt = Some name ->
  exists i d,
    templates init !! name = Some i /\ heap init !! i = Some d /\
    assoc name template_table = Some d /\ requestable d /\
    is_Some (d !! "title") /\ d !! "limit" = None.
Proof.
  unfold first_rule.
  destruct (find _ template_rules) as [rule|] eqn:E; [|discriminate].
  intros [= <-]. apply find_some in E as [Hin _].
  cbn [template_rules In] in Hin.
  repeat (destruct Hin as [<- | Hin]); [.. | destruct Hin]; cbn [snd];
    eexists _, _; (split; [reflexivity |]); (split; [reflexivity |]);
    (split; [reflexivity |]); (split; [|split; [eexists; reflexivity | reflexivity]]);
    (split; [do 4 eexists; repeat split; reflexivity |]);
    (split; left; reflexivity).
Qed.

Section External.
Context {table chart : Type}.
Variable read_sql : string -> result table.
Variable empty : table -> bool.
Variable draw : string -> string -> string -> table -> result chart.
Variable new_generator : result unit.
Hypothesis generator_available : new_generator = Ok tt.

Abbreviation execute_analysis := (execute_analysis read_sql empty draw new_generator).
Abbreviation process_prompt := (process_prompt read_sql empty draw new_generator).
Abbreviation visualization := (VisualizationGenerator.create_custom_visualization
                                 read_sql empty draw).

Lemma execute_analysis_run (σ : analyzer) (l : loc) (d : gmap string value) :
  heap σ !! l = Some d -> requestable d ->
  execute_analysis l σ
  = (Ok (Analysis
           (visualization (str_field d "query_type") (str_field d "entity_type")
              (str_field d "metric") (str_field d "dimension")
              (filters_field d) (limit_field d))
           l),
     {| templates := templates σ; heap := <[l := titled d]> (heap σ) |}).
Proof.
  intros Hl Hreq. destruct (requestable_generate_title d Hreq) as [title Ht].
  destruct Hreq as ((qt & et & m & dim & Hqt & Het & Hm & Hd) & Hf & Hlim).
  unfold PromptAnalyzer.execute_analysis, try_except, mbind, St_bind, lift, deref.
  rewrite generator_available, Hl.
  assert (arg_filters (d !! "filters") = Ok (filters_field d)) as ->.
  { unfold filters_field. destruct Hf as [-> | [f ->]]; reflexivity. }
  assert (arg_limit (d !! "limit") = Ok (limit_field d)) as ->.
  { unfold limit_field. destruct Hlim as [-> | [n ->]]; reflexivity. }
  unfold getitem, str_field, titled.
  rewrite Hqt, Het, Hm, Hd. cbn [result_bind arg_str mbind].
  destruct (d !! "title") as [t|] eqn:Htitle.
  - cbn [mret St_ret]. f_equal. destruct σ as [ts h]. cbn [templates heap] in *.
    f_equal. symmetry. now apply insert_id.
  - rewrite Ht. unfold store. rewrite Hl. reflexivity.
Qed.

Lemma process_prompt_run (prompt : string) (σ : analyzer) (limit : option Z) :
  extends init σ ->
  extract_number prompt = Ok limit ->
  exists d,
    request_params prompt = Ok d /\
    process_prompt prompt σ
    = (Ok (Analysis
             (visualization (str_field d "query_type") (str_field d "entity_type")
                (str_field d "metric") (str_field d "dimension")
                (filters_field d) (limit_field d))
             (fresh (dom (heap σ)))),
       {| templates := templates σ;
          heap := <[fresh (dom (heap σ)) := titled d]> (heap σ) |}).
Proof.
  intros [Ht Hh] Hn.
  destruct (first_rule prompt) as [name|] eqn:Hrule.
  - destruct (first_rule_template prompt name Hrule)
      as (i & d & Hi & Hd & Ha & Hreq & [t Htitle] & Hlim).
    exists (set_limit limit d). split.
    { unfold request_params. now rewrite Hrule, Ha, Hn. }
    unfold PromptAnalyzer.process_prompt, try_except.
    unfold mbind at 1 2 3. unfold St_bind at 1 2 3.
    rewrite match_template_first_rule, Hrule.
    pose proof (lookup_weaken _ _ _ _ Hd Hh) as Hd'.
    unfold mbind, St_bind, template, deref, lift, mret, St_ret. rewrite Ht, Hi, Hd'.
    rewrite (dict_truthy_lookup d "title" _ Htitle). rewrite Hd'.
    unfold alloc. cbn [templates heap]. rewrite Hn.
    set (l := fresh (dom (heap σ))).
    pose proof (requestable_set_limit limit d Hreq) as Hreq'.
    unfold set_limit in *. destruct limit as [n|].
    + destruct (n =? 0).
      * rewrite (execute_analysis_run _ l d); [|apply lookup_insert_eq | exact Hreq].
        cbn [templates heap]. now rewrite ?Ht, insert_insert_eq.
      * unfold store. cbn [templates heap]. rewrite lookup_insert_eq.
        rewrite (execute_analysis_run _ l (<["limit" := VInt n]> d));
          [|apply lookup_insert_eq | exact Hreq'].
        cbn [templates heap]. now rewrite ?Ht, !insert_insert_eq.
    + rewrite (execute_analysis_run _ l d); [|apply lookup_insert_eq | exact Hreq].
      cbn [templates heap]. now rewrite ?Ht, insert_insert_eq.
  - destruct (analyze_prompt_passes prompt limit Hn)
      as (p1 & p2 & p3 & p4 & p5 & d & _ & _ & _ & _ & _ & _ & E & _ & _ & _ & _ & _ & H).
    exists d. split.
    { unfold request_params. now rewrite Hrule. }
    unfold PromptAnalyzer.process_prompt, try_except.
    unfold mbind at 1 2 3. unfold St_bind at 1 2 3.
    rewrite match_template_first_rule, Hrule.
    unfold mbind, St_bind, lift, mret, St_ret. rewrite E. unfold alloc.
    set (l := fresh (dom (heap σ))).
    rewrite (execute_analysis_run _ l d);
      [|apply lookup_insert_eq | now apply populated_requestable].
    cbn [templates heap]. now rewrite ?Ht, insert_insert_eq.
Qed.

(** When [extract_number] raises, [process_prompt] returns the error
    dictionary; the copy of a matching template has been made by then. *)
Lemma process_prompt_fails (prompt : string) (σ : analyzer) (e : exn) :
  extends init σ ->
  extract_number prompt = Raise e ->
  process_prompt prompt σ
  = (Ok (Error (str_of_exn e)),
     match first_rule prompt ≫= fun name => assoc name template_table with
     | Some d => {| templates := templates σ;
                    heap := <[fresh (dom (heap σ)) := d]> (heap σ) |}
     | None => σ
     end).
Proof.
  intros [Ht Hh] Hn.
  destruct (first_rule prompt) as [name|] eqn:Hrule; cbn [mbind option_bind].
  - destruct (first_rule_template prompt name Hrule)
      as (i & d & Hi & Hd & Ha & Hreq & [t Htitle] & Hlim).
    rewrite Ha.
    unfold PromptAnalyzer.process_prompt, try_except.
    unfold mbind at 1 2 3. unfold St_bind at 1 2 3.
    rewrite match_template_first_rule, Hrule.
    pose proof (lookup_weaken _ _ _ _ Hd Hh) as Hd'.
    unfold mbind, St_bind, template, deref, lift, mret, St_ret. rewrite Ht, Hi, Hd'.
    rewrite (dict_truthy_lookup d "title" _ Htitle). rewrite Hd'.
    unfold alloc. cbn [templates heap]. rewrite Hn. now rewrite Ht.
  - unfold PromptAnalyzer.process_prompt, try_except.
    unfold mbind at 1 2 3. unfold St_bind at 1 2 3.
    rewrite match_template_first_rule, Hrule.
    unfold mbind, St_bind, lift, mret, St_ret.
    now rewrite (analyze_prompt_raises prompt e Hn).
Qed.

(** X7.  From the analyzer as [__init__] builds it, and from every store
    reached from it, what [process_prompt] does is a function of the
    prompt.  When the number of the prompt can be read, it returns an
    analysis: the generator called with the fields of the matching
    template, its limit replaced by the number of the prompt, or else
    with the result of [analyze_prompt]; the dictionary, with a title, is
    left in one new object.  When [int] raises on the number, it returns
    the error dictionary with the message of the ValueError, and the only
    change of the store is the copy of the template, if one matched. *)
Theorem process_prompt_runs_the_request (prompt : string) (σ : analyzer) :
  extends init σ ->
  match request_params prompt with
  | Ok d =>
      process_prompt prompt σ
      = (Ok (Analysis
               (visualization (str_field d "query_type") (str_field d "entity_type")
                  (str_field d "metric") (str_field d "dimension")
                  (filters_field d) (limit_field d))
               (fresh (dom (heap σ)))),
         {| templates := templates σ;
            heap := <[fresh (dom (heap σ)) := titled d]> (heap σ) |})
  | Raise e =>
      extract_number prompt = Raise e /\
      (exists msg, e = Exception "ValueError" msg) /\
      process_prompt prompt σ
      = (Ok (Error (str_of_exn e)),
         match first_rule prompt ≫= fun name => assoc name template_table with
         | Some d => {| templates := templates σ;
                        heap := <[fresh (dom (heap σ)) := d]> (heap σ) |}
         | None => σ
         end)
  end.
Proof.
  intros Hext. destruct (extract_number prompt) as [limit|e] eqn:Hn.
  - destruct (process_prompt_run prompt σ limit Hext Hn) as (d & -> & E). exact E.
  - assert (request_params prompt = Raise e) as ->.
    { unfold request_params. destruct (first_rule prompt) as [name|] eqn:Hrule.
      - destruct (first_rule_template prompt name Hrule) as (i & d & _ & _ & -> & _).
        now rewrite Hn.
      - now apply analyze_prompt_raises. }
    split; [reflexivity |]. split; [|now apply process_prompt_fails].
    rewrite extract_number_text in Hn.
    destruct (number_text prompt) as [g|]; [|discriminate].
    destruct (int g) as [n|e'] eqn:Hi; cbn [mbind result_bind] in Hn; [discriminate |].
    injection Hn as <-. now apply int_raises in Hi as [_ Hmsg].
Qed.

(** X14.  The limit that [process_prompt] passes to the generator is the
    number of the prompt when there is one and it is not zero; otherwise
    it is 10 when a template matches, whose dictionary has no limit of its
    own, and 5 when the prompt goes through [analyze_prompt].  It is never
    below 1. *)
Theorem request_limit (prompt : string) (σ : analyzer) (limit : option Z) :
  extends init σ ->
  extract_number prompt = Ok limit ->
  exists query_type entity_type metric dimension filters l,
    (process_prompt prompt σ).1
    = Ok (Analysis
            (visualization query_type entity_type metric dimension filters
               match limit with
               | Some n =>
                   if n =? 0
                   then match first_rule prompt with Some _ => 10 | None => 5 end
                   else n
               | None => match first_rule prompt with Some _ => 10 | None => 5 end
               end)
            l) /\
    1 <= match limit with
         | Some n =>
             if n =? 0
             then match first_rule prompt with Some _ => 10 | None => 5 end
             else n
         | None => match first_rule prompt with Some _ => 10 | None => 5 end
         end.
Proof.
  intros Hext Hn.
  destruct (process_prompt_run prompt σ limit Hext Hn) as (d & Hd & ->). cbn [fst].
  assert (limit_field d
          = match limit with
            | Some n =>
                if n =? 0
                then match first_rule prompt with Some _ => 10 | None => 5 end
                else n
            | None => match first_rule prompt with Some _ => 10 | None => 5 end
            end) as <-.
  { revert Hd. unfold request_params.
    destruct (first_rule prompt) as [name|] eqn:Hrule.
    - destruct (first_rule_template prompt name Hrule) as (i & d0 & _ & _ & -> & _ & _ & Hlim).
      rewrite Hn. cbn [mbind result_bind]. intros [= <-].
      unfold set_limit, limit_field.
      destruct limit as [n|]; [destruct (n =? 0) |];
        rewrite ?lookup_insert_eq, ?Hlim; reflexivity.
    - intros E. unfold limit_field.
      now rewrite (analyze_prompt_limit prompt limit d Hn E). }
  do 6 eexists. split; [reflexivity |].
  revert Hd. unfold request_params.
  destruct (first_rule prompt) as [name|] eqn:Hrule.
  - destruct (first_rule_template prompt name Hrule) as (i & d0 & _ & _ & -> & _ & _ & Hlim).
    rewrite Hn. cbn [mbind result_bind]. intros [= <-].
    unfold set_limit, limit_field.
    destruct limit as [n|] eqn:El; [destruct (n =? 0) eqn:Hz |];
      rewrite ?lookup_insert_eq, ?Hlim; try lia.
    apply extract_number_nonneg in Hn. apply Z.eqb_neq in Hz. lia.
  - intros E. unfold limit_field.
    rewrite (analyze_prompt_limit prompt limit d Hn E).
    apply (limit_of_positive prompt limit Hn).
Qed.

End External.

Lemma process_prompt_runs_the_request_witness :
  match request_params "top clients by revenue, first 3" with
  | Ok d =>
      process_prompt (table := unit) (chart := unit)
        (fun _ => Ok tt) (fun _ => true) (fun _ _ _ _ => Ok tt) (Ok tt)
        "top clients by revenue, first 3" init
      = (Ok (Analysis
               (VisualizationGenerator.create_custom_visualization
                  (fun _ => Ok tt) (fun _ => true) (fun _ _ _ _ => Ok tt)
                  (str_field d "query_type") (str_field d "entity_type")
                  (str_field d "metric") (str_field d "dimension")
                  (filters_field d) (limit_field d))
               (fresh (dom (heap init)))),
         {| templates := templates init;
            heap := <[fresh (dom (heap init)) := titled d]> (heap init) |})
  | Raise e =>
      extract_number "top clients by revenue, first 3" = Raise e /\
      (exists msg, e = Exception "ValueError" msg) /\
      process_prompt (table := unit) (chart := unit)
        (fun _ => Ok tt) (fun _ => true) (fun _ _ _ _ => Ok tt) (Ok tt)
        "top clients by revenue, first 3" init
      = (Ok (Error (str_of_exn e)),
         match first_rule "top clients by revenue, first 3"
               ≫= fun name => assoc name template_table with
         | Some d => {| templates := templates init;
                        heap := <[fresh (dom (heap init)) := d]> (heap init) |}
         | None => init
         end)
  end.
Proof.
  apply (process_prompt_runs_the_request (table := unit) (chart := unit)
           (fun _ => Ok tt) (fun _ => true) (fun _ _ _ _ => Ok tt) (Ok tt) eq_refl
           "top clients by revenue, first 3" init).
  split; reflexivity.
Defined.

Lemma request_limit_witness :
  exists query_type entity_type metric dimension filters l,
    (process_prompt (table := unit) (chart := unit)
       (fun _ => Ok tt) (fun _ => true) (fun _ _ _ _ => Ok tt) (Ok tt)
       "revenue by industry for 0 clients" init).1
    = Ok (Analysis
            (VisualizationGenerator.create_custom_visualization
               (fun _ => Ok tt) (fun _ => true) (fun _ _ _ _ => Ok tt)
               query_type entity_type metric dimension filters
               match Some 0 with
               | Some n =>
                   if n =? 0
                   then match first_rule "revenue by industry for 0 clients" with
                        | Some _ => 10
                        | None => 5
                        end
                   else n
               | None => match first_rule "revenue by industry for 0 clients" with
                         | Some _ => 10
                         | None => 5
                         end
               end)
            l) /\
    1 <= match Some 0 with
         | Some n =>
             if n =? 0
             then match first_rule "revenue by industry for 0 clients" with
                  | Some _ => 10
                  | None => 5
                  end
             else n
         | None => match first_rule "revenue by industry for 0 clients" with
                   | Some _ => 10
                   | None => 5
                   end
         end.
Proof.
  apply (request_limit (table := unit) (chart := unit)
           (fun _ => Ok tt) (fun _ => true) (fun _ _ _ _ => Ok tt) (Ok tt) eq_refl
           "revenue by industry for 0 clients" init (Some 0)).
  - split; reflexivity.
  - vm_compute. reflexivity.
Defined.

End ProcessPrompt.

(** ** The shape of the query *)

Section QueryShape.
Import Text Py VisualizationGenerator Views Charts Requests.

Ltac conditions :=
  repeat match goal with
         | |- context [if ?c then _ else _] => destruct c eqn:?
         end.

Lemma handle_filter_frame (entity_type : string) (q : clauses) (item : string * string) :
  select_clause (handle_filter entity_type q item) = select_clause q /\
  from_clause (handle_filter entity_type q item) = from_clause q /\
  group_by_clause (handle_filter entity_type q item) = group_by_clause q /\
  order_by_clause (handle_filter entity_type q item) = order_by_clause q.
Proof.
  destruct item as [k v]. unfold handle_filter. conditions;
    cbn [add_where select_clause from_clause group_by_clause order_by_clause]; auto.
Qed.

Lemma handle_filters_frame (entity_type : string) (filters : odict) (q : clauses) :
  select_clause (handle_filters entity_type filters q) = select_clause q /\
  from_clause (handle_filters entity_type filters q) = from_clause q /\
  group_by_clause (handle_filters entity_type filters q) = group_by_clause q /\
  order_by_clause (handle_filters entity_type filters q) = order_by_clause q.
Proof.
  unfold handle_filters. revert q.
  induction filters as [|item rest IH]; intros q; [auto |].
  cbn [fold_left].
  destruct (IH (handle_filter entity_type q item)) as (-> & -> & -> & ->).
  apply handle_filter_frame.
Qed.

Lemma handle_metric_frame (metric : string) (q : clauses) :
  from_clause (handle_metric metric q) = from_clause q /\
  where_clause (handle_metric metric q) = where_clause q /\
  group_by_clause (handle_metric metric q) = group_by_clause q.
Proof.
  unfold handle_metric. conditions;
    cbn [add_select add_order_by from_clause where_clause group_by_clause]; auto.
Qed.

Lemma handle_metric_select (metric : string) (q : clauses) :
  select_clause (handle_metric metric q)
  = select_clause q ++ select_clause (handle_metric metric no_clauses).
Proof.
  unfold handle_metric. conditions;
    cbn [add_select add_order_by select_clause no_clauses app];
    rewrite <- ?app_assoc, ?app_nil_r; reflexivity.
Qed.

Lemma handle_metric_order (metric : string) (q : clauses) :
  order_by_clause (handle_metric metric q)
  = order_by_clause q ++ order_by_clause (handle_metric metric no_clauses).
Proof.
  unfold handle_metric. conditions;
    cbn [add_select add_order_by order_by_clause no_clauses app];
    rewrite ?app_nil_r; reflexivity.
Qed.

Lemma handle_entity_order (entity_type metric dimension : string) (q : clauses) :
  order_by_clause (handle_entity entity_type metric dimension q) = order_by_clause q.
Proof.
  unfold handle_entity. conditions;
    cbn [add_select add_from add_where add_group_by order_by_clause]; reflexivity.
Qed.

Lemma member_In (x : string) (l : list string) : member x l = true -> In x l.
Proof.
  unfold member. intros (y & Hy & E)%existsb_exists.
  apply String.eqb_eq in E. now subst y.
Qed.

Lemma not_In_member (x : string) (l : list string) : ~ In x l -> member x l = false.
Proof.
  intros H. destruct (member x l) eqn:E; [|reflexivity].
  now apply member_In in E.
Qed.

Lemma unhandled_metric_unchanged (metric : string) (q : clauses) :
  ~ In metric handled_metrics -> handle_metric metric q = q.
Proof.
  intros H. apply not_In_member in H. unfold member, handled_metrics in H.
  cbn [existsb] in H.
  repeat match goal with
         | H : _ || _ = false |- _ => apply orb_false_iff in H; destruct H
         end.
  unfold handle_metric.
  repeat match goal with
         | H : String.eqb _ _ = false |- _ => rewrite H; clear H
         end.
  reflexivity.
Qed.

Lemma odict_get_In (k v : string) (d : odict) : odict_get k d = Some v -> In (k, v) d.
Proof.
  induction d as [|[k' v'] d IH]; cbn [odict_get]; [discriminate |].
  destruct (String.eqb_spec k' k) as [-> | Hk].
  - intros [= ->]. now left.
  - intros H. right. now apply IH.
Qed.

Lemma ineffective_filter (entity_type : string) (q : clauses) (item : string * string) :
  effective item = false -> handle_filter entity_type q item = q.
Proof.
  destruct item as [k v]. unfold effective, handle_filter. cbn [fst snd].
  destruct (truthy v); [|now rewrite !andb_false_r].
  rewrite andb_true_r. unfold member, filter_keys. cbn [existsb]. intros H.
  repeat match goal with
         | H : _ || _ = false |- _ => apply orb_false_iff in H; destruct H
         end.
  repeat match goal with
         | H : String.eqb _ _ = false |- _ => rewrite H; clear H
         end.
  reflexivity.
Qed.

Lemma entity_never_selects_pipeline_value (entity_type metric dimension : string) :
  existsb (endswith " as pipeline_value")
    (select_clause (handle_entity entity_type metric dimension no_clauses)) = false.
Proof.
  unfold handle_entity.
  repeat match goal with
         | |- context [if member ?x ?l then _ else _] => destruct (member x l) eqn:?
         | |- context [if String.eqb ?x ?y then _ else _] => destruct (String.eqb x y) eqn:?
         end;
    try reflexivity;
    repeat match goal with
           | H : member dimension _ = true |- _ =>
               apply member_In in H; cbn [In] in H; decompose [or] H; clear H
           end;
    subst; try contradiction; reflexivity.
Qed.

Lemma selects_build (col entity_type metric dimension : string) (filters : odict) :
  selects col (build_clauses entity_type metric dimension filters)
  = existsb (endswith (" as " +:+ col))
      (select_clause (handle_entity entity_type metric dimension no_clauses))
    || existsb (endswith (" as " +:+ col)) (select_clause (handle_metric metric no_clauses)).
Proof.
  unfold selects, build_clauses.
  destruct (handle_filters_frame entity_type filters
              (handle_metric metric (handle_entity entity_type metric dimension no_clauses)))
    as (-> & _).
  rewrite handle_metric_select. apply existsb_app.
Qed.

Lemma all_selected (cols : list string) (entity_type metric dimension : string)
    (filters : odict) :
  forallb (fun col => existsb (endswith (" as " +:+ col))
                        (select_clause (handle_metric metric no_clauses))) cols = true ->
  forallb (fun col => selects col (build_clauses entity_type metric dimension filters)) cols
  = true.
Proof.
  rewrite !forallb_forall. intros H col Hcol.
  rewrite selects_build, (H col Hcol). apply orb_true_r.
Qed.

(** X8.  The ORDER BY clause of the query never depends on the query type
    and never sorts upwards: it has at most one item, and that item ends
    with DESC.  A request for the bottom N is sorted like one for the
    top N. *)
Theorem order_is_descending (entity_type metric dimension : string) (filters : odict) :
  Forall (fun x => endswith " DESC" x = true)
    (order_by_clause (build_clauses entity_type metric dimension filters)) /\
  (length (order_by_clause (build_clauses entity_type metric dimension filters)) <= 1)%nat.
Proof.
  unfold build_clauses.
  destruct (handle_filters_frame entity_type filters
              (handle_metric metric (handle_entity entity_type metric dimension no_clauses)))
    as (_ & _ & _ & ->).
  rewrite handle_metric_order, handle_entity_order. cbn [no_clauses order_by_clause app].
  unfold handle_metric. conditions;
    cbn [add_select add_order_by order_by_clause no_clauses app length];
    split; try lia; repeat constructor.
Qed.

(** X9.  A filter whose key the builder does not know, or whose value is
    empty, leaves no trace in the query. *)
Theorem ineffective_filters_are_ignored (entity_type metric dimension : string)
    (filters : odict) (limit : Z) :
  build_query entity_type metric dimension filters limit
  = build_query entity_type metric dimension (List.filter effective filters) limit.
Proof.
  unfold build_query, build_clauses, handle_filters. f_equal.
  generalize (handle_metric metric (handle_entity entity_type metric dimension no_clauses)).
  induction filters as [|item rest IH]; intros q; [reflexivity |].
  cbn [fold_left List.filter]. destruct (effective item) eqn:E.
  - cbn [fold_left]. apply IH.
  - rewrite (ineffective_filter entity_type q item E). apply IH.
Qed.

(** X10.  A metric without a branch of its own (such as [cost], which both
    the resolver and the template [cost_breakdown] ask for) adds no column
    and no ORDER BY; when the entity branch selects no column either, the
    text of the query starts with an empty select list. *)
Theorem unhandled_metric_selects_nothing (entity_type metric dimension : string)
    (filters : odict) (limit : Z) :
  ~ In metric handled_metrics ->
  select_clause (build_clauses entity_type metric dimension filters)
  = select_clause (handle_entity entity_type metric dimension no_clauses) /\
  order_by_clause (build_clauses entity_type metric dimension filters) = [] /\
  (select_clause (handle_entity entity_type metric dimension no_clauses) = [] ->
   startswith "SELECT  FROM " (build_query entity_type metric dimension filters limit)
   = true).
Proof.
  intros H.
  assert (select_clause (build_clauses entity_type metric dimension filters)
          = select_clause (handle_entity entity_type metric dimension no_clauses)) as Hs.
  { unfold build_clauses. rewrite (unhandled_metric_unchanged metric _ H).
    apply handle_filters_frame. }
  split; [exact Hs |]. split.
  - unfold build_clauses. rewrite (unhandled_metric_unchanged metric _ H).
    destruct (handle_filters_frame entity_type filters
                (handle_entity entity_type metric dimension no_clauses))
      as (_ & _ & _ & ->).
    now rewrite handle_entity_order.
  - intros He. unfold build_query, assemble. rewrite Hs, He. cbn [join].
    conditions; rewrite ?append_assoc; reflexivity.
Qed.

Lemma unhandled_metric_selects_nothing_witness :
  select_clause (build_clauses "enrollments" "cost" "cost_type" [("region", "Asia")])
  = select_clause (handle_entity "enrollments" "cost" "cost_type" no_clauses) /\
  order_by_clause (build_clauses "enrollments" "cost" "cost_type" [("region", "Asia")]) = [] /\
  (select_clause (handle_entity "enrollments" "cost" "cost_type" no_clauses) = [] ->
   startswith "SELECT  FROM "
     (build_query "enrollments" "cost" "cost_type" [("region", "Asia")] 10)
   = true).
Proof.
  apply (unhandled_metric_selects_nothing "enrollments" "cost" "cost_type"
           [("region", "Asia")] 10).
  cbn [handled_metrics In]. intros H. decompose [or] H; try discriminate. assumption.
Defined.

(** X11.  For clients by [client_name] and for programs by [program_name],
    the dimensions that the resolver and the first three templates pair
    with these entities, the query has no GROUP BY and no column of the
    dimension: its select list is that of the metric alone. *)
Theorem name_dimensions_are_not_grouped (entity_type metric dimension : string)
    (filters : odict) :
  (entity_type = "clients" /\ dimension = "client_name") \/
  (entity_type = "programs" /\ dimension = "program_name") ->
  group_by_clause (build_clauses entity_type metric dimension filters) = [] /\
  select_clause (build_clauses entity_type metric dimension filters)
  = select_clause (handle_metric metric no_clauses).
Proof.
  intros H. unfold build_clauses.
  destruct (handle_filters_frame entity_type filters
              (handle_metric metric (handle_entity entity_type metric dimension no_clauses)))
    as (-> & _ & -> & _).
  destruct (handle_metric_frame metric
              (handle_entity entity_type metric dimension no_clauses)) as (_ & _ & ->).
  rewrite handle_metric_select.
  destruct H as [[-> ->] | [-> ->]]; unfold handle_entity;
    cbn [String.eqb Ascii.eqb Bool.eqb member existsb orb];
    destruct (String.eqb metric "revenue" || _); split; reflexivity.
Qed.

Lemma name_dimensions_are_not_grouped_witness :
  group_by_clause (build_clauses "clients" "revenue" "client_name" []) = [] /\
  select_clause (build_clauses "clients" "revenue" "client_name" [])
  = select_clause (handle_metric "revenue" no_clauses).
Proof.
  apply (name_dimensions_are_not_grouped "clients" "revenue" "client_name" []).
  left. split; reflexivity.
Defined.

(** X12.  For each metric with a branch of its own, the column that the
    bar and line charts plot ([y_col]) and the column of the pie chart
    ([value_col]) are named in the select list of the query, whatever the
    entity, dimension and filters.  The columns of the comparison chart
    are all named there as well, except for [pipeline_value]: that branch
    reads a column [pipeline_value], and the query names none. *)
Theorem chart_columns_are_selected (entity_type metric dimension : string)
    (filters : odict) :
  In metric handled_metrics ->
  selects (y_col metric) (build_clauses entity_type metric dimension filters) = true /\
  selects (value_col metric) (build_clauses entity_type metric dimension filters) = true /\
  forallb (fun col => selects col (build_clauses entity_type metric dimension filters))
    (comparison_cols metric)
  = negb (String.eqb metric "pipeline_value").
Proof.
  intros H. cbn [handled_metrics In] in H.
  repeat (destruct H as [<- | H]); [.. | destruct H];
    (split; [rewrite selects_build; apply orb_true_iff; right; reflexivity |]);
    (split; [rewrite selects_build; apply orb_true_iff; right; reflexivity |]);
    try (apply all_selected; reflexivity).
  change (comparison_cols "pipeline_value") with ["pipeline_value"].
  cbn [forallb]. rewrite selects_build, entity_never_selects_pipeline_value.
  reflexivity.
Qed.

Lemma chart_columns_are_selected_witness :
  selects (y_col "win_rate") (build_clauses "opportunities" "win_rate" "stage" []) = true /\
  selects (value_col "win_rate") (build_clauses "opportunities" "win_rate" "stage" [])
  = true /\
  forallb (fun col => selects col (build_clauses "opportunities" "win_rate" "stage" []))
    (comparison_cols "win_rate")
  = negb (String.eqb "win_rate" "pipeline_value").
Proof.
  apply (chart_columns_are_selected "opportunities" "win_rate" "stage" []).
  cbn [handled_metrics In]. tauto.
Defined.

Section External.
Context {table chart : Type}.
Variable read_sql : string -> result table.
Variable empty : table -> bool.
Variable draw : string -> string -> string -> table -> result chart.

(** X13.  A query type without a chart branch (bottom and average among
    those of the resolver) gets the data of the same query as any other
    and no chart; nothing is drawn, so the only error it can return is
    that of the database. *)
Theorem chartless_query_types (query_type entity_type metric dimension : string)
    (filters : odict) (limit : Z) :
  ~ In query_type ["top"; "trend"; "distribution"; "comparison"] ->
  create_custom_visualization read_sql empty draw
    query_type entity_type metric dimension filters limit
  = match read_sql (build_query entity_type metric dimension filters limit) with
    | Ok data =>
        Visualization data None (build_query entity_type metric dimension filters limit)
    | Raise e => Failure (str_of_exn e)
    end.
Proof.
  intros H. apply not_In_member in H. unfold member in H. cbn [existsb] in H.
  repeat match goal with
         | H : _ || _ = false |- _ => apply orb_false_iff in H; destruct H
         end.
  unfold create_custom_visualization, visualization_body, compile, chart_kind.
  repeat match goal with
         | H : String.eqb _ _ = false |- _ => rewrite H; clear H
         end.
  cbn [andb mbind result_bind].
  destruct (read_sql _) as [data|e]; cbn [mbind result_bind]; [|reflexivity].
  now destruct (empty data).
Qed.

End External.

Lemma chartless_query_types_witness :
  create_custom_visualization (table := unit) (chart := unit)
    (fun _ => Ok tt) (fun _ => false) (fun _ _ _ _ => Ok tt)
    "bottom" "clients" "revenue" "industry" [] 5
  = match Ok tt with
    | Ok data => Visualization data None (build_query "clients" "revenue" "industry" [] 5)
    | Raise e => Failure (str_of_exn e)
    end.
Proof.
  apply (chartless_query_types (table := unit) (chart := unit)
           (fun _ => Ok tt) (fun _ => false) (fun _ _ _ _ => Ok tt)
           "bottom" "clients" "revenue" "industry" [] 5).
  cbn [In]. intros H. decompose [or] H; try discriminate. assumption.
Defined.

End QueryShape.

(** ** The resolver and the builder together *)

Section Composition.
Import Text Re Py VisualizationGenerator PromptAnalyzer Views Requests.

Lemma last_of_none (l : list string) : last_of l = None -> l = [].
Proof.
  induction l as [|x l IH]; [reflexivity |].
  cbn [last_of]. destruct l as [|y l]; [discriminate |]. intros H.
  specialize (IH H). discriminate.
Qed.

Lemma dates_of_is_relative (period : string) :
  startswith ("date(" +:+ dq +:+ "now" +:+ dq) (fst (dates_of period)) = true.
Proof.
  unfold dates_of.
  repeat match goal with
         | |- context [if ?c then _ else _] => destruct c
         end; reflexivity.
Qed.

Lemma no_filters_before_periods (prompt key : string) (limit : option Z)
    (p1 p2 p3 p4 : gmap string value) :
  entity_pass prompt (set_limit limit default_params) = Ok p1 ->
  metric_pass prompt p1 = Ok p2 ->
  dimension_pass prompt p2 = Ok p3 ->
  query_type_pass prompt p3 = Ok p4 ->
  filter_of p4 key = None.
Proof.
  intros E1 E2 E3 E4. unfold filter_of.
  rewrite (pass_keeps "filters" _ _ _
             (fun c => query_type_body_keeps "filters" c ltac:(discriminate)) _ _ E4).
  rewrite (pass_keeps "filters" _ _ _
             (fun c => dimension_body_keeps "filters" c ltac:(discriminate)
                         ltac:(discriminate)) _ _ E3).
  rewrite (pass_keeps "filters" _ _ _
             (fun c => metric_body_keeps "filters" _ c ltac:(discriminate)
                         ltac:(discriminate) ltac:(discriminate)) _ _ E2).
  rewrite (pass_keeps "filters" _ _ _
             (fun c => entity_body_keeps "filters" c ltac:(discriminate)
                         ltac:(discriminate)) _ _ E1).
  unfold set_limit. destruct limit as [n|]; [destruct (n =? 0) |];
    reflexivity.
Qed.

(** X15.  A date filter that [analyze_prompt] leaves is the expression of
    the last time period that the prompt names, a call [date("now", ...)]
    of SQLite; and the builder puts it into the query of enrollments and
    of opportunities between single quotes, as a string to compare the
    column with, not as a call. *)
Theorem period_reaches_query_as_text (prompt : string) (params : gmap string value)
    (f : odict) (v : string) :
  analyze_prompt prompt = Ok params ->
  params !! "filters" = Some (VDict f) ->
  odict_get "date_from" f = Some v ->
  (exists period,
      last_of (matching time_periods (lower prompt)) = Some period /\
      v = fst (dates_of period)) /\
  startswith ("date(" +:+ dq +:+ "now" +:+ dq) v = true /\
  forall metric dimension,
    In ("e.start_date >= '" +:+ v +:+ "'")
       (where_clause (build_clauses "enrollments" metric dimension f)) /\
    In ("o.created_date >= '" +:+ v +:+ "'")
       (where_clause (build_clauses "opportunities" metric dimension f)).
Proof.
  intros E Hf Hv. destruct (analyze_prompt_number prompt params E) as [limit Hn].
  destruct (analyze_prompt_passes prompt limit Hn)
    as (p1 & p2 & p3 & p4 & p5 & p6 & E1 & E2 & E3 & E4 & E5 & E6 & E' & _).
  rewrite E' in E. injection E as <-.
  assert (filter_of p5 "date_from" = Some v) as H5.
  { rewrite <- (filter_pass_keeps_dates prompt "date_from" p5 p6 (or_introl eq_refl) E6).
    unfold filter_of. now rewrite Hf. }
  assert (exists period,
             last_of (matching time_periods (lower prompt)) = Some period /\
             v = fst (dates_of period)) as (period & Hlast & ->).
  { destruct (last_of (matching time_periods (lower prompt))) as [period|] eqn:Hlast.
    - exists period. split; [reflexivity |].
      destruct (time_period_pass_last prompt period p4 p5 Hlast E5) as [Hd _].
      rewrite Hd in H5. now injection H5.
    - apply last_of_none in Hlast. unfold time_period_pass in E5.
      rewrite for_categories_matching, Hlast in E5. cbn [apply_all] in E5.
      injection E5 as <-.
      rewrite (no_filters_before_periods prompt "date_from" limit p1 p2 p3 p4
                 E1 E2 E3 E4) in H5.
      discriminate. }
  pose proof (dates_of_is_relative period) as Hrel.
  split; [eauto |]. split; [exact Hrel |].
  assert (truthy (fst (dates_of period)) = true) as Ht.
  { apply truthy_nonempty. intros Hempty. rewrite Hempty in Hrel. discriminate. }
  apply odict_get_In in Hv.
  intros metric dimension. split; unfold build_clauses;
    apply (handle_filters_where_item _ _ _ _ _ Hv); intros q';
    unfold handle_filter; cbn [String.eqb Ascii.eqb Bool.eqb andb]; rewrite Ht;
    cbn [add_where where_clause]; apply in_or_app; right; now left.
Qed.

Lemma period_reaches_query_as_text_witness :
  (exists period,
      last_of (matching time_periods (lower "Enrollments of this month")) = Some period /\
      date_now_with [quoted "start of month"] = fst (dates_of period)) /\
  startswith ("date(" +:+ dq +:+ "now" +:+ dq) (date_now_with [quoted "start of month"])
  = true /\
  forall metric dimension,
    In ("e.start_date >= '" +:+ date_now_with [quoted "start of month"] +:+ "'")
       (where_clause (build_clauses "enrollments" metric dimension
                        [("date_from", date_now_with [quoted "start of month"]);
                         ("date_to", date_now)])) /\
    In ("o.created_date >= '" +:+ date_now_with [quoted "start of month"] +:+ "'")
       (where_clause (build_clauses "opportunities" metric dimension
                        [("date_from", date_now_with [quoted "start of month"]);
                         ("date_to", date_now)])).
Proof.
  apply (period_reaches_query_as_text "Enrollments of this month"
           (<["filters" := VDict [("date_from", date_now_with [quoted "start of month"]);
                                  ("date_to", date_now)]]>
            (<["query_type" := VStr "trend"]>
            (<["dimension" := VStr "month"]>
            (<["entity_type" := VStr "enrollments"]> default_params))))).
  - reflexivity.
  - reflexivity.
  - reflexivity.
Defined.

Lemma lower_char_idempotent (c : ascii) : lower_char (lower_char c) = lower_char c.
Proof. destruct c as [[] [] [] [] [] [] [] []]; reflexivity. Qed.

Lemma lower_idempotent (s : string) : lower (lower s) = lower s.
Proof.
  induction s as [|c s IH]; [reflexivity |].
  cbn [lower]. now rewrite lower_char_idempotent, IH.
Qed.

Lemma lower_char_of_digit (c : ascii) : isdigit c = true -> lower_char c = c.
Proof.
  destruct c as [[] [] [] [] [] [] [] []]; intros H; try reflexivity; discriminate H.
Qed.

Lemma take_digits_lower (s : string) : take_digits (lower s) = take_digits s.
Proof.
  unfold take_digits. induction s as [|c s IH]; [reflexivity |].
  cbn [lower take_while]. rewrite lower_char_digit.
  destruct (isdigit c) eqn:Hc; [|reflexivity].
  now rewrite (lower_char_of_digit c Hc), IH.
Qed.

Lemma first_digits_lower (s : string) : first_digits (lower s) = first_digits s.
Proof.
  induction s as [|c s IH]; [reflexivity |].
  pose proof (take_digits_lower (String c s)) as Ht.
  cbn [lower] in Ht |- *. cbn [first_digits]. rewrite lower_char_digit.
  destruct (isdigit c); [now rewrite Ht | exact IH].
Qed.

Lemma extract_number_lower (prompt : string) :
  extract_number (lower prompt) = extract_number prompt.
Proof.
  unfold extract_number. rewrite lower_idempotent, !search_digits, first_digits_lower.
  reflexivity.
Qed.

(** X16.  Apart from the values of the six filter phrases, which are
    copied from the prompt as typed, nothing in the request depends on
    the case of the letters of the prompt: the number, the matching
    template, every key of the result of [analyze_prompt] other than
    [filters], and its two date filters are those of the lower-cased
    prompt; and [analyze_prompt] raises on the one exactly as on the
    other. *)
Theorem analysis_ignores_case (prompt : string) :
  extract_number (lower prompt) = extract_number prompt /\
  first_rule (lower prompt) = first_rule prompt /\
  (forall params,
      analyze_prompt prompt = Ok params ->
      exists params',
        analyze_prompt (lower prompt) = Ok params' /\
        (forall key, key <> "filters" -> params' !! key = params !! key) /\
        filter_of params' "date_from" = filter_of params "date_from" /\
        filter_of params' "date_to" = filter_of params "date_to") /\
  (forall e, analyze_prompt prompt = Raise e -> analyze_prompt (lower prompt) = Raise e).
Proof.
  split; [apply extract_number_lower |].
  split; [unfold first_rule; now rewrite lower_idempotent |].
  split.
  - intros params Ha. destruct (analyze_prompt_number prompt params Ha) as [limit Hn].
    pose proof Hn as Hn'. rewrite <- extract_number_lower in Hn'.
    destruct (analyze_prompt_passes prompt limit Hn)
      as (p1 & p2 & p3 & p4 & p5 & p6 & E1 & E2 & E3 & E4 & E5 & E6 & E & _).
    destruct (analyze_prompt_passes (lower prompt) limit Hn')
      as (q1 & q2 & q3 & q4 & q5 & q6 & F1 & F2 & F3 & F4 & F5 & F6 & F & _).
    rewrite E in Ha. injection Ha as <-.
    unfold entity_pass, metric_pass, dimension_pass, query_type_pass, time_period_pass
      in E1, E2, E3, E4, E5, F1, F2, F3, F4, F5.
    rewrite lower_idempotent in F1, F2, F3, F4, F5.
    rewrite E1 in F1. injection F1 as <-.
    rewrite E2 in F2. injection F2 as <-.
    rewrite E3 in F3. injection F3 as <-.
    rewrite E4 in F4. injection F4 as <-.
    rewrite E5 in F5. injection F5 as <-.
    exists q6. split; [exact F |]. split; [|split].
    + intros key Hkey.
      rewrite (filter_pass_keeps key (lower prompt) Hkey _ _ F6).
      now rewrite (filter_pass_keeps key prompt Hkey _ _ E6).
    + rewrite (filter_pass_keeps_dates (lower prompt) "date_from" p5 q6
                 (or_introl eq_refl) F6).
      now rewrite (filter_pass_keeps_dates prompt "date_from" p5 p6 (or_introl eq_refl) E6).
    + rewrite (filter_pass_keeps_dates (lower prompt) "date_to" p5 q6
                 (or_intror eq_refl) F6).
      now rewrite (filter_pass_keeps_dates prompt "date_to" p5 p6 (or_intror eq_refl) E6).
  - intros e Ha. apply analyze_prompt_raises. rewrite extract_number_lower.
    destruct (extract_number prompt) as [limit|e'] eqn:Hn.
    + destruct (analyze_prompt_returns prompt limit Hn) as [params E]. congruence.
    + apply analyze_prompt_raises in Hn. congruence.
Qed.

End Composition.

(** ** Joins and aggregates *)

Section Aggregates.
Import Text Py VisualizationGenerator Views.

(** X17.  For clients and for programs the enrollments table is joined
    for the metrics revenue, profit and enrollment_count only: with any
    other metric the FROM clause is the one table of the entity, whatever
    the dimension and the filters.  [profit_margin] is such a metric, and
    its columns are sums over [e.revenue]. *)
Theorem enrollments_join_needs_listed_metric (entity_type metric dimension : string)
    (filters : odict) :
  entity_type = "clients" \/ entity_type = "programs" ->
  ~ In metric ["revenue"; "profit"; "enrollment_count"] ->
  from_clause (build_clauses entity_type metric dimension filters)
  = [if String.eqb entity_type "clients" then "clients c" else "programs p"] /\
  (metric = "profit_margin" ->
   In "SUM(e.revenue) as total_revenue"
      (select_clause (build_clauses entity_type metric dimension filters))).
Proof.
  intros He Hm. apply not_In_member in Hm. unfold build_clauses.
  destruct (handle_filters_frame entity_type filters
              (handle_metric metric (handle_entity entity_type metric dimension no_clauses)))
    as (-> & -> & _).
  destruct (handle_metric_frame metric
              (handle_entity entity_type metric dimension no_clauses)) as (-> & _).
  split.
  - destruct He as [-> | ->]; unfold handle_entity;
      cbn [String.eqb Ascii.eqb Bool.eqb]; rewrite Hm;
      repeat match goal with
             | |- context [if ?c then _ else _] => destruct c
             end; reflexivity.
  - intros ->. rewrite handle_metric_select. apply in_or_app. right.
    cbn. tauto.
Qed.

Lemma enrollments_join_needs_listed_metric_witness :
  from_clause (build_clauses "programs" "profit_margin" "program_name" [])
  = [if String.eqb "programs" "clients" then "clients c" else "programs p"] /\
  ("profit_margin" = "profit_margin" ->
   In "SUM(e.revenue) as total_revenue"
      (select_clause (build_clauses "programs" "profit_margin" "program_name" []))).
Proof.
  apply (enrollments_join_needs_listed_metric "programs" "profit_margin" "program_name" []).
  - right. reflexivity.
  - cbn [In]. intros H. decompose [or] H; try discriminate. assumption.
Defined.

Lemma won_and_lost (g : list opportunity) : won_count g + lost_count g <= total_count g.
Proof.
  unfold won_count, lost_count, count_stage, total_count.
  induction g as [|o g IH]; [reflexivity |].
  cbn [List.filter length]. destruct (stage o) as [s|].
  - destruct (String.eqb_spec s "Closed Won") as [-> | Hw].
    + cbn [String.eqb Ascii.eqb Bool.eqb length]. lia.
    + destruct (String.eqb s "Closed Lost"); cbn [length]; lia.
  - cbn [length]. lia.
Qed.

(** X18.  In every group of opportunities the won and the lost ones
    together are at most all of them, and the win rate of the query is a
    number between 0 and 100, never NULL. *)
Theorem win_rate_bounds (g : list opportunity) :
  won_count g + lost_count g <= total_count g /\
  exists v, win_rate g = Some v /\ (0 <= to_real v)%Q /\ (to_real v <= 100)%Q.
Proof.
  split; [apply won_and_lost |].
  pose proof (count_stage_bounds "Closed Won" g) as [Hlo Hhi].
  fold (won_count g) in Hlo, Hhi.
  destruct g as [|o g'] eqn:Hg.
  - exists (Int 0). split; [reflexivity |]. split; discriminate.
  - rewrite <- Hg in *. rewrite win_rate_of_rows by (rewrite Hg; discriminate).
    eexists. split; [reflexivity |]. cbn [to_real].
    assert (0 < total_count g) as Hpos.
    { rewrite Hg. unfold total_count. cbn [length]. lia. }
    destruct (total_count g) as [|t|t] eqn:Ht; try lia.
    unfold Qle, Qdiv, Qmult, Qinv, inject_Z. cbn [Qnum Qden]. split; nia.
Qed.

Lemma sql_sum_null (l : list (option num)) :
  sql_sum l = None <-> Forall (fun x => x = None) l.
Proof.
  induction l as [|x l IH]; cbn [sql_sum].
  - split; [constructor | reflexivity].
  - destruct x as [a|].
    + split.
      * destruct (sql_sum l); discriminate.
      * intros H. inversion H. discriminate.
    + rewrite IH. split.
      * intros H. now constructor.
      * intros H. now inversion H.
Qed.

(** X19.  The profit margin of a group is NULL exactly when its revenue is
    positive and no row has a profit; and a row has no profit as soon as
    its revenue or one of its five costs is NULL. *)
Theorem profit_margin_null (g : list enrollment) :
  (profit_margin g = None <->
   is_positive (total_revenue g) = true /\ Forall (fun e => row_profit e = None) g) /\
  (forall e,
      row_profit e = None <->
      revenue e = None \/ trainer_cost e = None \/ logistics_cost e = None \/
      venue_cost e = None \/ utilities_cost e = None \/ materials_cost e = None).
Proof.
  split.
  - unfold profit_margin. destruct (is_positive (total_revenue g)) eqn:Hpos.
    + destruct (is_positive_spec _ Hpos) as (r & Hr & _ & Hne & Hz). rewrite Hr.
      assert (total_profit g = None <-> Forall (fun e => row_profit e = None) g) as <-.
      { unfold total_profit. rewrite sql_sum_null, Forall_map. reflexivity. }
      unfold sql_div, lift2. destruct (total_profit g) as [p|].
      * split; [|intros [_ H]; discriminate].
        destruct p as [x|x], r as [y|y]; rewrite ?(Hz y eq_refl), ?Hne; discriminate.
      * tauto.
    + split; [discriminate | intros [H _]; discriminate].
  - intros [[r|] [a|] [b|] [c|] [d|] [x|]]; cbn; split; intros H;
      try discriminate; try reflexivity; try tauto;
      decompose [or] H; discriminate.
Qed.

End Aggregates.
